(** * FnBox: function lifecycle, gateway, agent and trigger sync

    A shallow embedding of the orchestration core of the FnBox backend
    ([backend/functions]): the Kubernetes manager, the in-pod agent, the
    Celery tasks and the Django signal receivers, with the properties the
    design document states about them. *)

From Stdlib Require Import ZArith Lia Ascii String.
From stdpp Require Import base tactics option list strings pretty sorting gmap.

Local Set Warnings "-register-all".
Local Open Scope string_scope.
Local Open Scope list_scope.
Local Open Scope Z_scope.

(** ** Python values and idioms used by the sources *)

Module Py.

(** Exceptions the sources raise or catch.  [ApiException] is the
    Kubernetes client's error and carries the HTTP status of the cluster
    API; [Exception] stands for every other exception class. *)
Inductive exn :=
| ApiException (status : Z)
| ValueError (msg : string)
| Exception (msg : string).

(** [str(e)].  The text of an [ApiException] goes on after the status with
    the reason, the headers and the body of the answer of the cluster; only
    its beginning, the status between brackets, is kept here. *)
Definition str (e : exn) : string :=
  match e with
  | ApiException status => "(" +:+ pretty status +:+ ")"
  | ValueError msg => msg
  | Exception msg => msg
  end.

(** Result of running a piece of Python: a value or a raised exception. *)
Inductive outcome (A : Type) :=
| Return (a : A)
| Raise (e : exn).
Global Arguments Return {A} a.
Global Arguments Raise {A} e.

Definition returns {A} (o : outcome A) : bool :=
  match o with Return _ => true | Raise _ => false end.

(** Truthiness of an optional string: [None] and [''] are falsy. *)
Definition truthy (s : option string) : bool :=
  match s with
  | None => false
  | Some "" => false
  | Some _ => true
  end.

(** [s[:n]]. *)
Definition prefix_of_length (n : nat) (s : string) : string := String.substring 0 n s.

(** [needle in hay] on strings. *)
Fixpoint contains (needle hay : string) : bool :=
  String.prefix needle hay ||
  match hay with
  | EmptyString => false
  | String _ rest => contains needle rest
  end.

(** White space, the characters [str.strip()] and [str.split()] remove.
    A [string] stands for a Python [str] whose code points are all below
    256, the character of code point [n] being [ascii_of_nat n]; among
    these [str.isspace] holds of 9 to 13, 28 to 32, 133 and 160.  Text with
    other code points is outside the model. *)
Definition is_space (c : ascii) : bool :=
  let n := nat_of_ascii c in
  ((9 <=? n)%nat && (n <=? 13)%nat) || ((28 <=? n)%nat && (n <=? 32)%nat)
  || Nat.eqb n 133 || Nat.eqb n 160.

(** [s.strip() == '']. *)
Fixpoint strip_is_empty (s : string) : bool :=
  match s with
  | EmptyString => true
  | String c rest => is_space c && strip_is_empty rest
  end.

(** [int(n * 1.5)] for an [int] [n]: the product is the double [3n/2],
    exact for [|n| < 2^51], and [int] truncates towards zero. *)
Definition int_times_1_5 (n : Z) : Z := Z.quot (3 * n) 2.

(** A JSON value, as produced by [json.loads] and consumed by
    [json.dumps]; objects keep their keys in insertion order.  Numbers are
    integers: those with a fraction or an exponent are left out. *)
Inductive json :=
| JNull
| JBool (b : bool)
| JInt (n : Z)
| JStr (s : string)
| JList (items : list json)
| JDict (fields : list (string * json)).

(** [d.get(key)] on a dict literal. *)
Fixpoint assoc {A} (key : string) (fields : list (string * A)) : option A :=
  match fields with
  | [] => None
  | (k, v) :: rest => if String.eqb k key then Some v else assoc key rest
  end.

End Py.

Import Py.

(** ** [functions/kubernetes.py]: the Kubernetes manager *)

Module Kubernetes.

(** Runtime to Docker image mapping. *)
Definition RUNTIME_IMAGES : list (string * string) :=
  [ ("python3.9", "fnbox-python:3.9"); ("python3.10", "fnbox-python:3.10");
    ("python3.11", "fnbox-python:3.11"); ("python3.12", "fnbox-python:3.12");
    ("python3.13", "fnbox-python:3.13"); ("python3.14", "fnbox-python:3.14");
    ("nodejs20", "fnbox-nodejs:20"); ("nodejs24", "fnbox-nodejs:24");
    ("nodejs25", "fnbox-nodejs:25");
    ("ruby3.4", "fnbox-ruby:3.4");
    ("java27", "fnbox-java:27");
    ("dotnet8", "fnbox-dotnet:8"); ("dotnet9", "fnbox-dotnet:9");
    ("dotnet10", "fnbox-dotnet:10");
    ("bash5", "fnbox-bash:5");
    ("go1.25", "fnbox-go:1.25") ].

(** A Kubernetes quantity such as [f"{memory_mb}Mi"]: the integer that is
    formatted and the unit suffix that follows it. *)
Record quantity := Quantity { amount : Z; suffix : string }.

Definition render (q : quantity) : string := pretty (amount q) +:+ suffix q.

Record V1ResourceRequirements := {
  requests : list (string * quantity);
  limits : list (string * quantity)
}.

(** The part of the [V1Deployment] body that depends on the arguments of
    [_create_deployment]; probes, security context and pod template are
    constants of the source. *)
Record V1Deployment := {
  metadata_name : string;
  function_id_label : string;
  container_image : string;
  spec_replicas : Z;
  container_resources : V1ResourceRequirements;
  install_packages : list string
}.

(** What the manager asks of its environment.  Every entry but the last
    two is one call of the Kubernetes client; [WaitForDeployment] is the
    readiness poll [_wait_for_deployment(name, timeout)], whose loop runs
    on the wall clock and is represented by its arguments and its boolean
    result; [Sleep] is [time.sleep]. *)
Inductive call :=
| CreateConfigMap (name code : string)
| PatchConfigMap (name code : string)
| CreateDeployment (body : V1Deployment)
| CreateService (name deployment_name : string)
| CreateHPA (name deployment_name : string)
| ListPods (label_selector : string)
| DeleteHPA (name : string)
| DeleteService (name : string)
| DeleteDeployment (name : string)
| ReadDeployment (name : string)
| DeleteConfigMap (name : string)
| WaitForDeployment (name : string) (timeout : Z)
| Sleep (seconds : Z).

Inductive payload :=
| PNone
| PService (cluster_ip : option string)
| PPods (names : list string)
| PReady (ready : bool).

(** Answer of the environment: a result, an [ApiException] with the
    status of the cluster API, or any other exception (transport
    failures and the like). *)
Inductive reply :=
| Ok (p : payload)
| ApiError (status : Z)
| Failure (msg : string).

(** The cluster the manager talks to, as a labelled transition system. *)
Class Cluster (world : Type) := respond : call -> world -> reply * world.

Section Manager.
Context {world : Type} {cluster : Cluster world}.

(** State threaded through the manager: the cluster, and the calls made
    so far with the answer each got, oldest first. *)
Definition state : Type := world * list (call * reply).

Definition M (A : Type) : Type := state -> outcome A * state.

Definition ret {A} (a : A) : M A := fun s => (Return a, s).

Definition raise {A} (e : exn) : M A := fun s => (Raise e, s).

Definition bind {A B} (m : M A) (k : A -> M B) : M B :=
  fun s =>
    match m s with
    | (Return a, s') => k a s'
    | (Raise e, s') => (Raise e, s')
    end.

(** [try: m  except ApiException as e: handler(e.status)]. *)
Definition except_ApiException {A} (m : M A) (handler : Z -> M A) : M A :=
  fun s =>
    match m s with
    | (Raise (ApiException status), s') => handler status s'
    | r => r
    end.

(** One call of the client. *)
Definition api (c : call) : M payload :=
  fun '(w, log) =>
    let '(r, w') := respond c w in
    let s' := (w', log ++ [(c, r)]) in
    match r with
    | Ok p => (Return p, s')
    | ApiError status => (Raise (ApiException status), s')
    | Failure msg => (Raise (Exception msg), s')
    end.

(** [time.sleep(seconds)]: the cluster moves on, nothing is raised. *)
Definition sleep (seconds : Z) : M unit :=
  fun '(w, log) =>
    (Return tt, (snd (respond (Sleep seconds) w),
                 log ++ [(Sleep seconds, Ok PNone)])).

Notation "x <- m ;; k" := (bind m (fun x => k))
  (at level 100, m at next level, right associativity).

(** [_create_function_configmap]: create, or patch when the config map
    already exists (409). *)
Definition _create_function_configmap (name code : string) : M unit :=
  except_ApiException
    (_ <- api (CreateConfigMap name code) ;; ret tt)
    (fun status =>
       if Z.eqb status 409
       then _ <- api (PatchConfigMap name code) ;; ret tt
       else raise (ApiException status)).

(** The [V1ResourceRequirements] of the function container. *)
Definition resources (memory_mb cpu_millicores : Z) : V1ResourceRequirements :=
  {| requests := [ ("memory", Quantity memory_mb "Mi");
                   ("cpu", Quantity cpu_millicores "m");
                   ("ephemeral-storage", Quantity 1 "Gi") ];
     limits := [ ("memory", Quantity (int_times_1_5 memory_mb) "Mi");
                 ("cpu", Quantity (int_times_1_5 cpu_millicores) "m");
                 ("ephemeral-storage", Quantity 2 "Gi") ] |}.

Definition _create_deployment (name function_id image : string)
    (memory_mb cpu_millicores replicas : Z) (dependencies : list string)
    : M payload :=
  api (CreateDeployment
         {| metadata_name := name;
            function_id_label := function_id;
            container_image := image;
            spec_replicas := replicas;
            container_resources := resources memory_mb cpu_millicores;
            install_packages := dependencies |}).

Definition _create_service (name deployment_name : string) : M payload :=
  api (CreateService name deployment_name).

(** [_create_hpa]: a failure to create the autoscaler is logged and
    does not fail the deployment. *)
Definition _create_hpa (deployment_name : string) : M unit :=
  except_ApiException
    (_ <- api (CreateHPA (deployment_name +:+ "-hpa") deployment_name) ;; ret tt)
    (fun _ => ret tt).

Definition _wait_for_deployment (name : string) (timeout : Z) : M bool :=
  p <- api (WaitForDeployment name timeout) ;;
  ret (match p with PReady ready => ready | _ => false end).

(** The readiness budget of [deploy_function]: 60s, plus 10s per
    dependency package, at most 300s. *)
Definition deployment_timeout (dependencies : list string) : Z :=
  let base_timeout := 60 in
  let per_package_timeout := 10 in
  let calculated_timeout :=
    base_timeout + Z.of_nat (length dependencies) * per_package_timeout in
  Z.min calculated_timeout 300.

Record DeploymentInfo := {
  info_deployment_name : string;
  info_service_name : string;
  info_service_ip : option string;
  info_pod_name : option string;
  info_status : string
}.

(** [deploy_function].  [vcpu_count] is a whole number of cores, the
    type the API schemas give it, so that
    [int(float(vcpu_count) * 1000)] is [vcpu_count * 1000]. *)
Definition deploy_function (function_id runtime code : string)
    (dependencies : list string) (memory_mb timeout_seconds vcpu_count : Z)
    : M DeploymentInfo :=
  let deployment_name := "func-" +:+ prefix_of_length 8 function_id in
  let service_name := deployment_name +:+ "-svc" in
  let image := assoc runtime RUNTIME_IMAGES in
  if negb (truthy image) then
    raise (ValueError ("Unsupported runtime: " +:+ runtime))
  else
    _ <- _create_function_configmap deployment_name code ;;
    _ <- _create_deployment deployment_name function_id (default "" image)
           memory_mb (vcpu_count * 1000) 1 dependencies ;;
    service <- _create_service service_name deployment_name ;;
    _ <- _create_hpa deployment_name ;;
    ready <- _wait_for_deployment deployment_name (deployment_timeout dependencies) ;;
    if negb ready then
      raise (Exception ("Deployment " +:+ deployment_name +:+ " failed to become ready"))
    else
      pods <- api (ListPods ("app=" +:+ deployment_name)) ;;
      ret {| info_deployment_name := deployment_name;
             info_service_name := service_name;
             info_service_ip :=
               match service with PService ip => ip | _ => None end;
             info_pod_name :=
               match pods with PPods (name :: _) => Some name | _ => None end;
             info_status := "running" |}.

(** The wait of [delete_function]: up to 30 reads of the deployment,
    one second apart, ended by the first 404; an [ApiException] with
    another status is swallowed and the loop goes on without
    sleeping. *)
Fixpoint wait_deleted (rounds : nat) (deployment_name : string) : M unit :=
  match rounds with
  | O => ret tt
  | S rounds' =>
      gone <- except_ApiException
                (_ <- api (ReadDeployment deployment_name) ;;
                 _ <- sleep 1 ;;
                 ret false)
                (fun status => ret (Z.eqb status 404)) ;;
      if (gone : bool) then ret tt else wait_deleted rounds' deployment_name
  end.

(** [try: api(c)  except ApiException: log]. *)
Definition delete_ignoring_api_errors (c : call) : M unit :=
  except_ApiException (_ <- api c ;; ret tt) (fun _ => ret tt).

(** [delete_function]: HPA, service, deployment, wait, config map. *)
Definition delete_function (deployment_name : string) : M unit :=
  let service_name := deployment_name +:+ "-svc" in
  let hpa_name := deployment_name +:+ "-hpa" in
  _ <- delete_ignoring_api_errors (DeleteHPA hpa_name) ;;
  _ <- delete_ignoring_api_errors (DeleteService service_name) ;;
  _ <- delete_ignoring_api_errors (DeleteDeployment deployment_name) ;;
  _ <- wait_deleted 30 deployment_name ;;
  delete_ignoring_api_errors (DeleteConfigMap deployment_name).

End Manager.

(** *** The invocation gateway: [invoke_function] *)

(** What [subprocess.Popen] followed by [poll()] one second later shows
    of the [kubectl port-forward] process. *)
Inductive port_forward :=
| PopenRaises (msg : string)
| ProcessExited
| ProcessRunning.

(** A [requests.Response]: [header_content_type] is
    [headers.get('content-type')], [body_json] is what [response.json()]
    does on [text]: a value, or a [ValueError] with its message. *)
Record Response := {
  status_code : Z;
  reason : string;
  header_content_type : option string;
  text : string;
  body_json : string + json
}.

(** What [requests.post] does. *)
Inductive post_result :=
| PostTimeout
| PostConnectionError (msg : string)
| PostRaises (e : exn)
| PostResponse (r : Response).

(** The surroundings of one gateway call. *)
Record Network := {
  in_cluster : bool;
  namespace : string;
  local_port : Z;
  kubectl : port_forward;
  post : string -> json -> Z -> post_result
}.

(** [requests]: the statuses [raise_for_status] raises [HTTPError] for,
    the message of that error, and [bool(response)], which is
    [response.ok]. *)
Definition is_error_status (r : Response) : bool :=
  (400 <=? status_code r) && (status_code r <? 600).

Definition http_error_message (url : string) (r : Response) : string :=
  pretty (status_code r) +:+
  (if status_code r <? 500 then " Client Error: " else " Server Error: ") +:+
  reason r +:+ " for url: " +:+ url.

Definition response_ok (r : Response) : bool := negb (is_error_status r).

(** The dict every failure branch of the gateway returns. *)
Definition failure_result (error logs : string) (execution_time_ms : Z) : json :=
  JDict [ ("success", JBool false);
          ("error", JStr error);
          ("logs", JStr logs);
          ("execution_time_ms", JInt execution_time_ms);
          ("memory_used_mb", JInt 0) ].

(** [response.text[:500] if response.text else ""]. *)
Definition text_snippet (r : Response) : string :=
  if truthy (Some (text r)) then prefix_of_length 500 (text r) else "".

Definition json_truthy (v : json) : bool :=
  match v with
  | JNull => false
  | JBool b => b
  | JInt n => negb (Z.eqb n 0)
  | JStr s => truthy (Some s)
  | JList items => negb (Nat.eqb (length items) 0)
  | JDict fields => negb (Nat.eqb (length fields) 0)
  end.

(** [bool(d.get(key, True))]. *)
Definition json_truthy_default (v : option json) : bool :=
  match v with
  | None => true
  | Some v => json_truthy v
  end.

(** The body of the [try] of [invoke_function] once a response has
    arrived: [raise_for_status], content type, empty body, JSON. *)
Definition classify_response (url : string) (r : Response) : json :=
  if is_error_status r then
    (* except requests.exceptions.HTTPError as http_err *)
    failure_result
      ("Function returned HTTP error " +:+
       (if response_ok r then pretty (status_code r) else "unknown") +:+
       ": " +:+ http_error_message url r)
      (if response_ok r && truthy (Some (text r))
       then prefix_of_length 500 (text r) else "")
      0
  else
    let content_type := default "" (header_content_type r) in
    if negb (contains "application/json" content_type) then
      failure_result
        ("Function returned non-JSON response (content-type: " +:+ content_type +:+ ")")
        (text_snippet r) 0
    else if negb (truthy (Some (text r))) || strip_is_empty (text r) then
      failure_result "Function returned empty response" "" 0
    else
      match body_json r with
      | inl json_err =>
          failure_result
            ("Failed to parse function response as JSON: " +:+ json_err)
            (text_snippet r) 0
      | inr result => result
      end.

(** The request body: the event without [__secrets__], the timeout, and
    when code is given the code, the handler and the secrets. *)
Definition payload_of (event_fields : list (string * json)) (timeout_seconds : Z)
    (code : option string) (handler : string) : json :=
  let secrets := default (JDict []) (assoc "__secrets__" event_fields) in
  let event := filter (fun kv => negb (String.eqb (fst kv) "__secrets__")) event_fields in
  JDict ([ ("event", JDict event); ("timeout_seconds", JInt timeout_seconds) ] ++
         (if truthy code then
            [ ("code", JStr (default "" code)); ("handler", JStr handler) ] ++
            (if json_truthy secrets then [ ("env_vars", secrets) ] else [])
          else [])).

(** Where the agent is reached: the service DNS name inside the cluster,
    or a local port forwarded by [kubectl], whose failure to start is
    raised to the caller. *)
Definition service_url_of (net : Network) (service_name : string) : outcome string :=
  if in_cluster net then
    Return ("http://" +:+ service_name +:+ "." +:+ namespace net +:+
            ".svc.cluster.local:8080/invoke")
  else
    let could_not pf_err :=
      Raise (Exception ("Could not establish port-forward to " +:+ service_name +:+
                        ": " +:+ pf_err)) in
    match kubectl net with
    | PopenRaises msg => could_not msg
    | ProcessExited => could_not "kubectl port-forward process exited unexpectedly"
    | ProcessRunning =>
        Return ("http://localhost:" +:+ pretty (local_port net) +:+ "/invoke")
    end.

(** [invoke_function].  The [finally] block that terminates the
    port-forward process catches everything it raises and changes no
    result, so it is left out. *)
Definition invoke_function (net : Network) (service_name : string)
    (event : list (string * json)) (timeout_seconds : Z) (code : option string)
    (handler : string) : outcome json :=
  match service_url_of net service_name with
  | Raise e => Raise e
  | Return service_url =>
      Return
        match post net service_url
                (payload_of event timeout_seconds code handler)
                (timeout_seconds + 5) with
        | PostTimeout =>
            failure_result
              ("Function execution exceeded " +:+ pretty timeout_seconds +:+ " seconds")
              "" (timeout_seconds * 1000)
        | PostConnectionError msg =>
            failure_result ("Failed to connect to function service: " +:+ msg) "" 0
        | PostRaises e => failure_result (str e) "" 0
        | PostResponse r => classify_response service_url r
        end
  end.

End Kubernetes.

(** ** [functions/docker/agent.py]: the execution agent *)

Module Agent.

Definition newline : string := String (ascii_of_nat 10) "".

Record FunctionExecutor := {
  function_code : option string;
  handler_name : string;
  env_vars : list (string * string)
}.

(** [FunctionExecutor.__init__]. *)
Definition new_executor : FunctionExecutor :=
  {| function_code := None; handler_name := "handler"; env_vars := [] |}.

(** [load_function]. *)
Definition load_function (code handler : string)
    (vars : option (list (string * string))) (self : FunctionExecutor)
    : FunctionExecutor :=
  {| function_code := Some code; handler_name := handler;
     env_vars := default [] vars |}.

(** What [exec(self.function_code, function_namespace)] does: it raises
    an [Exception], or it leaves a namespace with these names.  Code whose
    top level raises something that is not an [Exception] ([sys.exit()]
    raises [SystemExit]) is not caught by [execute]: the request ends without
    a reply, and there is no run to describe. *)
Inductive exec_result :=
| ExecRaises (type_name msg : string)
| ExecDefines (names : list string).

(** The worker thread when [thread.join(timeout=timeout_seconds)] has
    returned.  [HandlerReturns]: the handler has returned this value.
    [HandlerRaises]: it has raised an [Exception], which [run_handler] has
    put into [result_container] and [execute] raises again.
    [HandlerExits]: the thread has ended and [result_container] is as it was
    set up, or holds an error that [if result_container["error"]] takes for
    false: the handler left by an exception that is not an [Exception], such
    as the [SystemExit] of [sys.exit()], which [run_handler] does not catch.
    [HandlerStillRunning]: [is_alive()] still holds. *)
Inductive handler_result :=
| HandlerReturns (result : json)
| HandlerRaises (type_name msg : string)
| HandlerExits
| HandlerStillRunning.

(** One execution as the agent observes it, for an execution that
    [execute] returns from: the two captures hold what has been written when
    [execute] reads them, [elapsed_ms] is
    [int((end_time - start_time) * 1000)], the memory figures are those of
    [_get_memory_usage] and [traceback] is [traceback.format_exc()]. *)
Record Run := {
  on_exec : exec_result;
  on_join : handler_result;
  stdout_capture : string;
  stderr_capture : string;
  elapsed_ms : Z;
  start_memory : Z;
  end_memory : Z;
  traceback : string
}.

(** The [except Exception as e] branch of [execute]. *)
Definition exception_result (run : Run) (type_name msg : string) : json :=
  JDict [ ("success", JBool false);
          ("error", JStr (type_name +:+ ": " +:+ msg));
          ("logs", JStr (stdout_capture run +:+ newline +:+
                         (stderr_capture run +:+ newline +:+ traceback run)));
          ("execution_time_ms", JInt (elapsed_ms run));
          ("memory_used_mb", JInt 0) ].

(** The dict [execute] returns when the thread has ended without an
    error; [result] is [result_container["result"]]. *)
Definition success_result (run : Run) (result : json) : json :=
  let stdout_logs := stdout_capture run in
  let stderr_logs := stderr_capture run in
  let combined_logs :=
    (if truthy (Some stdout_logs)
     then "[STDOUT]" +:+ newline +:+ stdout_logs +:+ newline else "") +:+
    (if truthy (Some stderr_logs)
     then "[STDERR]" +:+ newline +:+ stderr_logs +:+ newline else "") in
  JDict [ ("success", JBool true);
          ("result", result);
          ("logs", JStr combined_logs);
          ("execution_time_ms", JInt (elapsed_ms run));
          ("memory_used_mb", JInt (Z.max 0 (end_memory run - start_memory run))) ].

(** [execute]. *)
Definition execute (self : FunctionExecutor) (event : json) (timeout_seconds : Z)
    (run : Run) : json :=
  if negb (truthy (function_code self)) then
    JDict [ ("success", JBool false);
            ("error", JStr "No function code loaded");
            ("logs", JStr "");
            ("execution_time_ms", JInt 0);
            ("memory_used_mb", JInt 0) ]
  else
    match on_exec run with
    | ExecRaises type_name msg => exception_result run type_name msg
    | ExecDefines names =>
        if negb (bool_decide (handler_name self ∈ names)) then
          exception_result run "ValueError"
            ("Handler function '" +:+ handler_name self +:+ "' not found in code")
        else
          match on_join run with
          | HandlerStillRunning =>
              JDict [ ("success", JBool false);
                      ("error", JStr ("Function execution exceeded " +:+
                                      pretty timeout_seconds +:+ " seconds"));
                      ("logs", JStr (stdout_capture run +:+ newline +:+
                                     stderr_capture run));
                      ("execution_time_ms", JInt (timeout_seconds * 1000));
                      ("memory_used_mb", JInt 0) ]
          | HandlerRaises type_name msg => exception_result run type_name msg
          | HandlerReturns result => success_result run result
          | HandlerExits => success_result run JNull
          end
    end.

End Agent.

(** ** [functions/models.py]: the records the core reads and writes *)

Module Models.

(** Points in time are microseconds since the epoch. *)
Definition minutes (n : Z) : Z := n * 60 * 1000000.

Module Package.
Record t := { package_name : string; version_spec : string }.
End Package.

Module Depset.
(** [packages] is [depset.packages.all().order_by('order')]. *)
Record t := { runtime_type : string; packages : list Package.t }.
End Depset.

Module Secret.
(** [value] is [None] when [get_value()] raises. *)
Record t := { key : string; value : option string }.
End Secret.

Module Function.
Record t := {
  uuid : string;
  name : string;
  code : string;
  handler : string;
  runtime : string;
  memory_mb : Z;
  vcpu_count : Z;
  timeout_seconds : Z;
  depsets : list Depset.t;
  secrets : list Secret.t;
  status : string;
  last_deployed_at : option Z;
  deployment_name : option string;
  service_name : option string;
  k8s_namespace : option string;
  invocation_count : Z;
  last_invoked_at : option Z
}.

Definition STATUS_CHOICES : list string :=
  [ "draft"; "deploying"; "active"; "undeploying"; "inactive"; "error" ].

Definition set_status (s : string) (f : t) : t :=
  {| uuid := uuid f; name := name f; code := code f; handler := handler f;
     runtime := runtime f; memory_mb := memory_mb f; vcpu_count := vcpu_count f;
     timeout_seconds := timeout_seconds f; depsets := depsets f;
     secrets := secrets f; status := s;
     last_deployed_at := last_deployed_at f;
     deployment_name := deployment_name f; service_name := service_name f;
     k8s_namespace := k8s_namespace f;
     invocation_count := invocation_count f;
     last_invoked_at := last_invoked_at f |}.

Definition set_binding (deployment service ns : option string) (f : t) : t :=
  {| uuid := uuid f; name := name f; code := code f; handler := handler f;
     runtime := runtime f; memory_mb := memory_mb f; vcpu_count := vcpu_count f;
     timeout_seconds := timeout_seconds f; depsets := depsets f;
     secrets := secrets f; status := status f;
     last_deployed_at := last_deployed_at f;
     deployment_name := deployment; service_name := service;
     k8s_namespace := ns;
     invocation_count := invocation_count f;
     last_invoked_at := last_invoked_at f |}.

Definition set_last_deployed_at (at_ : option Z) (f : t) : t :=
  {| uuid := uuid f; name := name f; code := code f; handler := handler f;
     runtime := runtime f; memory_mb := memory_mb f; vcpu_count := vcpu_count f;
     timeout_seconds := timeout_seconds f; depsets := depsets f;
     secrets := secrets f; status := status f;
     last_deployed_at := at_;
     deployment_name := deployment_name f; service_name := service_name f;
     k8s_namespace := k8s_namespace f;
     invocation_count := invocation_count f;
     last_invoked_at := last_invoked_at f |}.

Definition set_statistics (count : Z) (at_ : option Z) (f : t) : t :=
  {| uuid := uuid f; name := name f; code := code f; handler := handler f;
     runtime := runtime f; memory_mb := memory_mb f; vcpu_count := vcpu_count f;
     timeout_seconds := timeout_seconds f; depsets := depsets f;
     secrets := secrets f; status := status f;
     last_deployed_at := last_deployed_at f;
     deployment_name := deployment_name f; service_name := service_name f;
     k8s_namespace := k8s_namespace f;
     invocation_count := count;
     last_invoked_at := at_ |}.
End Function.

Module FunctionInvocation.
(** [function] is the foreign key, given by the function's uuid. *)
Record t := {
  id : nat;
  function : string;
  request_id : string;
  status : string;
  input_data : json;
  output_data : option json;
  error_message : json;
  duration_ms : option Z;
  memory_used_mb : option json;
  logs : json;
  created_at : Z;
  started_at : option Z;
  completed_at : option Z
}.

Definition set_status (s : string) (i : t) : t :=
  {| id := id i; function := function i; request_id := request_id i;
     status := s; input_data := input_data i; output_data := output_data i;
     error_message := error_message i; duration_ms := duration_ms i;
     memory_used_mb := memory_used_mb i; logs := logs i;
     created_at := created_at i; started_at := started_at i;
     completed_at := completed_at i |}.
End FunctionInvocation.

Module FunctionTrigger.
Record t := {
  id : nat;
  uuid : string;
  function : string;
  name : string;
  trigger_type : string;
  schedule : option string;
  enabled : bool
}.

Definition set_enabled (b : bool) (t0 : t) : t :=
  {| id := id t0; uuid := uuid t0; function := function t0; name := name t0;
     trigger_type := trigger_type t0; schedule := schedule t0; enabled := b |}.
End FunctionTrigger.

(** [django_celery_beat]: crontab schedules and periodic tasks. *)
Module CrontabSchedule.
Record t := {
  minute : string;
  hour : string;
  day_of_month : string;
  month_of_year : string;
  day_of_week : string
}.
End CrontabSchedule.

Module PeriodicTask.
Record t := {
  crontab : CrontabSchedule.t;
  task : string;
  kwargs : json;
  enabled : bool;
  description : string
}.

Definition set_enabled (b : bool) (p : t) : t :=
  {| crontab := crontab p; task := task p; kwargs := kwargs p;
     enabled := b; description := description p |}.
End PeriodicTask.

(** The database.  Functions are keyed by uuid and periodic tasks by
    their unique name.  [function_saves] is the stream of rows written by
    [Function.save()], oldest first: what [post_save] receivers see. *)
Record DB := {
  functions : gmap string Function.t;
  invocations : list FunctionInvocation.t;
  triggers : list FunctionTrigger.t;
  crontabs : list CrontabSchedule.t;
  periodic_tasks : gmap string PeriodicTask.t;
  function_saves : list Function.t
}.

Definition with_functions (fs : gmap string Function.t) (saved : list Function.t)
    (db : DB) : DB :=
  {| functions := fs; invocations := invocations db; triggers := triggers db;
     crontabs := crontabs db; periodic_tasks := periodic_tasks db;
     function_saves := saved |}.

Definition with_invocations (l : list FunctionInvocation.t) (db : DB) : DB :=
  {| functions := functions db; invocations := l; triggers := triggers db;
     crontabs := crontabs db; periodic_tasks := periodic_tasks db;
     function_saves := function_saves db |}.

Definition with_triggers (l : list FunctionTrigger.t) (db : DB) : DB :=
  {| functions := functions db; invocations := invocations db; triggers := l;
     crontabs := crontabs db; periodic_tasks := periodic_tasks db;
     function_saves := function_saves db |}.

Definition with_crontabs (l : list CrontabSchedule.t) (db : DB) : DB :=
  {| functions := functions db; invocations := invocations db;
     triggers := triggers db; crontabs := l;
     periodic_tasks := periodic_tasks db;
     function_saves := function_saves db |}.

Definition with_periodic_tasks (m : gmap string PeriodicTask.t) (db : DB) : DB :=
  {| functions := functions db; invocations := invocations db;
     triggers := triggers db; crontabs := crontabs db;
     periodic_tasks := m; function_saves := function_saves db |}.

End Models.

Import Models.

(** ** [functions/signals.py]: periodic tasks kept in step with triggers *)

Module Signals.

#[global] Instance crontab_eq_dec : EqDecision CrontabSchedule.t.
Proof. solve_decision. Defined.

(** [s.split()]: the maximal runs of characters that are not white
    space. *)
Fixpoint split_from (s token : string) : list string :=
  match s with
  | EmptyString => if String.eqb token "" then [] else [token]
  | String c rest =>
      if is_space c
      then (if String.eqb token "" then split_from rest ""
            else token :: split_from rest "")
      else split_from rest (token +:+ String c "")
  end.

Definition split (s : string) : list string := split_from s "".

(** [cron_str.strip().split()] is [cron_str.split()]: [split] drops the
    white space at both ends itself. *)
Definition parse_cron_expression (cron_str : string) : outcome CrontabSchedule.t :=
  match split cron_str with
  | [p0; p1; p2; p3; p4] =>
      Return {| CrontabSchedule.minute := p0;
                CrontabSchedule.hour := p1;
                CrontabSchedule.day_of_month := p2;
                CrontabSchedule.month_of_year := p3;
                CrontabSchedule.day_of_week := p4 |}
  | _ =>
      Raise (ValueError ("Invalid cron expression: " +:+ cron_str +:+
                         ". Must have 5 parts."))
  end.

(** The text of Django's [MultipleObjectsReturned], which counts at most
    21 rows. *)
Definition multiple_objects_returned (found : nat) : exn :=
  Exception ("get() returned more than one CrontabSchedule -- it returned " +:+
             (if (found <=? 20)%nat then pretty found else "more than 20") +:+ "!").

(** [CrontabSchedule.objects.get_or_create] looks the five fields of
    [cron_parts] up with [get]: the row is returned when exactly one has them, a row
    is created when none has, and with several such rows (the table has no
    uniqueness constraint on the fields) [get] raises. *)
Definition get_or_create_crontab_schedule (cron_str : string) (db : DB)
    : outcome CrontabSchedule.t * DB :=
  match parse_cron_expression cron_str with
  | Raise e => (Raise e, db)
  | Return cron_parts =>
      match filter (fun row => row = cron_parts) (crontabs db) with
      | [] => (Return cron_parts, with_crontabs (crontabs db ++ [cron_parts]) db)
      | [schedule] => (Return schedule, db)
      | found => (Raise (multiple_objects_returned (length found)), db)
      end
  end.

Definition task_name_of (trigger : FunctionTrigger.t) : string :=
  "trigger-" +:+ FunctionTrigger.uuid trigger.

(** [post_save] receiver of [FunctionTrigger]. *)
Definition manage_scheduled_trigger (instance : FunctionTrigger.t) (db : DB) : DB :=
  let task_name := task_name_of instance in
  if String.eqb (FunctionTrigger.trigger_type instance) "scheduled"
     && FunctionTrigger.enabled instance
     && truthy (FunctionTrigger.schedule instance)
  then
    let schedule := default "" (FunctionTrigger.schedule instance) in
    match get_or_create_crontab_schedule schedule db with
    | (Raise _, db1) =>
        (* [except ValueError] and the outer [except Exception] both only log *)
        db1
    | (Return crontab_schedule, db1) =>
        match functions db1 !! FunctionTrigger.function instance with
        | None => db1
        | Some function =>
            let task_kwargs :=
              JDict [ ("function_uuid", JStr (Function.uuid function));
                      ("event_data",
                       JDict [ ("trigger_type", JStr "scheduled");
                               ("trigger_id", JStr (FunctionTrigger.uuid instance));
                               ("trigger_name", JStr (FunctionTrigger.name instance));
                               ("cron_expression", JStr schedule) ]) ] in
            let task_enabled := String.eqb (Function.status function) "active" in
            with_periodic_tasks
              (<[ task_name :=
                    {| PeriodicTask.crontab := crontab_schedule;
                       PeriodicTask.task := "functions.tasks.invoke_function_task";
                       PeriodicTask.kwargs := task_kwargs;
                       PeriodicTask.enabled := task_enabled;
                       PeriodicTask.description :=
                         "Scheduled trigger: " +:+ FunctionTrigger.name instance +:+
                         " for function " +:+ Function.name function |} ]>
                 (periodic_tasks db1))
              db1
        end
    end
  else
    with_periodic_tasks (delete task_name (periodic_tasks db)) db.

(** [post_delete] receiver of [FunctionTrigger]. *)
Definition delete_scheduled_trigger (instance : FunctionTrigger.t) (db : DB) : DB :=
  with_periodic_tasks (delete (task_name_of instance) (periodic_tasks db)) db.

(** [trigger.save(update_fields=['enabled'])]: the column is written to
    the row of that primary key and the [post_save] receiver runs on the
    instance. *)
Definition save_trigger_enabled (trigger : FunctionTrigger.t) (db : DB) : DB :=
  let rows :=
    map (fun row =>
           if Nat.eqb (FunctionTrigger.id row) (FunctionTrigger.id trigger)
           then FunctionTrigger.set_enabled (FunctionTrigger.enabled trigger) row
           else row)
        (triggers db) in
  manage_scheduled_trigger trigger (with_triggers rows db).

(** The body of the loop of [disable_triggers_on_undeploy]. *)
Definition disable_one (db : DB) (trigger : FunctionTrigger.t) : DB :=
  let task_name := task_name_of trigger in
  let db1 :=
    if FunctionTrigger.enabled trigger
    then save_trigger_enabled (FunctionTrigger.set_enabled false trigger) db
    else db in
  (* PeriodicTask.objects.filter(name=task_name).update(enabled=False) *)
  with_periodic_tasks
    (alter (PeriodicTask.set_enabled false) task_name (periodic_tasks db1)) db1.

Definition scheduled_triggers_of (instance : Function.t) (db : DB)
    : list FunctionTrigger.t :=
  filter (fun trigger =>
            FunctionTrigger.function trigger = Function.uuid instance
            ∧ FunctionTrigger.trigger_type trigger = "scheduled")
         (triggers db).

(** [post_save] receiver of [Function]. *)
Definition disable_triggers_on_undeploy (instance : Function.t) (created : bool)
    (db : DB) : DB :=
  if created then db
  else if String.eqb (Function.status instance) "active" then db
  else
    let triggers := scheduled_triggers_of instance db in
    match triggers with
    | [] => db
    | _ => foldl disable_one db triggers
    end.

(** [func.save(...)]: [columns func row] is the row after the write (all
    columns of [func], or the listed ones over the stored row); the
    stored row is logged and the [post_save] receiver runs on the
    instance. *)
Definition save_function (columns : Function.t -> Function.t -> Function.t)
    (func : Function.t) (db : DB) : DB :=
  let key := Function.uuid func in
  let row := columns func (default func (functions db !! key)) in
  disable_triggers_on_undeploy func false
    (with_functions (<[ key := row ]> (functions db))
                    (function_saves db ++ [row]) db).

Definition all_columns (func row : Function.t) : Function.t := func.

Definition status_column (func row : Function.t) : Function.t :=
  Function.set_status (Function.status func) row.

Definition statistics_columns (func row : Function.t) : Function.t :=
  Function.set_statistics (Function.invocation_count func)
    (Function.last_invoked_at func) row.

End Signals.

Import Signals.

(** ** [functions/tasks.py]: the Celery tasks *)

Module Tasks.

(** How a task run ends: it returns its result dict, or it raises
    [self.retry(exc=e, countdown=...)] and Celery runs it again. *)
Inductive task_outcome :=
| Done (result : json)
| Retry (exc : exn) (countdown : Z).

(** [@shared_task(bind=True, max_retries=3)]. *)
Definition max_retries : nat := 3.

Fixpoint lstrip (s : string) : string :=
  match s with
  | String c rest => if is_space c then lstrip rest else s
  | EmptyString => s
  end.

Definition strip (s : string) : string :=
  String.rev (lstrip (String.rev (lstrip s))).

Definition version_operators : list string :=
  [ "=="; ">="; "<="; ">"; "<"; "~"; "^"; "@" ].

(** One entry of [depset_packages]. *)
Definition format_package (runtime_type : string) (pkg : Package.t) : string :=
  let package_name := Package.package_name pkg in
  if truthy (Some (Package.version_spec pkg)) then
    let version := strip (Package.version_spec pkg) in
    if existsb (fun op => String.prefix op version) version_operators then
      package_name +:+ version
    else if String.eqb runtime_type "python" then package_name +:+ "==" +:+ version
    else if String.eqb runtime_type "nodejs" then package_name +:+ "@" +:+ version
    else if String.eqb runtime_type "ruby" then package_name +:+ " -v " +:+ version
    else package_name +:+ "==" +:+ version
  else package_name.

Definition depset_packages (func : Function.t) : list string :=
  flat_map (fun depset =>
              map (format_package (Depset.runtime_type depset))
                  (Depset.packages depset))
           (Function.depsets func).

Definition failed (error : string) : json :=
  JDict [ ("success", JBool false); ("error", JStr error) ].

(** The [except Exception] handler of the deploy and undeploy tasks: the
    row is fetched again and marked, then the task retries or gives up. *)
Definition mark_error_and_retry (retries : nat) (function_uuid : string)
    (e : exn) (countdown : Z) (db : DB) : task_outcome * DB :=
  let db1 :=
    match functions db !! function_uuid with
    | Some func => save_function status_column (Function.set_status "error" func) db
    | None => db
    end in
  if (retries <? max_retries)%nat then (Retry e countdown, db1)
  else (Done (failed (str e)), db1).

Section WithCluster.
Context {world : Type} {cluster : Kubernetes.Cluster world}.

(** [deploy_function_task]; [retries] is [self.request.retries]. *)
Definition deploy_function_task (retries : nat) (function_uuid : string)
    (now : Z) (KUBERNETES_NAMESPACE : string)
    (db : DB) (k : Kubernetes.state (world := world))
    : task_outcome * DB * Kubernetes.state (world := world) :=
  match functions db !! function_uuid with
  | None => (Done (failed "Function not found"), db, k)
  | Some func =>
      let func := Function.set_status "deploying" func in
      let db1 := save_function status_column func db in
      match Kubernetes.deploy_function (Function.uuid func) (Function.runtime func)
              (Function.code func) (depset_packages func)
              (Function.memory_mb func) (Function.timeout_seconds func)
              (Function.vcpu_count func) k with
      | (Return deployment, k1) =>
          let func :=
            Function.set_last_deployed_at (Some now)
              (Function.set_status "active"
                 (Function.set_binding
                    (Some (Kubernetes.info_deployment_name deployment))
                    (Some (Kubernetes.info_service_name deployment))
                    (Some KUBERNETES_NAMESPACE) func)) in
          let db2 := save_function all_columns func db1 in
          (Done (JDict
                   [ ("success", JBool true);
                     ("deployment_name", JStr (Kubernetes.info_deployment_name deployment));
                     ("service_name", JStr (Kubernetes.info_service_name deployment));
                     ("status", JStr (Kubernetes.info_status deployment));
                     ("deployed_at", JInt now) ]),
           db2, k1)
      | (Raise e, k1) =>
          let '(out, db2) := mark_error_and_retry retries function_uuid e 60 db1 in
          (out, db2, k1)
      end
  end.

(** [undeploy_function_task]. *)
Definition undeploy_function_task (retries : nat) (function_uuid : string)
    (db : DB) (k : Kubernetes.state (world := world))
    : task_outcome * DB * Kubernetes.state (world := world) :=
  match functions db !! function_uuid with
  | None => (Done (failed "Function not found"), db, k)
  | Some func =>
      let func := Function.set_status "undeploying" func in
      let db1 := save_function status_column func db in
      let deleted :=
        if truthy (Function.deployment_name func)
        then Kubernetes.delete_function (default "" (Function.deployment_name func)) k
        else (Return tt, k) in
      match deleted with
      | (Return _, k1) =>
          let func :=
            Function.set_status "draft" (Function.set_binding None None None func) in
          let db2 := save_function all_columns func db1 in
          (Done (JDict [ ("success", JBool true) ]), db2, k1)
      | (Raise e, k1) =>
          let '(out, db2) := mark_error_and_retry retries function_uuid e 30 db1 in
          (out, db2, k1)
      end
  end.

End WithCluster.

(** *** Invocation tasks *)

(** What one run of an invocation task reads from its surroundings:
    [now] is [timezone.now()] when the guards run and the record is
    created, [completed] when the result is stored, [execution_time] is
    [int((time.time() - start_time) * 1000)], [generated_request_id] is
    [f"req-{uuid4().hex[:12]}"]. *)
Record Surroundings := {
  now : Z;
  completed : Z;
  execution_time : Z;
  generated_request_id : string;
  network : Kubernetes.Network
}.

(** [order_by('-created_at')]. *)
Definition newer_first (a b : FunctionInvocation.t) : Prop :=
  FunctionInvocation.created_at b <= FunctionInvocation.created_at a.

#[global] Instance newer_first_dec : RelDecision newer_first.
Proof. intros a b. unfold newer_first. apply _. Defined.

(** The rows of [func] created in the last five minutes. *)
Definition window (func : Function.t) (now : Z) (db : DB)
    : list FunctionInvocation.t :=
  filter (fun inv =>
            FunctionInvocation.function inv = Function.uuid func
            ∧ now - minutes 5 <= FunctionInvocation.created_at inv)
         (invocations db).

(** [recent_invocations]: the ten newest rows of the window. *)
Definition recent_invocations (func : Function.t) (now : Z) (db : DB)
    : list FunctionInvocation.t :=
  take 10 (merge_sort newer_first (window func now db)).

(** [sum(1 for inv in recent_invocations if inv.status == 'error')]. *)
Definition failures (recent : list FunctionInvocation.t) : nat :=
  length (filter (fun inv => FunctionInvocation.status inv = "error") recent).

(** The circuit breaker: ten recent rows, eight of them in error. *)
Definition circuit_breaker_open (func : Function.t) (now : Z) (db : DB) : bool :=
  let recent := recent_invocations func now db in
  if (10 <=? length recent)%nat then (8 <=? failures recent)%nat else false.

(** [running_invocations]. *)
Definition running_invocations (func : Function.t) (db : DB) : nat :=
  length (filter (fun inv =>
                    FunctionInvocation.function inv = Function.uuid func
                    ∧ FunctionInvocation.status inv ∈ ["pending"; "running"])
                 (invocations db)).

Definition rejected (error : string) : json :=
  JDict [ ("success", JBool false); ("error", JStr error); ("invocation_id", JNull) ].

Definition high_failure_rate : string :=
  "Function has high failure rate. Please check function code and try again later.".

Definition too_many_concurrent (running : nat) : string :=
  "Too many concurrent invocations (" +:+ pretty running +:+
  "). Please wait for previous invocations to complete.".

(** [d[key] = value] on a dict. *)
Fixpoint dict_set {A} (key : string) (value : A) (fields : list (string * A))
    : list (string * A) :=
  match fields with
  | [] => [(key, value)]
  | (k, v) :: rest =>
      if String.eqb k key then (k, value) :: rest
      else (k, v) :: dict_set key value rest
  end.

(** [secrets_dict]: secrets whose value cannot be read are skipped. *)
Definition secrets_dict (func : Function.t) : list (string * json) :=
  foldl (fun d secret =>
           match Secret.value secret with
           | Some v => dict_set (Secret.key secret) (JStr v) d
           | None => d
           end)
        [] (Function.secrets func).

(** The primary key of the next row. *)
Definition next_id (db : DB) : nat :=
  S (foldr Nat.max 0%nat (map FunctionInvocation.id (invocations db))).

(** The write of [invocation.save(...)]: the row of that primary key is
    replaced. *)
Definition save_invocation (inv : FunctionInvocation.t) (db : DB) : DB :=
  with_invocations
    (map (fun row =>
            if Nat.eqb (FunctionInvocation.id row) (FunctionInvocation.id inv)
            then inv else row)
         (invocations db))
    db.

(** *** Python's [int], [repr] and [type(v).__name__] on what [json.loads]
    gives *)

Definition is_digit (c : ascii) : bool :=
  let n := nat_of_ascii c in (48 <=? n)%nat && (n <=? 57)%nat.

(** Decimal digits, with single underscores between them. *)
Fixpoint digits_from (s : string) (value : Z) (after_digit : bool) : option Z :=
  match s with
  | EmptyString => if after_digit then Some value else None
  | String c rest =>
      if is_digit c
      then digits_from rest (10 * value + (Z.of_nat (nat_of_ascii c) - 48)) true
      else if Ascii.eqb c "_" && after_digit then digits_from rest value false
      else None
  end.

(** The white space [int] skips at both ends of a text: that of
    [str.strip] but for the separators 28 to 31. *)
Definition int_space (c : ascii) : bool :=
  let n := nat_of_ascii c in is_space c && negb ((28 <=? n)%nat && (n <=? 31)%nat).

Fixpoint skip_spaces (s : string) : string :=
  match s with
  | String c rest => if int_space c then skip_spaces rest else s
  | EmptyString => s
  end.

(** [int(s)] for a text: [None] stands for [ValueError].  The limit that
    newer interpreters put on the number of digits is left out. *)
Definition int_of_str (s : string) : option Z :=
  match String.rev (skip_spaces (String.rev (skip_spaces s))) with
  | String "+" digits => digits_from digits 0 false
  | String "-" digits => Z.opp <$> digits_from digits 0 false
  | digits => digits_from digits 0 false
  end.

(** [str.isprintable] of a character. *)
Definition printable (c : ascii) : bool :=
  let n := nat_of_ascii c in
  (32 <=? n)%nat && negb (Nat.eqb n 127) && negb ((128 <=? n)%nat && (n <=? 160)%nat)
  && negb (Nat.eqb n 173).

Definition hex_digit (n : nat) : ascii :=
  default "0"%char (String.get n "0123456789abcdef").

Definition escaped (quote c : ascii) : string :=
  if Ascii.eqb c quote || Ascii.eqb c "\" then String "\" (String c "")
  else if Ascii.eqb c "009" then "\t"
  else if Ascii.eqb c "010" then "\n"
  else if Ascii.eqb c "013" then "\r"
  else if printable c then String c ""
  else "\x" +:+ String (hex_digit (nat_of_ascii c / 16))
                  (String (hex_digit (nat_of_ascii c mod 16)) "").

Fixpoint has (c : ascii) (s : string) : bool :=
  match s with
  | EmptyString => false
  | String c' rest => Ascii.eqb c c' || has c rest
  end.

Fixpoint escape_all (quote : ascii) (s : string) : string :=
  match s with
  | EmptyString => ""
  | String c rest => escaped quote c +:+ escape_all quote rest
  end.

(** [repr(s)] for a text: in single quotes, or in double quotes when it
    holds a single quote and no double quote. *)
Definition repr_str (s : string) : string :=
  let quote := if has "'" s && negb (has "034" s) then "034"%char else "'"%char in
  String quote (escape_all quote s) +:+ String quote "".

(** [sep.join(parts)]. *)
Fixpoint join (sep : string) (parts : list string) : string :=
  match parts with
  | [] => ""
  | [part] => part
  | part :: rest => part +:+ sep +:+ join sep rest
  end.

(** [repr(v)]. *)
Fixpoint repr (v : json) : string :=
  match v with
  | JNull => "None"
  | JBool b => if b then "True" else "False"
  | JInt n => pretty n
  | JStr s => repr_str s
  | JList items => "[" +:+ join ", " (map repr items) +:+ "]"
  | JDict fields =>
      "{" +:+ join ", " (map (fun kv => match kv with
                                        | (k, v) => repr_str k +:+ ": " +:+ repr v
                                        end) fields) +:+ "}"
  end.

(** [type(v).__name__]. *)
Definition type_name (v : json) : string :=
  match v with
  | JNull => "NoneType"
  | JBool _ => "bool"
  | JInt _ => "int"
  | JStr _ => "str"
  | JList _ => "list"
  | JDict _ => "dict"
  end.

(** [int(v)]: a text is parsed, and what is neither a number nor a text
    is a [TypeError].  JSON numbers are integers here; numbers with a
    fraction are outside the model. *)
Definition int_of (v : json) : outcome Z :=
  match v with
  | JInt n => Return n
  | JBool b => Return (if b then 1 else 0)
  | JStr s =>
      match int_of_str s with
      | Some n => Return n
      | None => Raise (ValueError ("invalid literal for int() with base 10: " +:+ repr_str s))
      end
  | _ =>
      Raise (Exception ("int() argument must be a string, a bytes-like object or a " +:+
                        "real number, not '" +:+ type_name v +:+ "'"))
  end.

(** [int(invocation_result.get('execution_time_ms', execution_time))]. *)
Definition duration_of (fields : list (string * json)) (execution_time : Z)
    : outcome Z :=
  match assoc "execution_time_ms" fields with
  | None => Return execution_time
  | Some v => int_of v
  end.

(** *** Storing an invocation *)

(** What [IntegerField.get_prep_value] raises for the value of
    [memory_used_mb] when a row is saved: [None] is stored as NULL, any other
    value goes through [int], whose failure is raised again under the name of
    the field. *)
Definition memory_error (v : option json) : option exn :=
  match v with
  | None | Some JNull => None
  | Some v =>
      let message :=
        "Field 'memory_used_mb' expected a number but got " +:+ repr v +:+ "." in
      match int_of v with
      | Return _ => None
      | Raise (ValueError _) => Some (ValueError message)
      | Raise _ => Some (Exception message)
      end
  end.

(** What [invocation.save()] raises instead of writing the row, if
    anything.  The values are prepared column by column first, then the row
    is written; the text columns [error_message] and [logs] are NOT NULL, so
    that [None] in one of them is refused by the database (its message is
    worded as SQLite does, like that of the unique request id below).  A value
    of these columns that is not a text is stored as its [str]; the row here
    keeps the value the task assigned.  The limits of a database engine on
    the range of an integer and on the characters of a text are left out. *)
Definition refused (error_message logs : json) (memory_used_mb : option json)
    : option exn :=
  match memory_error memory_used_mb with
  | Some e => Some e
  | None =>
      match error_message, logs with
      | JNull, _ =>
          Some (Exception
                  "NOT NULL constraint failed: functions_functioninvocation.error_message")
      | _, JNull =>
          Some (Exception "NOT NULL constraint failed: functions_functioninvocation.logs")
      | _, _ => None
      end
  end.

Definition save_error (inv : FunctionInvocation.t) : option exn :=
  refused (FunctionInvocation.error_message inv) (FunctionInvocation.logs inv)
    (FunctionInvocation.memory_used_mb inv).

(** The invocation as the inner [except Exception as e] leaves it before
    it saves it. *)
Definition errored (inv : FunctionInvocation.t) (e : exn) (env : Surroundings)
    : FunctionInvocation.t :=
  {| FunctionInvocation.id := FunctionInvocation.id inv;
     FunctionInvocation.function := FunctionInvocation.function inv;
     FunctionInvocation.request_id := FunctionInvocation.request_id inv;
     FunctionInvocation.status := "error";
     FunctionInvocation.input_data := FunctionInvocation.input_data inv;
     FunctionInvocation.output_data := FunctionInvocation.output_data inv;
     FunctionInvocation.error_message := JStr (str e);
     FunctionInvocation.duration_ms := Some (execution_time env);
     FunctionInvocation.memory_used_mb := FunctionInvocation.memory_used_mb inv;
     FunctionInvocation.logs := FunctionInvocation.logs inv;
     FunctionInvocation.created_at := FunctionInvocation.created_at inv;
     FunctionInvocation.started_at := FunctionInvocation.started_at inv;
     FunctionInvocation.completed_at := Some (completed env) |}.

(** The inner [except Exception as e] of the invocation tasks.  Its own
    [invocation.save()] is not guarded: when it raises, the outer
    [except Exception] answers without an invocation id and the row stays as
    the last save that went through left it. *)
Definition record_exception (inv : FunctionInvocation.t) (e : exn)
    (env : Surroundings) (db : DB) : task_outcome * DB :=
  let inv := errored inv e env in
  match save_error inv with
  | Some e => (Done (rejected (str e)), db)
  | None =>
      (Done (JDict [ ("success", JBool false);
                     ("error", JStr (str e));
                     ("invocation_id", JInt (Z.of_nat (FunctionInvocation.id inv))) ]),
       save_invocation inv db)
  end.

(** The part of both tasks after the guards: create the record, call the
    gateway, store the result, update the statistics. *)
Definition create_and_invoke (func : Function.t) (event_data : list (string * json))
    (request_id : string) (env : Surroundings) (db : DB) : task_outcome * DB :=
  if existsb (fun row => String.eqb (FunctionInvocation.request_id row) request_id)
             (invocations db)
  then
    (* request_id is unique: the outer except Exception *)
    (Done (rejected "UNIQUE constraint failed: functions_functioninvocation.request_id"), db)
  else
    let invocation :=
      {| FunctionInvocation.id := next_id db;
         FunctionInvocation.function := Function.uuid func;
         FunctionInvocation.request_id := request_id;
         FunctionInvocation.status := "pending";
         FunctionInvocation.input_data := JDict event_data;
         FunctionInvocation.output_data := None;
         FunctionInvocation.error_message := JStr "";
         FunctionInvocation.duration_ms := None;
         FunctionInvocation.memory_used_mb := None;
         FunctionInvocation.logs := JStr "";
         FunctionInvocation.created_at := now env;
         FunctionInvocation.started_at := Some (now env);
         FunctionInvocation.completed_at := None |} in
    let db1 := with_invocations (invocations db ++ [invocation]) db in
    let invocation := FunctionInvocation.set_status "running" invocation in
    (* save(update_fields=['status']) *)
    let db2 := save_invocation invocation db1 in
    let event_with_secrets :=
      dict_set "__secrets__" (JDict (secrets_dict func)) event_data in
    match Kubernetes.invoke_function (network env)
            (default "" (Function.service_name func)) event_with_secrets
            (Function.timeout_seconds func) (Some (Function.code func))
            (Function.handler func) with
    | Raise e => record_exception invocation e env db2
    | Return (JDict invocation_result) =>
        let assigned :=
          {| FunctionInvocation.id := FunctionInvocation.id invocation;
             FunctionInvocation.function := FunctionInvocation.function invocation;
             FunctionInvocation.request_id := FunctionInvocation.request_id invocation;
             FunctionInvocation.status :=
               if Kubernetes.json_truthy_default (assoc "success" invocation_result)
               then "success" else "error";
             FunctionInvocation.input_data := FunctionInvocation.input_data invocation;
             FunctionInvocation.output_data := assoc "result" invocation_result;
             FunctionInvocation.error_message :=
               default (JStr "") (assoc "error" invocation_result);
             FunctionInvocation.duration_ms := None;
             FunctionInvocation.memory_used_mb := None;
             FunctionInvocation.logs :=
               default (JStr "") (assoc "logs" invocation_result);
             FunctionInvocation.created_at := FunctionInvocation.created_at invocation;
             FunctionInvocation.started_at := FunctionInvocation.started_at invocation;
             FunctionInvocation.completed_at := None |} in
        match duration_of invocation_result (execution_time env) with
        | Raise e => record_exception assigned e env db2
        | Return duration =>
            let stored :=
              {| FunctionInvocation.id := FunctionInvocation.id assigned;
                 FunctionInvocation.function := FunctionInvocation.function assigned;
                 FunctionInvocation.request_id := FunctionInvocation.request_id assigned;
                 FunctionInvocation.status := FunctionInvocation.status assigned;
                 FunctionInvocation.input_data := FunctionInvocation.input_data assigned;
                 FunctionInvocation.output_data := FunctionInvocation.output_data assigned;
                 FunctionInvocation.error_message := FunctionInvocation.error_message assigned;
                 FunctionInvocation.duration_ms := Some duration;
                 FunctionInvocation.memory_used_mb := assoc "memory_used_mb" invocation_result;
                 FunctionInvocation.logs := FunctionInvocation.logs assigned;
                 FunctionInvocation.created_at := FunctionInvocation.created_at assigned;
                 FunctionInvocation.started_at := FunctionInvocation.started_at assigned;
                 FunctionInvocation.completed_at := Some (completed env) |} in
            match save_error stored with
            | Some e => record_exception stored e env db2
            | None =>
                let db3 := save_invocation stored db2 in
                let func :=
                  Function.set_statistics (Function.invocation_count func + 1)
                    (Some (completed env)) func in
                let db4 := save_function statistics_columns func db3 in
                (Done (JDict [ ("success", JBool true);
                               ("invocation_id",
                                JInt (Z.of_nat (FunctionInvocation.id stored))) ]),
                 db4)
            end
        end
    | Return other =>
        record_exception invocation
          (Exception ("'" +:+ type_name other +:+ "' object has no attribute 'get'"))
          env db2
    end.

(** The guards shared by the two tasks and what follows them;
    [not_deployed] is the message of the task. *)
Definition guarded_invoke (not_deployed : string) (function_uuid : string)
    (event_data : list (string * json)) (request_id : option string)
    (env : Surroundings) (db : DB) : task_outcome * DB :=
  match functions db !! function_uuid with
  | None => (Done (rejected "Function not found"), db)
  | Some func =>
      if negb (String.eqb (Function.status func) "active")
         || negb (truthy (Function.service_name func))
      then (Done (rejected not_deployed), db)
      else if circuit_breaker_open func (now env) db
      then (Done (rejected high_failure_rate), db)
      else if (5 <=? running_invocations func db)%nat
      then (Done (rejected (too_many_concurrent (running_invocations func db))), db)
      else
        create_and_invoke func event_data
          (if truthy request_id then default "" request_id
           else generated_request_id env)
          env db
  end.

(** [test_function_task]. *)
Definition test_function_task (function_uuid : string)
    (event_data : list (string * json)) (env : Surroundings) (db : DB)
    : task_outcome * DB :=
  guarded_invoke "Function must be deployed before testing"
    function_uuid event_data None env db.

(** [invoke_function_task]. *)
Definition invoke_function_task (function_uuid : string)
    (event_data : list (string * json)) (request_id : option string)
    (env : Surroundings) (db : DB) : task_outcome * DB :=
  guarded_invoke "Function is not deployed"
    function_uuid event_data request_id env db.

End Tasks.

(** ** [functions/api.py]: the deploy and undeploy endpoints

    Authentication and team membership are checked before the code
    embedded here and are left out. *)

Module Api.

Inductive response :=
| HttpError (status : Z) (detail : string)
| Accepted (body : json).

(** [POST /{function_id}/deploy]; on [Accepted] the deploy task has been
    queued with [deploy_function_task.delay]. *)
Definition deploy_function (function_id : string) (db : DB) : response * DB :=
  match functions db !! function_id with
  | None => (HttpError 404 "Not Found", db)
  | Some func =>
      if String.eqb (Function.status func) "active"
         && truthy (Function.deployment_name func)
      then (HttpError 400 "Function is already deployed. Undeploy first to redeploy.", db)
      else if String.eqb (Function.status func) "deploying"
      then (HttpError 400 "Function is already being deployed. Please wait.", db)
      else
        let func := Function.set_status "deploying" func in
        (Accepted (JDict [ ("success", JBool true);
                           ("message", JStr "Function deployment started. Use the status endpoint to check progress.");
                           ("deployment_name", JNull);
                           ("service_name", JNull);
                           ("status", JStr "deploying") ]),
         save_function status_column func db)
  end.

(** [POST /{function_id}/undeploy]; on [Accepted] the undeploy task has
    been queued. *)
Definition undeploy_function (function_id : string) (db : DB) : response * DB :=
  match functions db !! function_id with
  | None => (HttpError 404 "Not Found", db)
  | Some func =>
      if negb (truthy (Function.deployment_name func))
         && negb (String.eqb (Function.status func) "active")
      then (HttpError 400 "Function is not deployed", db)
      else if String.eqb (Function.status func) "undeploying"
      then (HttpError 400 "Function is already being undeployed. Please wait.", db)
      else
        let func := Function.set_status "undeploying" func in
        (Accepted (JDict [ ("success", JBool true);
                           ("message", JStr "Function undeployment started. Use the status endpoint to check progress.") ]),
         save_function status_column func db)
  end.

End Api.

(** ** Properties the design document states, as predicates *)

Module Spec.

(** A positive figure small enough for [n * 1.5] to be computed exactly in
double precision; the fields are 32-bit integers. *)
Definition configurable (n : Z) : Prop := 0 < n < 2 ^ 51.

(** The limit is exactly one and a half times the request. *)
Definition exactly_1_5 (request limit : option Kubernetes.quantity) : Prop :=
  exists n l unit_,
    request = Some (Kubernetes.Quantity n unit_)
    /\ limit = Some (Kubernetes.Quantity l unit_)
    /\ 2 * l = 3 * n.

(** The limit is one and a half times the request, rounded down. *)
Definition rounded_down_1_5 (request limit : option Kubernetes.quantity) : Prop :=
  exists n l unit_,
    request = Some (Kubernetes.Quantity n unit_)
    /\ limit = Some (Kubernetes.Quantity l unit_)
    /\ 2 * l = 3 * n - n mod 2.

(** Requests are the configured figures and limits are those figures
    times 1.5, rounded down. *)
Definition burst_limits (memory_mb cpu_millicores : Z)
    (r : Kubernetes.V1ResourceRequirements) : Prop :=
  assoc "memory" (Kubernetes.requests r) = Some (Kubernetes.Quantity memory_mb "Mi")
  /\ assoc "cpu" (Kubernetes.requests r) = Some (Kubernetes.Quantity cpu_millicores "m")
  /\ rounded_down_1_5 (assoc "memory" (Kubernetes.requests r))
                      (assoc "memory" (Kubernetes.limits r))
  /\ rounded_down_1_5 (assoc "cpu" (Kubernetes.requests r))
                      (assoc "cpu" (Kubernetes.limits r)).

(** A run of a manager operation: its result, the cluster it leaves, the
    log of calls and answers, and the calls alone. *)
Definition result_of {world A} (run : outcome A * Kubernetes.state (world := world))
    : outcome A :=
  fst run.

Definition cluster_after {world A}
    (run : outcome A * Kubernetes.state (world := world)) : world :=
  fst (snd run).

Definition log_of {world A} (run : outcome A * Kubernetes.state (world := world))
    : list (Kubernetes.call * Kubernetes.reply) :=
  snd (snd run).

Definition calls_of {world A} (run : outcome A * Kubernetes.state (world := world))
    : list Kubernetes.call :=
  map fst (log_of run).

(** What [deploy_function] asks of the cluster: the deployment it creates
    carries [resources memory_mb (vcpu_count * 1000)], and the readiness
    poll is given [deployment_timeout dependencies]. *)
Definition deploy_call_ok (dependencies : list string) (memory_mb vcpu_count : Z)
    (c : Kubernetes.call) : Prop :=
  match c with
  | Kubernetes.CreateDeployment body =>
      Kubernetes.container_resources body = Kubernetes.resources memory_mb (vcpu_count * 1000)
  | Kubernetes.WaitForDeployment _ timeout => timeout = Kubernetes.deployment_timeout dependencies
  | _ => True
  end.

(** *** Teardown *)

(** The answer is a result or an [ApiException], not another error. *)
Definition answered (ev : Kubernetes.call * Kubernetes.reply) : Prop :=
  match snd ev with Kubernetes.Failure _ => False | _ => True end.

(** The wait for the deployment to be gone, round by round, with [rounds]
    reads left: the read that is answered 404 ends the wait; a read that
    finds the deployment is followed by a sleep of one second and the next
    round; a read answered with another [ApiException] is followed by the
    next round at once; after the last round the wait is over. *)
Inductive waited (deployment_name : string)
    : nat -> list (Kubernetes.call * Kubernetes.reply) -> Prop :=
| waited_out : waited deployment_name 0 []
| waited_gone rounds :
    waited deployment_name (S rounds)
      [ (Kubernetes.ReadDeployment deployment_name, Kubernetes.ApiError 404) ]
| waited_found rounds p rest :
    waited deployment_name rounds rest ->
    waited deployment_name (S rounds)
      ((Kubernetes.ReadDeployment deployment_name, Kubernetes.Ok p)
       :: (Kubernetes.Sleep 1, Kubernetes.Ok Kubernetes.PNone) :: rest)
| waited_error rounds status rest :
    status <> 404 ->
    waited deployment_name rounds rest ->
    waited deployment_name (S rounds)
      ((Kubernetes.ReadDeployment deployment_name, Kubernetes.ApiError status) :: rest).

(** A completed teardown: autoscaler, service, deployment, the wait of at
    most thirty rounds, and the config map last; no call met an error
    other than an [ApiException]. *)
Definition complete_teardown (deployment_name : string)
    (log : list (Kubernetes.call * Kubernetes.reply)) : Prop :=
  exists r1 r2 r3 polls r4,
    log = [ (Kubernetes.DeleteHPA (deployment_name +:+ "-hpa"), r1);
            (Kubernetes.DeleteService (deployment_name +:+ "-svc"), r2);
            (Kubernetes.DeleteDeployment deployment_name, r3) ]
          ++ polls ++ [ (Kubernetes.DeleteConfigMap deployment_name, r4) ]
    /\ waited deployment_name 30 polls
    /\ Forall answered log.

(** A teardown either completes, or raises the error, not an
    [ApiException], that its last call met. *)
Definition teardown {world}
    (deployment_name : string)
    (run : outcome unit * Kubernetes.state (world := world)) : Prop :=
  match result_of run with
  | Return _ => complete_teardown deployment_name (log_of run)
  | Raise e =>
      exists c msg,
        e = Exception msg /\ last (log_of run) = Some (c, Kubernetes.Failure msg)
  end.

(** The log is what the cluster answered, call after call, on the way from
    [w] to [w']: every call is put to the cluster as the call before left
    it, and a sleep, which is logged as done, lets the cluster move on. *)
Fixpoint replayed {world} {cluster : Kubernetes.Cluster world} (w : world)
    (log : list (Kubernetes.call * Kubernetes.reply)) (w' : world) : Prop :=
  match log with
  | [] => w' = w
  | (c, r) :: rest =>
      match c with
      | Kubernetes.Sleep _ => r = Kubernetes.Ok Kubernetes.PNone
      | _ => r = fst (Kubernetes.respond c w)
      end
      /\ replayed (snd (Kubernetes.respond c w)) rest w'
  end.

(** A computation of the manager extends a log that the cluster
    answered. *)
Definition tracks {world} {cluster : Kubernetes.Cluster world} {A}
    (m : Kubernetes.M (world := world) A) : Prop :=
  forall (w0 w : world) log,
    replayed w0 log w ->
    replayed w0 (snd (snd (m (w, log)))) (fst (snd (m (w, log)))).

(** *** Gateway *)

(** The endpoint can be addressed: the manager runs in the cluster, or the
    port-forward process is running. *)
Definition endpoint_resolved (net : Kubernetes.Network) : Prop :=
  Kubernetes.in_cluster net = true \/ Kubernetes.kubectl net = Kubernetes.ProcessRunning.




(** *** Agent *)

(** The code is loaded, defines the handler, and the handler is still
running when the join times out. *)
Definition handler_overruns (self : Agent.FunctionExecutor) (run : Agent.Run) : Prop :=
  truthy (Agent.function_code self) = true
  /\ (exists names,
        Agent.on_exec run = Agent.ExecDefines names /\ Agent.handler_name self ∈ names)
  /\ Agent.on_join run = Agent.HandlerStillRunning.

(** *** Invocation guards *)

(** The function can be invoked: it is active and has a service. *)
Definition deployed (func : Function.t) : bool :=
  String.eqb (Function.status func) "active" && truthy (Function.service_name func).

(** [sum(1 for inv in recent if inv.status == 'timeout')]. *)
Definition timeouts (recent : list FunctionInvocation.t) : nat :=
  length (filter (fun inv => FunctionInvocation.status inv = "timeout") recent).

(** The message of the guard that turns an attempt down, in the order the
tasks try them. *)
Definition rejection (not_deployed : string) (func : Function.t) (now : Z) (db : DB)
    : string :=
  if negb (deployed func) then not_deployed
  else if Tasks.circuit_breaker_open func now db then Tasks.high_failure_rate
  else Tasks.too_many_concurrent (Tasks.running_invocations func db).

(** *** Triggers *)

(** A scheduled trigger of the function. *)
Definition owned_scheduled (func : Function.t) (trigger : FunctionTrigger.t) : Prop :=
  FunctionTrigger.function trigger = Function.uuid func
  /\ FunctionTrigger.trigger_type trigger = "scheduled".

(** No enabled periodic task goes by that name. *)
Definition job_off (jobs : gmap string PeriodicTask.t) (task_name : string) : Prop :=
  match jobs !! task_name with
  | Some job => PeriodicTask.enabled job = false
  | None => True
  end.

(** What the loop of [disable_triggers_on_undeploy] does to a row. *)
Definition disabled_by (done : list FunctionTrigger.t) (row : FunctionTrigger.t)
    : FunctionTrigger.t :=
  if existsb (fun t => FunctionTrigger.enabled t
                       && Nat.eqb (FunctionTrigger.id row) (FunctionTrigger.id t)) done
  then FunctionTrigger.set_enabled false row
  else row.

(** Every scheduled trigger of the function is disabled, and so is its
periodic task. *)
Definition triggers_off (func : Function.t) (db : DB) : Prop :=
  Forall (fun trigger =>
            owned_scheduled func trigger ->
            FunctionTrigger.enabled trigger = false
            /\ job_off (periodic_tasks db) (task_name_of trigger))
         (triggers db).

(** *** Lifecycle *)

(** The cluster-binding fields: deployment name, service name, namespace. *)
Definition bound (f : Function.t) : Prop :=
  is_Some (Function.deployment_name f)
  /\ is_Some (Function.service_name f)
  /\ is_Some (Function.k8s_namespace f).

Definition unbound (f : Function.t) : Prop :=
  Function.deployment_name f = None
  /\ Function.service_name f = None
  /\ Function.k8s_namespace f = None.

Definition same_binding (a b : Function.t) : Prop :=
  Function.deployment_name b = Function.deployment_name a
  /\ Function.service_name b = Function.service_name a
  /\ Function.k8s_namespace b = Function.k8s_namespace a.

(** One write of a function row by the deploy and undeploy endpoints and
tasks, from the stored row [a] to the stored row [b]. *)
Inductive lifecycle_write (a b : Function.t) : Prop :=
| write_deploying :
    Function.status b = "deploying" -> same_binding a b -> lifecycle_write a b
| write_active :
    Function.status a = "deploying" -> Function.status b = "active" -> bound b ->
    lifecycle_write a b
| write_deploy_error :
    Function.status a = "deploying" -> Function.status b = "error" ->
    same_binding a b -> lifecycle_write a b
| write_undeploying :
    Function.status b = "undeploying" -> same_binding a b -> lifecycle_write a b
| write_draft :
    Function.status a = "undeploying" -> Function.status b = "draft" -> unbound b ->
    lifecycle_write a b
| write_undeploy_error :
    Function.status a = "undeploying" -> Function.status b = "error" ->
    same_binding a b -> lifecycle_write a b.

(** Successive rows, each related to the one before. *)
Fixpoint chain {A} (R : A -> A -> Prop) (x : A) (l : list A) : Prop :=
  match l with
  | [] => True
  | y :: rest => R x y /\ chain R y rest
  end.

(** The operations that move a function through its lifecycle. *)
Inductive operation :=
| DeployRequest
| DeployJob (retries : nat) (now : Z) (KUBERNETES_NAMESPACE : string)
| UndeployRequest
| UndeployJob (retries : nat).

Definition perform {world} {cluster : Kubernetes.Cluster world} (op : operation)
    (function_uuid : string) (db : DB) (k : Kubernetes.state (world := world))
    : DB * Kubernetes.state (world := world) :=
  match op with
  | DeployRequest => (snd (Api.deploy_function function_uuid db), k)
  | DeployJob retries now KUBERNETES_NAMESPACE =>
      let '(_, db', k') :=
        Tasks.deploy_function_task retries function_uuid now KUBERNETES_NAMESPACE db k in
      (db', k')
  | UndeployRequest => (snd (Api.undeploy_function function_uuid db), k)
  | UndeployJob retries =>
      let '(_, db', k') := Tasks.undeploy_function_task retries function_uuid db k in
      (db', k')
  end.

End Spec.

(** ** Concrete clusters, databases and runs used as test inputs *)

Module Samples.

(** A cluster where every call succeeds and deployments become ready. *)
Definition healthy : Kubernetes.Cluster unit :=
  fun c w =>
    (match c with
     | Kubernetes.CreateService _ _ => Kubernetes.Ok (Kubernetes.PService (Some "10.0.0.7"))
     | Kubernetes.ListPods _ => Kubernetes.Ok (Kubernetes.PPods ["func-0a1b2c3d-6d5f"])
     | Kubernetes.WaitForDeployment _ _ => Kubernetes.Ok (Kubernetes.PReady true)
     | _ => Kubernetes.Ok Kubernetes.PNone
     end, w).

(** A cluster that cannot be reached. *)
Definition unreachable : Kubernetes.Cluster unit :=
  fun _ w => (Kubernetes.Failure "Max retries exceeded with url", w).

(** A cluster that holds none of the objects asked for. *)
Definition empty_cluster : Kubernetes.Cluster unit :=
  fun _ w => (Kubernetes.ApiError 404, w).

(** A cluster that holds the four objects of one function.  A deleted
    deployment stays readable until [terminating] sleeps have passed. *)
Record objects := {
  has_hpa : bool;
  has_service : bool;
  has_deployment : bool;
  terminating : nat;
  has_config_map : bool
}.

Definition nothing : objects :=
  {| has_hpa := false; has_service := false; has_deployment := false;
     terminating := 0%nat; has_config_map := false |}.

Definition present (b : bool) (w w' : objects) : Kubernetes.reply * objects :=
  if b then (Kubernetes.Ok Kubernetes.PNone, w') else (Kubernetes.ApiError 404, w).

Definition absent (b : bool) (w w' : objects) : Kubernetes.reply * objects :=
  if b then (Kubernetes.ApiError 409, w) else (Kubernetes.Ok Kubernetes.PNone, w').

Definition one_function : Kubernetes.Cluster objects :=
  fun c w =>
    let '{| has_hpa := h; has_service := s; has_deployment := d;
            terminating := t; has_config_map := m |} := w in
    let mk h s d t m :=
      {| has_hpa := h; has_service := s; has_deployment := d;
         terminating := t; has_config_map := m |} in
    match c with
    | Kubernetes.CreateConfigMap _ _ => absent m w (mk h s d t true)
    | Kubernetes.PatchConfigMap _ _ => present m w w
    | Kubernetes.CreateDeployment _ => absent d w (mk h s true t m)
    | Kubernetes.CreateService _ _ =>
        if s then (Kubernetes.ApiError 409, w)
        else (Kubernetes.Ok (Kubernetes.PService (Some "10.0.0.7")), mk h true d t m)
    | Kubernetes.CreateHPA _ _ => absent h w (mk true s d t m)
    | Kubernetes.ListPods _ =>
        (Kubernetes.Ok (Kubernetes.PPods (if d then ["func-0a1b2c3d-6d5f"] else [])), w)
    | Kubernetes.DeleteHPA _ => present h w (mk false s d t m)
    | Kubernetes.DeleteService _ => present s w (mk h false d t m)
    | Kubernetes.DeleteDeployment _ => present d w (mk h s false 2%nat m)
    | Kubernetes.ReadDeployment _ => present (d || negb (Nat.eqb t 0%nat)) w w
    | Kubernetes.DeleteConfigMap _ => present m w (mk h s d t false)
    | Kubernetes.WaitForDeployment _ _ => (Kubernetes.Ok (Kubernetes.PReady d), w)
    | Kubernetes.Sleep _ => (Kubernetes.Ok Kubernetes.PNone, mk h s d (Nat.pred t) m)
    end.

(** Local development with a [kubectl port-forward] that exits at
    once. *)
Definition broken_tunnel : Kubernetes.Network :=
  {| Kubernetes.in_cluster := false;
     Kubernetes.namespace := "fnbox-functions";
     Kubernetes.local_port := 30517;
     Kubernetes.kubectl := Kubernetes.ProcessExited;
     Kubernetes.post := fun _ _ _ => Kubernetes.PostTimeout |}.

(** In the cluster, with an agent that answers every request with
    [response]. *)
Definition in_cluster_answering (response : Kubernetes.post_result)
    : Kubernetes.Network :=
  {| Kubernetes.in_cluster := true;
     Kubernetes.namespace := "fnbox-functions";
     Kubernetes.local_port := 0;
     Kubernetes.kubectl := Kubernetes.ProcessExited;
     Kubernetes.post := fun _ _ _ => response |}.

Definition bad_gateway : Kubernetes.Response :=
  {| Kubernetes.status_code := 502;
     Kubernetes.reason := "Bad Gateway";
     Kubernetes.header_content_type := Some "text/html";
     Kubernetes.text := "<html>502</html>";
     Kubernetes.body_json := inl "Expecting value: line 1 column 1 (char 0)" |}.

Definition not_modified : Kubernetes.Response :=
  {| Kubernetes.status_code := 304;
     Kubernetes.reason := "Not Modified";
     Kubernetes.header_content_type := Some "application/json";
     Kubernetes.text := "{}";
     Kubernetes.body_json := inr (JDict []) |}.

(** An executor with a handler that sleeps, and a run of it that is still
going when the join returns. *)
Definition sleeper : Agent.FunctionExecutor :=
  Agent.load_function "import time\ndef handler(event, context): time.sleep(60)"
    "handler" None Agent.new_executor.

Definition overrun : Agent.Run :=
  {| Agent.on_exec := Agent.ExecDefines ["__name__"; "__builtins__"; "time"; "handler"];
     Agent.on_join := Agent.HandlerStillRunning;
     Agent.stdout_capture := "starting";
     Agent.stderr_capture := "";
     Agent.elapsed_ms := 2003;
     Agent.start_memory := 21;
     Agent.end_memory := 21;
     Agent.traceback := "" |}.

(** A deployed function and invocation rows of it. *)
Definition hello : Function.t :=
  {| Function.uuid := "0a1b2c3d-0000-4000-8000-000000000000";
     Function.name := "hello";
     Function.code := "def handler(event, context): return 1";
     Function.handler := "handler";
     Function.runtime := "python3.11";
     Function.memory_mb := 128;
     Function.vcpu_count := 1;
     Function.timeout_seconds := 30;
     Function.depsets := [];
     Function.secrets := [];
     Function.status := "active";
     Function.last_deployed_at := Some 1000000;
     Function.deployment_name := Some "func-0a1b2c3d";
     Function.service_name := Some "func-0a1b2c3d-svc";
     Function.k8s_namespace := Some "fnbox-functions";
     Function.invocation_count := 12;
     Function.last_invoked_at := None |}.

Definition row (id : nat) (status : string) (created_at : Z) : FunctionInvocation.t :=
  {| FunctionInvocation.id := id;
     FunctionInvocation.function := Function.uuid hello;
     FunctionInvocation.request_id := "req-" +:+ pretty id;
     FunctionInvocation.status := status;
     FunctionInvocation.input_data := JDict [];
     FunctionInvocation.output_data := None;
     FunctionInvocation.error_message := JStr "";
     FunctionInvocation.duration_ms := None;
     FunctionInvocation.memory_used_mb := None;
     FunctionInvocation.logs := JStr "";
     FunctionInvocation.created_at := created_at;
     FunctionInvocation.started_at := Some created_at;
     FunctionInvocation.completed_at := None |}.

Definition database (rows : list FunctionInvocation.t) : DB :=
  {| functions := {[ Function.uuid hello := hello ]};
     invocations := rows;
     triggers := [];
     crontabs := [];
     periodic_tasks := ∅;
     function_saves := [] |}.

(** Rows numbered from [first], one second apart from [start]. *)
Fixpoint rows_from (first : nat) (start : Z) (statuses : list string)
    : list FunctionInvocation.t :=
  match statuses with
  | [] => []
  | status :: rest =>
      row first status start :: rows_from (S first) (start + 1000000) rest
  end.

(** Ten minutes after the epoch, in a cluster whose agent answers [post]. *)
Definition surroundings (post : Kubernetes.post_result) : Tasks.Surroundings :=
  {| Tasks.now := minutes 10;
     Tasks.completed := minutes 10 + 250000;
     Tasks.execution_time := 250;
     Tasks.generated_request_id := "req-5f0c2d9a41be";
     Tasks.network := in_cluster_answering post |}.

(** Ten rows of the last minute, eight of them in error. *)
Definition failing : DB :=
  database (rows_from 1 (minutes 9)
              (["success"; "error"; "error"; "error"; "error"; "timeout";
                "error"; "error"; "error"; "error"])).

(** Five rows still pending or running, and an older success. *)
Definition busy : DB :=
  database (rows_from 1 (minutes 9)
              (["success"; "running"; "running"; "pending"; "running"; "pending"])).

(** Nine rows of the last minute, all in error. *)
Definition nine_errors : DB :=
  database (rows_from 1 (minutes 9) (replicate 9 "error")).

(** Ten rows of the last minute: seven errors and three timeouts. *)
Definition seven_errors_three_timeouts : DB :=
  database (rows_from 1 (minutes 9) (replicate 7 "error" ++ replicate 3 "timeout")).

(** The function with two scheduled triggers, one of them enabled with
its periodic task, and an HTTP trigger. *)
Definition every_five_minutes : CrontabSchedule.t :=
  {| CrontabSchedule.minute := "*/5"; CrontabSchedule.hour := "*";
     CrontabSchedule.day_of_month := "*"; CrontabSchedule.month_of_year := "*";
     CrontabSchedule.day_of_week := "*" |}.

Definition trigger (id : nat) (uuid kind : string) (enabled : bool) : FunctionTrigger.t :=
  {| FunctionTrigger.id := id;
     FunctionTrigger.uuid := uuid;
     FunctionTrigger.function := Function.uuid hello;
     FunctionTrigger.name := "t" +:+ pretty id;
     FunctionTrigger.trigger_type := kind;
     FunctionTrigger.schedule :=
       if String.eqb kind "scheduled" then Some "*/5 * * * *" else None;
     FunctionTrigger.enabled := enabled |}.

Definition job (enabled : bool) : PeriodicTask.t :=
  {| PeriodicTask.crontab := every_five_minutes;
     PeriodicTask.task := "functions.tasks.invoke_function_task";
     PeriodicTask.kwargs := JDict [];
     PeriodicTask.enabled := enabled;
     PeriodicTask.description := "" |}.

Definition scheduled : DB :=
  {| functions := {[ Function.uuid hello := hello ]};
     invocations := [];
     triggers := [ trigger 1 "aaaa" "scheduled" true;
                   trigger 2 "bbbb" "scheduled" false;
                   trigger 3 "cccc" "http" true ];
     crontabs := [ every_five_minutes ];
     periodic_tasks := {[ "trigger-aaaa" := job true; "trigger-bbbb" := job true ]};
     function_saves := [] |}.

End Samples.

(** ** [functions/api.py]: invocation, deletion and trigger endpoints

    As for the deploy and undeploy endpoints, authentication and team
    membership are left out. *)

Module Endpoints.

(** [POST /{function_id}/invoke], the synchronous invocation.  [is_public]
is the column of that name of the function row, which the record does not
carry.  The request id is always generated; when it is taken, [create]
raises outside every handler and the framework answers 500, as it does when
the [save] of the exception handler raises.  The answer is the dict the view
returns; its validation against the schema [TestInvocationOut] is left
out. *)
Definition invoke_function_sync (is_public : bool) (function_id : string)
    (event : list (string * json)) (env : Tasks.Surroundings) (db : DB)
    : Api.response * DB :=
  match functions db !! function_id with
  | None => (Api.HttpError 404 "Not Found", db)
  | Some func =>
      if negb is_public then
        (Api.HttpError 403 "This function is private and cannot be invoked via public URL", db)
      else if negb (String.eqb (Function.status func) "active")
              || negb (truthy (Function.service_name func))
      then (Api.HttpError 400 "Function is not deployed", db)
      else
        let request_id := Tasks.generated_request_id env in
        if existsb (fun row => String.eqb (FunctionInvocation.request_id row) request_id)
                   (invocations db)
        then (Api.HttpError 500 "Internal Server Error", db)
        else
          let invocation :=
            {| FunctionInvocation.id := Tasks.next_id db;
               FunctionInvocation.function := Function.uuid func;
               FunctionInvocation.request_id := request_id;
               FunctionInvocation.status := "pending";
               FunctionInvocation.input_data := JDict event;
               FunctionInvocation.output_data := None;
               FunctionInvocation.error_message := JStr "";
               FunctionInvocation.duration_ms := None;
               FunctionInvocation.memory_used_mb := None;
               FunctionInvocation.logs := JStr "";
               FunctionInvocation.created_at := Tasks.now env;
               FunctionInvocation.started_at := Some (Tasks.now env);
               FunctionInvocation.completed_at := None |} in
          let db1 := with_invocations (invocations db ++ [invocation]) db in
          let invocation := FunctionInvocation.set_status "running" invocation in
          let db2 := Tasks.save_invocation invocation db1 in
          let event_with_secrets :=
            Tasks.dict_set "__secrets__" (JDict (Tasks.secrets_dict func)) event in
          (* [except Exception as e]; its [invocation.save()] is not guarded *)
          let on_exception inv e :=
            let inv := Tasks.errored inv e env in
            match Tasks.save_error inv with
            | Some _ => (Api.HttpError 500 "Internal Server Error", db2)
            | None =>
                (Api.Accepted (JDict [ ("success", JBool false);
                                       ("result", JNull);
                                       ("error", JStr (str e));
                                       ("execution_time_ms", JInt 0) ]),
                 Tasks.save_invocation inv db2)
            end in
          match Kubernetes.invoke_function (Tasks.network env)
                  (default "" (Function.service_name func)) event_with_secrets
                  (Function.timeout_seconds func) (Some (Function.code func))
                  (Function.handler func) with
          | Raise e => on_exception invocation e
          | Return (JDict result) =>
              let assigned :=
                {| FunctionInvocation.id := FunctionInvocation.id invocation;
                   FunctionInvocation.function := FunctionInvocation.function invocation;
                   FunctionInvocation.request_id := FunctionInvocation.request_id invocation;
                   FunctionInvocation.status :=
                     if Kubernetes.json_truthy_default (assoc "success" result)
                     then "success" else "error";
                   FunctionInvocation.input_data := FunctionInvocation.input_data invocation;
                   FunctionInvocation.output_data := assoc "result" result;
                   FunctionInvocation.error_message := default (JStr "") (assoc "error" result);
                   FunctionInvocation.duration_ms := None;
                   FunctionInvocation.memory_used_mb := None;
                   FunctionInvocation.logs := default (JStr "") (assoc "logs" result);
                   FunctionInvocation.created_at := FunctionInvocation.created_at invocation;
                   FunctionInvocation.started_at := FunctionInvocation.started_at invocation;
                   FunctionInvocation.completed_at := None |} in
              match Tasks.duration_of result (Tasks.execution_time env) with
              | Raise e => on_exception assigned e
              | Return duration =>
                  let stored :=
                    {| FunctionInvocation.id := FunctionInvocation.id assigned;
                       FunctionInvocation.function := FunctionInvocation.function assigned;
                       FunctionInvocation.request_id := FunctionInvocation.request_id assigned;
                       FunctionInvocation.status := FunctionInvocation.status assigned;
                       FunctionInvocation.input_data := FunctionInvocation.input_data assigned;
                       FunctionInvocation.output_data := FunctionInvocation.output_data assigned;
                       FunctionInvocation.error_message :=
                         FunctionInvocation.error_message assigned;
                       FunctionInvocation.duration_ms := Some duration;
                       FunctionInvocation.memory_used_mb := assoc "memory_used_mb" result;
                       FunctionInvocation.logs := FunctionInvocation.logs assigned;
                       FunctionInvocation.created_at := FunctionInvocation.created_at assigned;
                       FunctionInvocation.started_at := FunctionInvocation.started_at assigned;
                       FunctionInvocation.completed_at := Some (Tasks.completed env) |} in
                  match Tasks.save_error stored with
                  | Some e => on_exception stored e
                  | None =>
                      let db3 := Tasks.save_invocation stored db2 in
                      let func :=
                        Function.set_statistics (Function.invocation_count func + 1)
                          (Some (Tasks.completed env)) func in
                      let db4 := save_function statistics_columns func db3 in
                      (Api.Accepted
                         (if Kubernetes.json_truthy_default (assoc "success" result)
                          then JDict [ ("success", JBool true);
                                       ("result", default JNull (assoc "result" result));
                                       ("error", JNull);
                                       ("execution_time_ms",
                                        default (JInt 0) (assoc "execution_time_ms" result)) ]
                          else JDict [ ("success", JBool false);
                                       ("result", JNull);
                                       ("error",
                                        default (JStr "Unknown error") (assoc "error" result));
                                       ("execution_time_ms",
                                        default (JInt 0) (assoc "execution_time_ms" result)) ]),
                       db4)
                  end
              end
          | Return other =>
              on_exception invocation
                (Exception ("'" +:+ Tasks.type_name other +:+ "' object has no attribute 'get'"))
          end
  end.

(** [function.delete()]: the rows that reference the function go with it,
and [post_delete] runs for each of its triggers. *)
Definition delete_function_row (function : Function.t) (db : DB) : DB :=
  let key := Function.uuid function in
  let owned := filter (fun t => FunctionTrigger.function t = key) (triggers db) in
  let db1 :=
    {| functions := delete key (functions db);
       invocations := filter (fun i => FunctionInvocation.function i <> key) (invocations db);
       triggers := filter (fun t => FunctionTrigger.function t <> key) (triggers db);
       crontabs := crontabs db;
       periodic_tasks := periodic_tasks db;
       function_saves := function_saves db |} in
  foldl (fun db t => delete_scheduled_trigger t db) db1 owned.

(** [DELETE /{function_id}]. *)
Definition delete_function (function_id : string) (db : DB) : Api.response * DB :=
  match functions db !! function_id with
  | None => (Api.HttpError 404 "Not Found", db)
  | Some function =>
      if negb (bool_decide (Function.status function ∈ ["draft"; "inactive"; "error"]))
      then (Api.HttpError 400 "Function must be undeployed before deletion", db)
      else
        (Api.Accepted
           (JDict [ ("success", JBool true);
                    ("message", JStr ("Function '" +:+ Function.name function +:+
                                      "' deleted successfully")) ]),
         delete_function_row function db)
  end.

Module TriggerCreateIn.
Record t := {
  name : string;
  trigger_type : string;
  schedule : option string;
  enabled : bool
}.
End TriggerCreateIn.

Module TriggerUpdateIn.
Record t := {
  name : option string;
  schedule : option string;
  enabled : option bool
}.
End TriggerUpdateIn.

(** The part of [TriggerOut] the records carry. *)
Definition trigger_out (trigger : FunctionTrigger.t) : json :=
  JDict [ ("uuid", JStr (FunctionTrigger.uuid trigger));
          ("function_uuid", JStr (FunctionTrigger.function trigger));
          ("name", JStr (FunctionTrigger.name trigger));
          ("trigger_type", JStr (FunctionTrigger.trigger_type trigger));
          ("schedule", match FunctionTrigger.schedule trigger with
                       | Some s => JStr s
                       | None => JNull
                       end);
          ("enabled", JBool (FunctionTrigger.enabled trigger)) ].

Definition next_trigger_id (db : DB) : nat :=
  S (foldr Nat.max 0%nat (map FunctionTrigger.id (triggers db))).

(** [POST /triggers]; [new_uuid] is the [uuid4] of the new row.  A name
already used by the function, or a uuid already used, violates a unique
constraint and the framework answers 500. *)
Definition create_trigger (function_id : string) (payload : TriggerCreateIn.t)
    (new_uuid : string) (db : DB) : Api.response * DB :=
  match functions db !! function_id with
  | None => (Api.HttpError 404 "Not Found", db)
  | Some func =>
      if negb (bool_decide (TriggerCreateIn.trigger_type payload ∈ ["scheduled"; "http"]))
      then (Api.HttpError 400 "Invalid trigger type", db)
      else if String.eqb (TriggerCreateIn.trigger_type payload) "scheduled"
              && negb (truthy (TriggerCreateIn.schedule payload))
      then (Api.HttpError 400 "Schedule is required for scheduled triggers", db)
      else if existsb (fun row =>
                         String.eqb (FunctionTrigger.uuid row) new_uuid
                         || (String.eqb (FunctionTrigger.function row) (Function.uuid func)
                             && String.eqb (FunctionTrigger.name row)
                                  (TriggerCreateIn.name payload)))
                      (triggers db)
      then (Api.HttpError 500 "Internal Server Error", db)
      else
        let trigger :=
          {| FunctionTrigger.id := next_trigger_id db;
             FunctionTrigger.uuid := new_uuid;
             FunctionTrigger.function := Function.uuid func;
             FunctionTrigger.name := TriggerCreateIn.name payload;
             FunctionTrigger.trigger_type := TriggerCreateIn.trigger_type payload;
             FunctionTrigger.schedule := TriggerCreateIn.schedule payload;
             FunctionTrigger.enabled := TriggerCreateIn.enabled payload |} in
        (Api.Accepted (trigger_out trigger),
         manage_scheduled_trigger trigger (with_triggers (triggers db ++ [trigger]) db))
  end.

(** [PUT /triggers/{trigger_id}]. *)
Definition update_trigger (trigger_id : string) (payload : TriggerUpdateIn.t) (db : DB)
    : Api.response * DB :=
  match find (fun row => String.eqb (FunctionTrigger.uuid row) trigger_id) (triggers db) with
  | None => (Api.HttpError 404 "Not Found", db)
  | Some trigger =>
      let trigger :=
        {| FunctionTrigger.id := FunctionTrigger.id trigger;
           FunctionTrigger.uuid := FunctionTrigger.uuid trigger;
           FunctionTrigger.function := FunctionTrigger.function trigger;
           FunctionTrigger.name :=
             default (FunctionTrigger.name trigger) (TriggerUpdateIn.name payload);
           FunctionTrigger.trigger_type := FunctionTrigger.trigger_type trigger;
           FunctionTrigger.schedule :=
             match TriggerUpdateIn.schedule payload with
             | Some s => Some s
             | None => FunctionTrigger.schedule trigger
             end;
           FunctionTrigger.enabled :=
             default (FunctionTrigger.enabled trigger) (TriggerUpdateIn.enabled payload) |} in
      if existsb (fun row =>
                    negb (Nat.eqb (FunctionTrigger.id row) (FunctionTrigger.id trigger))
                    && String.eqb (FunctionTrigger.function row)
                         (FunctionTrigger.function trigger)
                    && String.eqb (FunctionTrigger.name row) (FunctionTrigger.name trigger))
                 (triggers db)
      then (Api.HttpError 500 "Internal Server Error", db)
      else
        let rows :=
          map (fun row =>
                 if Nat.eqb (FunctionTrigger.id row) (FunctionTrigger.id trigger)
                 then trigger else row)
              (triggers db) in
        (Api.Accepted (trigger_out trigger),
         manage_scheduled_trigger trigger (with_triggers rows db))
  end.

(** [DELETE /triggers/{trigger_id}]. *)
Definition delete_trigger (trigger_id : string) (db : DB) : Api.response * DB :=
  match find (fun row => String.eqb (FunctionTrigger.uuid row) trigger_id) (triggers db) with
  | None => (Api.HttpError 404 "Not Found", db)
  | Some trigger =>
      let rows :=
        filter (fun row => FunctionTrigger.id row <> FunctionTrigger.id trigger)
               (triggers db) in
      (Api.Accepted (JDict [ ("success", JBool true);
                             ("message", JStr "Trigger deleted successfully") ]),
       delete_scheduled_trigger trigger (with_triggers rows db))
  end.

End Endpoints.

(** ** [functions/kubernetes.py]: the readiness poll itself

    [Kubernetes._wait_for_deployment] stands for this loop in
    [deploy_function]; here the loop is written out against a cluster with
    a clock. *)

Module Readiness.
Import Kubernetes.

(** [time.time()], in milliseconds. *)
Class Clock (world : Type) := time : world -> Z.

Section Poll.
Context {world : Type} {cluster : Cluster world} {clock : Clock world}.

(** One round of [while time.time() - start < timeout]: read the
deployment; return when it has a ready replica, otherwise sleep two seconds
and go round again; an [ApiException] is logged and slept over.  [poll]
gives [None] when [rounds] rounds did not end the loop.  The answer
[PReady ready] to the read says whether [status.ready_replicas] is set and
positive. *)
Fixpoint poll (rounds : nat) (name : string) (start timeout : Z) : M (option bool) :=
  match rounds with
  | O => ret None
  | S rounds' =>
      fun s =>
        if time (fst s) - start <? timeout * 1000 then
          bind
            (except_ApiException
               (bind (api (ReadDeployment name))
                     (fun deployment =>
                        match deployment with
                        | PReady true => ret true
                        | _ => bind (sleep 2) (fun _ => ret false)
                        end))
               (fun _ => bind (sleep 2) (fun _ => ret false)))
            (fun ready =>
               if (ready : bool) then ret (Some true)
               else poll rounds' name start timeout)
            s
        else (Return (Some false), s)
  end.

(** [_wait_for_deployment(name, timeout)]. *)
Definition _wait_for_deployment (rounds : nat) (name : string) (timeout : Z)
    : M (option bool) :=
  fun s => poll rounds name (time (fst s)) timeout s.

End Poll.

End Readiness.

(** ** [functions/docker/agent.py]: the executor in its process

    [load_function] writes to [os.environ] of the agent process, which all
    requests of a pod share.  The variables are a dict of texts, as the
    gateway sends them. *)

Module AgentProcess.

Record t := {
  executor : Agent.FunctionExecutor;
  environ : gmap string string
}.

(** A fresh pod. *)
Definition start (environ : gmap string string) : t :=
  {| executor := Agent.new_executor; environ := environ |}.

(** What [os.environ[key] = value] raises instead of setting the variable:
    a text with a NUL cannot be handed to the system, a name with [=] is
    refused, and [setenv] fails on the empty name. *)
Definition putenv_error (key value : string) : option exn :=
  if Tasks.has "000" key || Tasks.has "000" value
  then Some (ValueError "embedded null byte")
  else if Tasks.has "=" key then Some (ValueError "illegal environment variable name")
  else if String.eqb key "" then Some (Exception "[Errno 22] Invalid argument")
  else None.

(** [for key, value in self.env_vars.items(): os.environ[key] = value]. *)
Fixpoint inject (vars : list (string * string)) (environ : gmap string string)
    : outcome unit * gmap string string :=
  match vars with
  | [] => (Return tt, environ)
  | (key, value) :: rest =>
      match putenv_error key value with
      | Some e => (Raise e, environ)
      | None => inject rest (<[ key := value ]> environ)
      end
  end.

(** [load_function]: the fields of the executor are assigned first, then
    the variables are put into the environment one by one. *)
Definition load_function (code handler : string)
    (env_vars : option (list (string * string))) (p : t) : outcome unit * t :=
  let executor := Agent.load_function code handler env_vars (executor p) in
  let injected := inject (Agent.env_vars executor) (environ p) in
  (fst injected, {| executor := executor; environ := snd injected |}).

End AgentProcess.

(** ** Further predicates and test inputs *)

Module Extra.

(** No character of the string is white space. *)
Fixpoint spaceless (s : string) : bool :=
  match s with
  | EmptyString => true
  | String c rest => negb (is_space c) && spaceless rest
  end.

(** A field of a cron expression: not empty, no white space. *)
Definition cron_field (s : string) : Prop := s <> "" /\ spaceless s = true.

(** [s.isascii()]: every character is below 128, so that the text is the
    same whether its characters are read as code points or as bytes. *)
Fixpoint isascii (s : string) : bool :=
  match s with
  | EmptyString => true
  | String c rest => (nat_of_ascii c <? 128)%nat && isascii rest
  end.

(** The five fields of a schedule, in the order of the expression. *)
Definition fields_of (c : CrontabSchedule.t) : list string :=
  [ CrontabSchedule.minute c; CrontabSchedule.hour c; CrontabSchedule.day_of_month c;
    CrontabSchedule.month_of_year c; CrontabSchedule.day_of_week c ].

(** The trigger asks for a periodic task: scheduled, enabled, with a
schedule. *)
Definition schedulable (t : FunctionTrigger.t) : bool :=
  String.eqb (FunctionTrigger.trigger_type t) "scheduled"
  && FunctionTrigger.enabled t
  && truthy (FunctionTrigger.schedule t).

(** An invocation row that has run to its end: success or error, with a
completion time and a duration. *)
Definition finished (row : FunctionInvocation.t) : Prop :=
  FunctionInvocation.status row ∈ ["success"; "error"]
  /\ is_Some (FunctionInvocation.completed_at row)
  /\ is_Some (FunctionInvocation.duration_ms row).

(** An invocation row that was started and that no later save reached:
still running, with neither a completion time nor a duration. *)
Definition left_running (row : FunctionInvocation.t) : Prop :=
  FunctionInvocation.status row = "running"
  /\ FunctionInvocation.completed_at row = None
  /\ FunctionInvocation.duration_ms row = None.

(** What a task reports of the rows it wrote.  Without an invocation id,
nothing was written, or the one row that was added could not be saved again
and is left running; with an invocation id, it is that of the one row that
was added, and the row is finished. *)
Definition reports_its_row (function_uuid : string) (env : Tasks.Surroundings)
    (db : DB) (run : Tasks.task_outcome * DB) : Prop :=
  exists fields,
    fst run = Tasks.Done (JDict fields)
    /\ match assoc "invocation_id" fields with
       | Some JNull =>
           snd run = db
           \/ exists func row,
                functions db !! function_uuid = Some func
                /\ invocations (snd run) = invocations db ++ [row]
                /\ functions (snd run) = functions db
                /\ FunctionInvocation.function row = Function.uuid func
                /\ FunctionInvocation.created_at row = Tasks.now env
                /\ left_running row
       | Some (JInt n) =>
           exists func row,
             functions db !! function_uuid = Some func
             /\ invocations (snd run) = invocations db ++ [row]
             /\ Z.of_nat (FunctionInvocation.id row) = n
             /\ FunctionInvocation.function row = Function.uuid func
             /\ FunctionInvocation.created_at row = Tasks.now env
             /\ finished row
       | _ => False
       end.

(** The guards of the invocation tasks let the attempt through and the
request id is free. *)
Definition let_through (func : Function.t) (request_id : string)
    (env : Tasks.Surroundings) (db : DB) : Prop :=
  Spec.deployed func = true
  /\ Tasks.circuit_breaker_open func (Tasks.now env) db = false
  /\ (Tasks.running_invocations func db < 5)%nat
  /\ existsb (fun row => String.eqb (FunctionInvocation.request_id row) request_id)
             (invocations db) = false.

(** The function table after one more invocation of [func] has been
counted. *)
Definition counted (func : Function.t) (env : Tasks.Surroundings) (db : DB)
    : gmap string Function.t :=
  <[ Function.uuid func :=
       Function.set_statistics (Function.invocation_count func + 1)
         (Some (Tasks.completed env)) func ]> (functions db).

(** The statistics follow the result of the task: counted when it reports
success, untouched otherwise. *)
Definition counts_successes (func : Function.t) (env : Tasks.Surroundings)
    (db : DB) (run : Tasks.task_outcome * DB) : Prop :=
  exists fields,
    fst run = Tasks.Done (JDict fields)
    /\ functions (snd run)
       = match assoc "success" fields with
         | Some (JBool true) => counted func env db
         | _ => functions db
         end.



(** The event as the agent gets it. *)
Definition without_secrets (event : list (string * json)) : list (string * json) :=
  filter (fun kv => negb (String.eqb (fst kv) "__secrets__")) event.

(** When the endpoint accepts the request, the same request made again is
refused with 400 and writes nothing; when it refuses, it writes nothing. *)
Definition locks_out (endpoint : string -> DB -> Api.response * DB)
    (function_id : string) (db : DB) : Prop :=
  match fst (endpoint function_id db) with
  | Api.Accepted _ =>
      exists detail,
        endpoint function_id (snd (endpoint function_id db))
        = (Api.HttpError 400 detail, snd (endpoint function_id db))
  | Api.HttpError _ _ => snd (endpoint function_id db) = db
  end.

(** The clock never runs backwards, and a sleep takes at least its
length. *)
Definition clock_runs {world : Type} (cluster : Kubernetes.Cluster world)
    (clock : Readiness.Clock world) : Prop :=
  (forall c w, Readiness.time w <= Readiness.time (snd (Kubernetes.respond c w)))
  /\ (forall seconds w,
        Readiness.time w + seconds * 1000
        <= Readiness.time (snd (Kubernetes.respond (Kubernetes.Sleep seconds) w))).

(** What the readiness poll asks of the cluster: reads of its deployment
and sleeps of two seconds. *)
Definition poll_entry (name : string) (entry : Kubernetes.call * Kubernetes.reply) : Prop :=
  fst entry = Kubernetes.ReadDeployment name
  \/ entry = (Kubernetes.Sleep 2, Kubernetes.Ok Kubernetes.PNone).

(** How a readiness poll that started at [start] in state [s] ended: it
made at most [2 * rounds] calls, reads and sleeps only; it returned true on
a read that showed a ready replica, or false once the budget had run out on
the clock, or it raised what a read raised. *)
Definition poll_ended {world : Type} {clock : Readiness.Clock world}
    (name : string) (start timeout : Z) (rounds : nat)
    (s : Kubernetes.state (world := world))
    (run : outcome (option bool) * Kubernetes.state (world := world)) : Prop :=
  (exists added,
     snd (snd run) = snd s ++ added
     /\ Forall (poll_entry name) added
     /\ (length added <= 2 * rounds)%nat)
  /\ match fst run with
     | Return (Some true) =>
         last (snd (snd run))
         = Some (Kubernetes.ReadDeployment name, Kubernetes.Ok (Kubernetes.PReady true))
     | Return (Some false) =>
         timeout * 1000 <= Readiness.time (fst (snd run)) - start
     | Return None => False
     | Raise e =>
         exists msg,
           e = Exception msg
           /\ last (snd (snd run))
              = Some (Kubernetes.ReadDeployment name, Kubernetes.Failure msg)
     end.

(** The request id the endpoint generates is not in use. *)
Definition request_id_free (env : Tasks.Surroundings) (db : DB) : Prop :=
  existsb (fun row => String.eqb (FunctionInvocation.request_id row)
                        (Tasks.generated_request_id env))
          (invocations db) = false.

(** Nothing of the function is left in [db']: no row of it, no invocation
and no trigger that refers to it, no periodic task of one of its triggers;
rows of other functions and other periodic tasks are as in [db]. *)
Definition gone (function : Function.t) (db db' : DB) : Prop :=
  let key := Function.uuid function in
  functions db' !! key = None
  /\ (forall other, other <> key -> functions db' !! other = functions db !! other)
  /\ (forall row, row ∈ invocations db'
                  <-> row ∈ invocations db /\ FunctionInvocation.function row <> key)
  /\ (forall t, t ∈ triggers db' <-> t ∈ triggers db /\ FunctionTrigger.function t <> key)
  /\ (forall t, t ∈ triggers db -> FunctionTrigger.function t = key ->
                periodic_tasks db' !! task_name_of t = None)
  /\ (forall task_name,
        (forall t, t ∈ triggers db -> FunctionTrigger.function t = key ->
                   task_name_of t <> task_name) ->
        periodic_tasks db' !! task_name = periodic_tasks db !! task_name).

(** [unique_together = [('function', 'name')]] on the triggers. *)
Definition unique_names (db : DB) : Prop :=
  forall a b,
    a ∈ triggers db -> b ∈ triggers db ->
    FunctionTrigger.function a = FunctionTrigger.function b ->
    FunctionTrigger.name a = FunctionTrigger.name b ->
    FunctionTrigger.id a = FunctionTrigger.id b.

(** The request that switches a trigger on and changes nothing else. *)
Definition switch_on : Endpoints.TriggerUpdateIn.t :=
  {| Endpoints.TriggerUpdateIn.name := None;
     Endpoints.TriggerUpdateIn.schedule := None;
     Endpoints.TriggerUpdateIn.enabled := Some true |}.





(** What [deploy_function] may ask of the cluster for a function: objects
named after the first eight characters of its id, the code in the config
map, the image of the runtime, one replica and the dependencies in the
deployment, the readiness poll and the pod list; nothing is read, deleted or
slept on. *)
Definition deploy_object (function_id name code : string) (image : option string)
    (dependencies : list string) (c : Kubernetes.call) : Prop :=
  match c with
  | Kubernetes.CreateConfigMap n body | Kubernetes.PatchConfigMap n body =>
      n = name /\ body = code
  | Kubernetes.CreateDeployment body =>
      Kubernetes.metadata_name body = name
      /\ Kubernetes.function_id_label body = function_id
      /\ Some (Kubernetes.container_image body) = image
      /\ Kubernetes.spec_replicas body = 1
      /\ Kubernetes.install_packages body = dependencies
  | Kubernetes.CreateService n target => n = name +:+ "-svc" /\ target = name
  | Kubernetes.CreateHPA n target => n = name +:+ "-hpa" /\ target = name
  | Kubernetes.WaitForDeployment n _ => n = name
  | Kubernetes.ListPods selector => selector = "app=" +:+ name
  | _ => False
  end.

(** The calls up to the creation of the deployment. *)
Definition before_the_service (c : Kubernetes.call) : Prop :=
  match c with
  | Kubernetes.CreateConfigMap _ _ | Kubernetes.PatchConfigMap _ _
  | Kubernetes.CreateDeployment _ => True
  | _ => False
  end.

(** The packages of a function with the runtime type of their depset, in
the order of the depsets. *)
Definition packages_of (func : Function.t) : list (string * Package.t) :=
  flat_map (fun depset =>
              map (fun pkg => (Depset.runtime_type depset, pkg)) (Depset.packages depset))
           (Function.depsets func).

(** The entry of the dependency list for a package: it starts with the name
of the package, and is the name alone when there is no version. *)
Definition entry_of (entry : string) (typed : string * Package.t) : Prop :=
  entry = Tasks.format_package (fst typed) (snd typed)
  /\ String.prefix (Package.package_name (snd typed)) entry = true
  /\ (Package.version_spec (snd typed) = "" -> entry = Package.package_name (snd typed)).

End Extra.

Module Cases.

(** The enabled scheduled trigger of the sample function, and the periodic
task a save of it registers while the function is active. *)
Definition nightly : FunctionTrigger.t := Samples.trigger 1 "aaaa" "scheduled" true.

Definition nightly_job : PeriodicTask.t :=
  {| PeriodicTask.crontab := Samples.every_five_minutes;
     PeriodicTask.task := "functions.tasks.invoke_function_task";
     PeriodicTask.kwargs :=
       JDict [ ("function_uuid", JStr "0a1b2c3d-0000-4000-8000-000000000000");
               ("event_data",
                JDict [ ("trigger_type", JStr "scheduled");
                        ("trigger_id", JStr "aaaa");
                        ("trigger_name", JStr "t1");
                        ("cron_expression", JStr "*/5 * * * *") ]) ];
     PeriodicTask.enabled := true;
     PeriodicTask.description := "Scheduled trigger: t1 for function hello" |}.

(** A function whose runtime has no image, in draft. *)
Definition cobol : Function.t :=
  {| Function.uuid := "9f8e7d6c-0000-4000-8000-000000000000";
     Function.name := "ledger";
     Function.code := "IDENTIFICATION DIVISION.";
     Function.handler := "handler";
     Function.runtime := "cobol85";
     Function.memory_mb := 128;
     Function.vcpu_count := 1;
     Function.timeout_seconds := 30;
     Function.depsets := [];
     Function.secrets := [];
     Function.status := "draft";
     Function.last_deployed_at := None;
     Function.deployment_name := None;
     Function.service_name := None;
     Function.k8s_namespace := Some "fnbox-functions";
     Function.invocation_count := 0;
     Function.last_invoked_at := None |}.

Definition ledger_database : DB :=
  with_functions {[ Function.uuid cobol := cobol ]} [] (Samples.database []).

(** The sample function with two secrets, one of which cannot be
decrypted. *)
Definition with_two_secrets : Function.t :=
  {| Function.uuid := Function.uuid Samples.hello;
     Function.name := Function.name Samples.hello;
     Function.code := Function.code Samples.hello;
     Function.handler := Function.handler Samples.hello;
     Function.runtime := Function.runtime Samples.hello;
     Function.memory_mb := Function.memory_mb Samples.hello;
     Function.vcpu_count := Function.vcpu_count Samples.hello;
     Function.timeout_seconds := Function.timeout_seconds Samples.hello;
     Function.depsets := [];
     Function.secrets :=
       [ {| Secret.key := "API_KEY"; Secret.value := Some "s3cr3t" |};
         {| Secret.key := "OLD_KEY"; Secret.value := None |} ];
     Function.status := Function.status Samples.hello;
     Function.last_deployed_at := Function.last_deployed_at Samples.hello;
     Function.deployment_name := Function.deployment_name Samples.hello;
     Function.service_name := Function.service_name Samples.hello;
     Function.k8s_namespace := Function.k8s_namespace Samples.hello;
     Function.invocation_count := Function.invocation_count Samples.hello;
     Function.last_invoked_at := Function.last_invoked_at Samples.hello |}.

(** A cluster with a clock, in milliseconds: a sleep takes its length,
every other call 40 ms, and the deployment never has a ready replica. *)
Definition never_ready : Kubernetes.Cluster Z :=
  fun c now =>
    match c with
    | Kubernetes.Sleep seconds => (Kubernetes.Ok Kubernetes.PNone, now + Z.max 0 seconds * 1000)
    | Kubernetes.ReadDeployment _ => (Kubernetes.Ok (Kubernetes.PReady false), now + 40)
    | _ => (Kubernetes.Ok Kubernetes.PNone, now + 40)
    end.

Definition wall_clock : Readiness.Clock Z := fun now => now.

(** The sample function as a draft again, with the triggers and the
periodic tasks of [Samples.scheduled] and two invocation rows. *)
Definition retired : DB :=
  {| functions :=
       {[ Function.uuid Samples.hello :=
            Function.set_status "draft"
              (Function.set_binding None None None Samples.hello) ]};
     invocations := [ Samples.row 1 "success" 1000; Samples.row 2 "error" 2000 ];
     triggers := triggers Samples.scheduled;
     crontabs := crontabs Samples.scheduled;
     periodic_tasks := periodic_tasks Samples.scheduled;
     function_saves := [] |}.

(** The sample function active, its scheduled trigger switched off by an
earlier undeployment and the periodic task disabled. *)
Definition switched_off : DB :=
  {| functions := {[ Function.uuid Samples.hello := Samples.hello ]};
     invocations := [];
     triggers := [ Samples.trigger 1 "aaaa" "scheduled" false;
                   Samples.trigger 3 "cccc" "http" true ];
     crontabs := [ Samples.every_five_minutes ];
     periodic_tasks := {[ "trigger-aaaa" := Samples.job false ]};
     function_saves := [] |}.



(** A text between double quotes. *)
Definition quoted (s : string) : string := String "034" (s +:+ String "034" "").

(** The answer of an agent whose reply carries no log: success false, an
error text and [null] for the logs. *)
Definition null_logs : Kubernetes.Response :=
  {| Kubernetes.status_code := 200;
     Kubernetes.reason := "OK";
     Kubernetes.header_content_type := Some "application/json";
     Kubernetes.text :=
       "{" +:+ quoted "success" +:+ ": false, " +:+ quoted "error" +:+ ": " +:+
       quoted "boom" +:+ ", " +:+ quoted "logs" +:+ ": null}";
     Kubernetes.body_json :=
       inr (JDict [ ("success", JBool false); ("error", JStr "boom"); ("logs", JNull) ]) |}.

(** A cluster that already holds the deployment. *)
Definition occupied : Kubernetes.Cluster unit :=
  fun c w =>
    (match c with
     | Kubernetes.CreateDeployment _ => Kubernetes.ApiError 409
     | Kubernetes.CreateConfigMap _ _ => Kubernetes.ApiError 409
     | _ => Kubernetes.Ok Kubernetes.PNone
     end, w).

End Cases.

(** ** The Kubernetes manager: readiness budget and resource limits *)

Module KubernetesFacts.
Import Kubernetes Spec.

Lemma int_times_1_5_rounds_down n : 0 <= n -> 2 * int_times_1_5 n = 3 * n - n mod 2.
Proof.
  intros Hn. unfold int_times_1_5.
  rewrite Z.quot_div_nonneg by lia.
  pose proof (Z.div_mod (3 * n) 2 ltac:(lia)) as Hdm.
  assert (Hmod : (3 * n) mod 2 = n mod 2).
  { replace (3 * n) with (n + n * 2) by lia. apply Z.mod_add. lia. }
  lia.
Qed.

Lemma resources_burst_limits memory_mb cpu_millicores :
  0 <= memory_mb -> 0 <= cpu_millicores ->
  burst_limits memory_mb cpu_millicores (resources memory_mb cpu_millicores).
Proof.
  intros Hm Hc. unfold burst_limits, rounded_down_1_5. simpl.
  repeat split; try reflexivity.
  - eexists _, _, _. repeat split; auto using int_times_1_5_rounds_down.
  - eexists _, _, _. repeat split; auto using int_times_1_5_rounds_down.
Qed.

Ltac step_cluster :=
  match goal with
  | |- context [respond ?c ?w] =>
      let r := fresh "r" in
      let w' := fresh "w" in
      let E := fresh "E" in
      destruct (respond c w) as [r w'] eqn:E; destruct r; simpl
  | |- context [if ?b then _ else _] => destruct b eqn:?; simpl
  | |- context [match ?p with PNone => _ | _ => _ end] => destruct p; simpl
  end.

Lemma deploy_function_calls {world} {cluster : Cluster world} function_id runtime code
    dependencies memory_mb timeout_seconds vcpu_count (w : world) :
  Forall (deploy_call_ok dependencies memory_mb vcpu_count)
    (calls_of (deploy_function function_id runtime code dependencies
                 memory_mb timeout_seconds vcpu_count (w, []))).
Proof.
  unfold deploy_function, calls_of, log_of.
  generalize (assoc runtime RUNTIME_IMAGES) as image.
  generalize ("func-" +:+ prefix_of_length 8 function_id) as deployment_name.
  intros deployment_name image.
  destruct (negb (truthy image)); [constructor|].
  unfold bind, _create_function_configmap, _create_deployment, _create_service,
    _create_hpa, _wait_for_deployment, except_ApiException, bind, api, ret, raise.
  simpl.
  repeat step_cluster;
    repeat (constructor; [exact I || reflexivity|]); constructor.
Qed.

(** A deployment with two dependencies on the healthy cluster: the calls
    made, in order, with the 80 second budget. *)
Example deploy_on_healthy_cluster :
  let run :=
    deploy_function (cluster := Samples.healthy) "0a1b2c3d-0000-4000-8000-000000000000"
      "python3.11" "def handler(event, context): return 1"
      ["requests==2.31.0"; "numpy"] 128 30 1 (tt, []) in
  map (fun c => match c with
                | WaitForDeployment name timeout => Some (name, timeout)
                | _ => None
                end) (calls_of run)
  = [None; None; None; None; Some ("func-0a1b2c3d", 80); None]
  /\ returns (result_of run) = true.
Proof. vm_compute. split; reflexivity. Qed.


(** C5, as the code has it: for every positive memory and vCPU figure the
requests of the function container are the configured figures and each
limit is the request times 1.5 rounded down to an integer
([int(x * 1.5)]), hence exactly 1.5 times an even request and half a unit
less for an odd one. *)
Theorem limits_are_requests_times_1_5_rounded_down {world} {cluster : Cluster world}
    function_id runtime code dependencies memory_mb timeout_seconds vcpu_count
    cpu_millicores (w : world) :
  configurable memory_mb -> configurable (vcpu_count * 1000) ->
  configurable cpu_millicores ->
  burst_limits memory_mb cpu_millicores (resources memory_mb cpu_millicores)
  /\ Forall (fun c => match c with
                      | CreateDeployment body =>
                          burst_limits memory_mb (vcpu_count * 1000)
                            (container_resources body)
                      | _ => True
                      end)
            (calls_of (deploy_function function_id runtime code dependencies
                         memory_mb timeout_seconds vcpu_count (w, []))).
Proof.
  unfold configurable. intros Hm Hv Hc. split.
  - apply resources_burst_limits; lia.
  - eapply Forall_impl; [apply deploy_function_calls|].
    intros c Hcall. destruct c; try exact I. simpl in Hcall. rewrite Hcall.
    apply resources_burst_limits; lia.
Qed.

Lemma limits_are_requests_times_1_5_rounded_down_witness :
  configurable 129 /\ configurable (1 * 1000) /\ configurable 250
  /\ burst_limits 129 250 (resources 129 250)
  /\ Forall (fun c => match c with
                      | CreateDeployment body =>
                          burst_limits 129 (1 * 1000) (container_resources body)
                      | _ => True
                      end)
            (calls_of (deploy_function (cluster := Samples.healthy)
                         "0a1b2c3d-0000-4000-8000-000000000000" "python3.11"
                         "def handler(event, context): return 1" [] 129 30 1 (tt, []))).
Proof.
  assert (H1 : configurable 129) by (unfold configurable; lia).
  assert (H2 : configurable (1 * 1000)) by (unfold configurable; lia).
  assert (H3 : configurable 250) by (unfold configurable; lia).
  split; [exact H1|]. split; [exact H2|]. split; [exact H3|].
  exact (limits_are_requests_times_1_5_rounded_down (cluster := Samples.healthy)
           "0a1b2c3d-0000-4000-8000-000000000000" "python3.11"
           "def handler(event, context): return 1" [] 129 30 1 250 tt H1 H2 H3).
Defined.

(** C5 as stated fails: with 65 MB configured, [deploy_function] creates a
    deployment whose memory request is 65Mi and whose memory limit is
    97Mi, which is not 1.5 times 65. *)
Lemma memory_limit_of_65_is_97 :
  let run :=
    deploy_function (cluster := Samples.healthy) "0a1b2c3d-0000-4000-8000-000000000000"
      "python3.11" "def handler(event, context): return 1" [] 65 30 1 (tt, []) in
  exists body,
    calls_of run !! 1%nat = Some (CreateDeployment body)
    /\ assoc "memory" (requests (container_resources body)) = Some (Quantity 65 "Mi")
    /\ assoc "memory" (limits (container_resources body)) = Some (Quantity 97 "Mi")
    /\ ~ exactly_1_5 (assoc "memory" (requests (container_resources body)))
                      (assoc "memory" (limits (container_resources body))).
Proof.
  eexists. split; [vm_compute; reflexivity|].
  split; [reflexivity|]. split; [reflexivity|].
  intros (n & l & u & Hreq & Hlim & Hexact).
  vm_compute in Hreq, Hlim.
  injection Hreq as <- _. injection Hlim as <- _. lia.
Qed.

End KubernetesFacts.

(** ** The Kubernetes manager: teardown *)

Module TeardownFacts.
Import Kubernetes Spec.

Section Runs.
Context {world : Type} {cluster : Cluster world}.

Lemma delete_ignoring_api_errors_run c (w : world) log :
  delete_ignoring_api_errors c (w, log) =
  (match fst (respond c w) with
   | Failure msg => Raise (Exception msg)
   | _ => Return tt
   end,
   (snd (respond c w), log ++ [(c, fst (respond c w))])).
Proof.
  unfold delete_ignoring_api_errors, except_ApiException, bind, api, ret.
  destruct (respond c w) as [[p|status|msg] w']; reflexivity.
Qed.

Lemma last_two_more {A} (a b : A) l y :
  last l = Some y -> last (a :: b :: l) = Some y.
Proof. intros H. rewrite !last_cons, H. reflexivity. Qed.

Lemma last_one_more {A} (a : A) l y :
  last l = Some y -> last (a :: l) = Some y.
Proof. intros H. rewrite last_cons, H. reflexivity. Qed.

Lemma waited_answered rounds d polls : waited d rounds polls -> Forall answered polls.
Proof.
  induction 1; repeat (constructor; [exact I|]); try constructor; assumption.
Qed.

Lemma wait_deleted_run rounds d (w : world) log :
  exists polls,
    log_of (wait_deleted rounds d (w, log)) = log ++ polls
    /\ match result_of (wait_deleted rounds d (w, log)) with
       | Return _ => waited d rounds polls
       | Raise e =>
           exists msg,
             e = Exception msg
             /\ last polls = Some (ReadDeployment d, Failure msg)
       end.
Proof.
  revert w log. induction rounds as [|rounds IH]; intros w log.
  - exists []. simpl. rewrite app_nil_r. split; [reflexivity|constructor].
  - simpl wait_deleted. unfold bind at 1. unfold except_ApiException, bind, api, sleep, ret.
    destruct (respond (ReadDeployment d) w) as [[p|status|msg] w1] eqn:E.
    + (* the deployment is still there: sleep, next round *)
      specialize (IH (snd (respond (Sleep 1) w1))
                     ((log ++ [(ReadDeployment d, Ok p)]) ++ [(Sleep 1, Ok PNone)])).
      destruct IH as (polls & Hlog & Hres).
      exists ((ReadDeployment d, Ok p) :: (Sleep 1, Ok PNone) :: polls).
      split; [rewrite Hlog, <- !app_assoc; reflexivity|].
      destruct (result_of _) as [[]|e].
      * apply waited_found, Hres.
      * destruct Hres as (msg & -> & Hlast). exists msg. split; [reflexivity|].
        apply last_two_more, Hlast.
    + destruct (Z.eqb status 404) eqn:E404.
      * (* gone *)
        apply Z.eqb_eq in E404. subst status.
        exists [(ReadDeployment d, ApiError 404)].
        split; [reflexivity|]. apply waited_gone.
      * (* another API error: next round at once *)
        specialize (IH w1 (log ++ [(ReadDeployment d, ApiError status)])).
        destruct IH as (polls & Hlog & Hres).
        exists ((ReadDeployment d, ApiError status) :: polls).
        split; [rewrite Hlog, <- !app_assoc; reflexivity|].
        destruct (result_of _) as [[]|e].
        -- apply waited_error; [apply Z.eqb_neq; exact E404|exact Hres].
        -- destruct Hres as (msg & -> & Hlast). exists msg. split; [reflexivity|].
           apply last_one_more, Hlast.
    + exists [(ReadDeployment d, Failure msg)].
      split; [reflexivity|]. exists msg. split; reflexivity.
Qed.

Lemma delete_function_teardown d (w : world) :
  teardown d (delete_function d (w, [])).
Proof.
  unfold teardown, delete_function, bind, result_of, log_of.
  rewrite delete_ignoring_api_errors_run.
  set (w1 := snd (respond (DeleteHPA (d +:+ "-hpa")) w)).
  destruct (fst (respond (DeleteHPA (d +:+ "-hpa")) w)) as [p1|s1|m1] eqn:E1;
    try (simpl; eexists _, _; split; reflexivity).
  all: rewrite delete_ignoring_api_errors_run;
    set (w2 := snd (respond (DeleteService (d +:+ "-svc")) w1));
    destruct (fst (respond (DeleteService (d +:+ "-svc")) w1)) as [p2|s2|m2] eqn:E2;
    try (simpl; eexists _, _; split; reflexivity).
  all: rewrite delete_ignoring_api_errors_run;
    set (w3 := snd (respond (DeleteDeployment d) w2));
    destruct (fst (respond (DeleteDeployment d) w2)) as [p3|s3|m3] eqn:E3;
    try (simpl; eexists _, _; split; reflexivity).
  all: match goal with
       | |- context [wait_deleted ?n ?dn (?w0, ?log)] =>
           destruct (wait_deleted_run n dn w0 log) as (polls & Hlog & Hres);
           unfold result_of, log_of in Hlog, Hres;
           destruct (wait_deleted n dn (w0, log)) as [[[]|e] [w4 log4]];
           simpl in Hlog, Hres; subst log4
       end.
  all: try (destruct Hres as (msg & -> & Hlast); simpl;
            exists (ReadDeployment d), msg; split; [reflexivity|];
            rewrite !last_cons, Hlast; reflexivity).
  all: pose proof (waited_answered _ _ _ Hres) as Hans; cbv beta iota;
    rewrite delete_ignoring_api_errors_run;
    destruct (fst (respond (DeleteConfigMap d) w4)) as [p4|s4|m4] eqn:E4;
    cbn [fst snd];
    try (eexists _, _; split; [reflexivity|]; apply last_snoc).
  all: eexists _, _, _, polls, _; split; [reflexivity|];
    split; [exact Hres|];
    cbn [app];
    repeat (constructor; [exact I|]);
    apply Forall_app; split; [exact Hans|];
    constructor; [exact I|constructor].
Qed.

(** *** The calls are put to the cluster one after the other *)

Lemma replayed_snoc (w0 w : world) log c r :
  replayed w0 log w ->
  match c with Sleep _ => r = Ok PNone | _ => r = fst (respond c w) end ->
  replayed w0 (log ++ [(c, r)]) (snd (respond c w)).
Proof.
  revert w0. induction log as [|[c0 r0] log IH]; intros w0 Hlog Hr; simpl in *.
  - subst w. split; [exact Hr|reflexivity].
  - destruct Hlog as [H0 Hlog]. split; [exact H0|]. apply IH; assumption.
Qed.

Lemma tracks_ret {A} (a : A) : tracks (ret a).
Proof. intros w0 w log H. exact H. Qed.

Lemma tracks_raise {A} e : tracks (raise (A := A) e).
Proof. intros w0 w log H. exact H. Qed.

Lemma tracks_api c :
  match c with Sleep _ => False | _ => True end -> tracks (api c).
Proof.
  intros Hc w0 w log H. unfold api.
  pose proof (replayed_snoc w0 w log c (fst (respond c w)) H) as Hsnoc.
  destruct (respond c w) as [[p|status|msg] w']; cbn [fst snd] in *;
    apply Hsnoc; destruct c; try destruct Hc; reflexivity.
Qed.

Lemma tracks_sleep seconds : tracks (sleep seconds).
Proof.
  intros w0 w log H. unfold sleep. cbn [fst snd].
  apply replayed_snoc; [exact H|reflexivity].
Qed.

Lemma tracks_bind {A B} (m : M A) (k : A -> M B) :
  tracks m -> (forall a, tracks (k a)) -> tracks (bind m k).
Proof.
  intros Hm Hk w0 w log H. unfold bind. specialize (Hm w0 w log H).
  destruct (m (w, log)) as [[a|e] [w1 log1]]; cbn [fst snd] in *.
  - apply Hk, Hm.
  - exact Hm.
Qed.

Lemma tracks_except {A} (m : M A) handler :
  tracks m -> (forall status, tracks (handler status)) ->
  tracks (except_ApiException m handler).
Proof.
  intros Hm Hh w0 w log H. unfold except_ApiException. specialize (Hm w0 w log H).
  destruct (m (w, log)) as [[a|[status|msg|msg]] [w1 log1]]; cbn [fst snd] in *;
    try exact Hm.
  apply Hh, Hm.
Qed.

Lemma tracks_delete_ignoring_api_errors c :
  match c with Sleep _ => False | _ => True end ->
  tracks (delete_ignoring_api_errors c).
Proof.
  intros Hc. unfold delete_ignoring_api_errors.
  apply tracks_except; [|intros; apply tracks_ret].
  apply tracks_bind; [apply tracks_api, Hc|intros; apply tracks_ret].
Qed.

Lemma tracks_wait_deleted rounds d : tracks (wait_deleted rounds d).
Proof.
  induction rounds as [|rounds IH]; [apply tracks_ret|].
  cbn [wait_deleted]. apply tracks_bind.
  - apply tracks_except; [|intros; apply tracks_ret].
    apply tracks_bind; [apply tracks_api; exact I|intros _].
    apply tracks_bind; [apply tracks_sleep|intros; apply tracks_ret].
  - intros [|]; [apply tracks_ret|exact IH].
Qed.

Lemma delete_function_replayed d (w : world) :
  replayed w (log_of (delete_function d (w, [])))
    (cluster_after (delete_function d (w, []))).
Proof.
  assert (Htracks : tracks (delete_function d)).
  { unfold delete_function.
    repeat (apply tracks_bind;
            [first [apply tracks_delete_ignoring_api_errors; exact I
                   |apply tracks_wait_deleted]|intros _]).
    apply tracks_delete_ignoring_api_errors. exact I. }
  apply (Htracks w w []). reflexivity.
Qed.

End Runs.

(** When every answer of the cluster is a result or an [ApiException],
    not found included, the teardown returns. *)
Lemma delete_function_returns {world} {cluster : Cluster world} d (w : world) :
  Forall answered (log_of (delete_function d (w, []))) ->
  result_of (delete_function d (w, [])) = Return tt.
Proof.
  intros Hans. pose proof (delete_function_teardown d w) as Htd.
  unfold teardown in Htd.
  destruct (result_of (delete_function d (w, []))) as [[]|e]; [reflexivity|].
  destruct Htd as (c & msg & _ & Hlast).
  apply last_Some in Hlast as [l Hl]. rewrite Hl in Hans.
  apply Forall_app in Hans as [_ Hans]. inversion Hans as [|? ? Hbad _]; subst.
  destruct Hbad.
Qed.

(** Nothing to delete: five calls, all answered 404, and a normal
    return. *)
Example delete_on_empty_cluster :
  let run := delete_function (cluster := Samples.empty_cluster) "func-0a1b2c3d" (tt, []) in
  result_of run = Return tt
  /\ log_of run =
     [ (DeleteHPA "func-0a1b2c3d-hpa", ApiError 404);
       (DeleteService "func-0a1b2c3d-svc", ApiError 404);
       (DeleteDeployment "func-0a1b2c3d", ApiError 404);
       (ReadDeployment "func-0a1b2c3d", ApiError 404);
       (DeleteConfigMap "func-0a1b2c3d", ApiError 404) ].
Proof. vm_compute. split; reflexivity. Qed.

(** The cluster cannot be reached: the first call fails and its error is
    raised. *)
Example delete_on_unreachable_cluster :
  let run := delete_function (cluster := Samples.unreachable) "func-0a1b2c3d" (tt, []) in
  result_of run = Raise (Exception "Max retries exceeded with url")
  /\ calls_of run = [ DeleteHPA "func-0a1b2c3d-hpa" ].
Proof. vm_compute. split; reflexivity. Qed.

(** Deploy, delete, delete again on a cluster that tracks its objects:
    the first delete waits two seconds for the deployment to go and leaves
    nothing behind, the second finds nothing and returns. *)
Example deploy_then_delete_twice :
  let deployed :=
    deploy_function (cluster := Samples.one_function)
      "0a1b2c3d-0000-4000-8000-000000000000" "python3.11"
      "def handler(event, context): return 1" [] 128 30 1 (Samples.nothing, []) in
  let first :=
    delete_function (cluster := Samples.one_function) "func-0a1b2c3d"
      (cluster_after deployed, []) in
  let second :=
    delete_function (cluster := Samples.one_function) "func-0a1b2c3d"
      (cluster_after first, []) in
  returns (result_of deployed) = true
  /\ result_of first = Return tt
  /\ calls_of first =
     [ DeleteHPA "func-0a1b2c3d-hpa"; DeleteService "func-0a1b2c3d-svc";
       DeleteDeployment "func-0a1b2c3d";
       ReadDeployment "func-0a1b2c3d"; Sleep 1;
       ReadDeployment "func-0a1b2c3d"; Sleep 1;
       ReadDeployment "func-0a1b2c3d";
       DeleteConfigMap "func-0a1b2c3d" ]
  /\ cluster_after first = Samples.nothing
  /\ result_of second = Return tt
  /\ map snd (log_of second) = replicate 5 (ApiError 404)
  /\ cluster_after second = Samples.nothing.
Proof. vm_compute. repeat split; reflexivity. Qed.

(** C8: [delete_function] deletes the autoscaler, then the service, then
    the deployment, then waits for the deployment to be gone and only then
    deletes the config map.  The wait is at most thirty rounds of a read of
    the deployment: it ends at the first read answered 404, it sleeps one
    second after every read that still found the deployment, and it goes
    on at once after a read answered with another [ApiException]; every
    call is put to the cluster as the call before, sleeps included, left
    it.  An [ApiException], not found included, never leaves
    [delete_function], and it raises only the error of a call that failed
    otherwise.  The same holds for a second call on the cluster the first
    one leaves. *)
Theorem delete_function_teardown_twice {world} {cluster : Cluster world} d (w : world) :
  let first := delete_function d (w, []) in
  let second := delete_function d (cluster_after first, []) in
  teardown d first /\ teardown d second
  /\ replayed w (log_of first) (cluster_after first)
  /\ replayed (cluster_after first) (log_of second) (cluster_after second).
Proof.
  intros first second.
  split; [apply delete_function_teardown|]. split; [apply delete_function_teardown|].
  split; apply delete_function_replayed.
Qed.

End TeardownFacts.

(** ** The invocation gateway *)

Module GatewayFacts.
Import Kubernetes Spec.




(** A 502 from the agent becomes a structured failure; [bool(response)]
    is false for an error status, so the status is reported as unknown and
    the body is not copied into the logs. *)
Example bad_gateway_is_reported :
  invoke_function (Samples.in_cluster_answering (PostResponse Samples.bad_gateway))
    "func-0a1b2c3d-svc" [] 30 (Some "def handler(event, context): return 1") "handler"
  = Return (failure_result
              ("Function returned HTTP error unknown: 502 Server Error: Bad Gateway for url: " +:+
               "http://func-0a1b2c3d-svc.fnbox-functions.svc.cluster.local:8080/invoke")
              "" 0).
Proof. vm_compute. reflexivity. Qed.

(** [raise_for_status] raises for 4xx and 5xx only: a 304 with a JSON body
    is returned as the agent's result. *)
Example not_modified_is_passed_on :
  invoke_function (Samples.in_cluster_answering (PostResponse Samples.not_modified))
    "func-0a1b2c3d-svc" [] 30 (Some "def handler(event, context): return 1") "handler"
  = Return (JDict []).
Proof. vm_compute. reflexivity. Qed.




End GatewayFacts.


(** ** The execution agent *)

Module AgentFacts.
Import Agent Spec.

(** A handler that returns in time: a success with the logs under their
headings. *)
Example execute_in_time :
  execute Samples.sleeper (JDict []) 30
    {| on_exec := ExecDefines ["time"; "handler"];
       on_join := HandlerReturns (JInt 1);
       stdout_capture := "done";
       stderr_capture := "";
       elapsed_ms := 12;
       start_memory := 21;
       end_memory := 23;
       traceback := "" |}
  = JDict [ ("success", JBool true);
            ("result", JInt 1);
            ("logs", JStr ("[STDOUT]" +:+ newline +:+ "done" +:+ newline));
            ("execution_time_ms", JInt 12);
            ("memory_used_mb", JInt 2) ].
Proof. vm_compute. reflexivity. Qed.

(** C6: when the handler has not completed at the end of the timeout,
[execute] returns a result with [success] false, the error naming the
timeout, the output captured so far as logs, and an execution time of
[timeout_seconds * 1000] milliseconds; it returns a value and does not wait
for the handler. *)
Theorem execute_times_out self event timeout_seconds run :
  handler_overruns self run ->
  execute self event timeout_seconds run
  = JDict [ ("success", JBool false);
            ("error", JStr ("Function execution exceeded " +:+ pretty timeout_seconds +:+
                            " seconds"));
            ("logs", JStr (stdout_capture run +:+ newline +:+ stderr_capture run));
            ("execution_time_ms", JInt (timeout_seconds * 1000));
            ("memory_used_mb", JInt 0) ].
Proof.
  intros (Hcode & (names & Hexec & Hin) & Hjoin).
  unfold execute. rewrite Hcode, Hexec, Hjoin. simpl negb.
  rewrite bool_decide_eq_true_2 by exact Hin. reflexivity.
Qed.

Lemma execute_times_out_witness :
  handler_overruns Samples.sleeper Samples.overrun
  /\ execute Samples.sleeper (JDict [("name", JStr "world")]) 2 Samples.overrun
     = JDict [ ("success", JBool false);
               ("error", JStr ("Function execution exceeded " +:+ pretty 2 +:+ " seconds"));
               ("logs", JStr (stdout_capture Samples.overrun +:+ newline +:+
                              stderr_capture Samples.overrun));
               ("execution_time_ms", JInt (2 * 1000));
               ("memory_used_mb", JInt 0) ].
Proof.
  assert (H : handler_overruns Samples.sleeper Samples.overrun).
  { split; [reflexivity|]. split; [|reflexivity].
    exists ["__name__"; "__builtins__"; "time"; "handler"].
    split; [reflexivity|]. apply list_elem_of_In. simpl. tauto. }
  split; [exact H|].
  apply (execute_times_out Samples.sleeper (JDict [("name", JStr "world")]) 2
           Samples.overrun H).
Defined.

End AgentFacts.

(** ** The invocation tasks: circuit breaker and admission control *)

Module InvocationFacts.
Import Tasks Spec.

Lemma failures_Permutation l1 l2 : l1 ≡ₚ l2 -> failures l1 = failures l2.
Proof. intros H. unfold failures. rewrite H. reflexivity. Qed.

Lemma failures_and_timeouts l : (failures l + timeouts l <= length l)%nat.
Proof.
  unfold failures, timeouts. induction l as [|inv l IH]; [reflexivity|].
  rewrite !filter_cons.
  destruct (decide (FunctionInvocation.status inv = "error")) as [He|He];
    destruct (decide (FunctionInvocation.status inv = "timeout")) as [Ht|Ht];
    simpl; try lia.
  rewrite He in Ht. discriminate.
Qed.

Lemma recent_invocations_length func now db :
  length (recent_invocations func now db) = Nat.min 10 (length (window func now db)).
Proof.
  unfold recent_invocations. rewrite length_take.
  rewrite (Permutation_length (merge_sort_Permutation _ _)). reflexivity.
Qed.

(** With at most ten rows in the window, the ten newest are the window. *)
Lemma recent_invocations_all func now db :
  (length (window func now db) <= 10)%nat ->
  recent_invocations func now db ≡ₚ window func now db.
Proof.
  intros Hlen. unfold recent_invocations.
  rewrite take_ge.
  - apply merge_sort_Permutation.
  - rewrite (Permutation_length (merge_sort_Permutation _ _)). exact Hlen.
Qed.

Lemma circuit_breaker_open_full_window func now db :
  length (window func now db) = 10%nat ->
  (8 <= failures (window func now db))%nat ->
  circuit_breaker_open func now db = true.
Proof.
  intros Hlen Hfail. unfold circuit_breaker_open.
  rewrite recent_invocations_length, Hlen.
  change (10 <=? Nat.min 10 10)%nat with true. cbv iota.
  rewrite (failures_Permutation _ _ (recent_invocations_all func now db ltac:(lia))).
  apply Nat.leb_le. exact Hfail.
Qed.

Lemma circuit_breaker_closed func now db :
  (length (window func now db) <= 9)%nat
  \/ (3 <= timeouts (recent_invocations func now db))%nat ->
  circuit_breaker_open func now db = false.
Proof.
  intros H. unfold circuit_breaker_open.
  destruct (10 <=? length (recent_invocations func now db))%nat eqn:Hten; [|reflexivity].
  apply Nat.leb_le in Hten. apply Nat.leb_gt.
  pose proof (recent_invocations_length func now db) as Hlen.
  pose proof (failures_and_timeouts (recent_invocations func now db)) as Hsum.
  destruct H as [Hshort|Htimeouts]; lia.
Qed.

(** The guards, once the function row is found. *)
Lemma guarded_invoke_found not_deployed function_uuid event_data request_id env db func :
  functions db !! function_uuid = Some func ->
  guarded_invoke not_deployed function_uuid event_data request_id env db =
  if negb (deployed func) then (Done (rejected not_deployed), db)
  else if circuit_breaker_open func (now env) db
  then (Done (rejected high_failure_rate), db)
  else if (5 <=? running_invocations func db)%nat
  then (Done (rejected (too_many_concurrent (running_invocations func db))), db)
  else create_and_invoke func event_data
         (if truthy request_id then default "" request_id else generated_request_id env)
         env db.
Proof.
  intros Hfound. unfold guarded_invoke, deployed. rewrite Hfound.
  rewrite negb_andb. reflexivity.
Qed.

(** What a save raises is not worded as the rejection of the circuit
breaker. *)
Lemma save_error_not_throttled inv e :
  save_error inv = Some e -> str e <> high_failure_rate.
Proof.
  unfold save_error, refused, memory_error. intros Hsave Heq.
  apply (f_equal (String.substring 0 2)) in Heq.
  destruct (FunctionInvocation.memory_used_mb inv) as [[| b | n | s | l | d]|];
    simpl in Hsave; try (destruct (int_of_str s); simpl in Hsave);
    repeat match type of Hsave with
           | context [match ?x with _ => _ end] => destruct x
           end;
    try discriminate Hsave; injection Hsave as <-; vm_compute in Heq;
    discriminate Heq.
Qed.

Lemma record_exception_not_throttled inv e env db :
  fst (record_exception inv e env db) <> Done (rejected high_failure_rate).
Proof.
  unfold record_exception.
  destruct (save_error (errored inv e env)) as [e'|] eqn:Hsave;
    [|unfold rejected; simpl; discriminate].
  simpl. intros Heq. apply (save_error_not_throttled _ _ Hsave).
  unfold rejected in Heq. congruence.
Qed.

(** Past the guards no result is the rejection of the circuit breaker. *)
Lemma create_and_invoke_not_throttled func event_data request_id env db :
  fst (create_and_invoke func event_data request_id env db)
  <> Done (rejected high_failure_rate).
Proof.
  unfold create_and_invoke.
  destruct (existsb _ _); [simpl; unfold rejected; discriminate|].
  destruct (Kubernetes.invoke_function _ _ _ _ _ _) as [[]|e];
    try apply record_exception_not_throttled.
  destruct (duration_of _ _); [|apply record_exception_not_throttled].
  destruct (save_error _); [apply record_exception_not_throttled|].
  unfold rejected; simpl; discriminate.
Qed.

Lemma guarded_invoke_not_throttled not_deployed function_uuid event_data request_id
    env db func :
  functions db !! function_uuid = Some func ->
  not_deployed <> high_failure_rate ->
  circuit_breaker_open func (now env) db = false ->
  fst (guarded_invoke not_deployed function_uuid event_data request_id env db)
  <> Done (rejected high_failure_rate).
Proof.
  intros Hfound Hmsg Hclosed.
  rewrite (guarded_invoke_found _ _ _ _ _ _ _ Hfound), Hclosed.
  destruct (negb (deployed func)).
  - simpl. unfold rejected. congruence.
  - destruct (5 <=? _)%nat.
    + simpl. unfold rejected, too_many_concurrent, high_failure_rate. discriminate.
    + apply create_and_invoke_not_throttled.
Qed.

(** C2: when exactly ten rows of the function were created in the last five
minutes and at least eight of them are in error, [invoke_function_task] and
[test_function_task] return a failure at once, without creating an
invocation row and without asking for a retry. *)
Theorem circuit_breaker_rejects function_uuid event_data request_id env db func :
  functions db !! function_uuid = Some func ->
  length (window func (now env) db) = 10%nat ->
  (8 <= failures (window func (now env) db))%nat ->
  invoke_function_task function_uuid event_data request_id env db
  = (Done (rejected (if deployed func then high_failure_rate
                     else "Function is not deployed")), db)
  /\ test_function_task function_uuid event_data env db
     = (Done (rejected (if deployed func then high_failure_rate
                        else "Function must be deployed before testing")), db).
Proof.
  intros Hfound Hlen Hfail.
  pose proof (circuit_breaker_open_full_window _ _ _ Hlen Hfail) as Hopen.
  unfold invoke_function_task, test_function_task.
  rewrite !(guarded_invoke_found _ _ _ _ _ _ _ Hfound), Hopen.
  destruct (deployed func); split; reflexivity.
Qed.

Lemma circuit_breaker_rejects_witness :
  let uuid := Function.uuid Samples.hello in
  let env := Samples.surroundings Kubernetes.PostTimeout in
  functions Samples.failing !! uuid = Some Samples.hello
  /\ length (window Samples.hello (now env) Samples.failing) = 10%nat
  /\ (8 <= failures (window Samples.hello (now env) Samples.failing))%nat
  /\ invoke_function_task uuid [("name", JStr "world")] None env Samples.failing
     = (Done (rejected high_failure_rate), Samples.failing)
  /\ test_function_task uuid [("name", JStr "world")] env Samples.failing
     = (Done (rejected high_failure_rate), Samples.failing).
Proof.
  intros uuid env.
  assert (H1 : functions Samples.failing !! uuid = Some Samples.hello)
    by (vm_compute; reflexivity).
  assert (H2 : length (window Samples.hello (now env) Samples.failing) = 10%nat)
    by (vm_compute; reflexivity).
  assert (H3 : (8 <= failures (window Samples.hello (now env) Samples.failing))%nat)
    by (vm_compute; lia).
  split; [exact H1|]. split; [exact H2|]. split; [exact H3|].
  exact (circuit_breaker_rejects uuid [("name", JStr "world")] None env
           Samples.failing Samples.hello H1 H2 H3).
Defined.

(** C3: when at least five rows of the function are pending or running, a
further attempt through either task is turned down with a failure result
and no invocation row is created. *)
Theorem admission_control_rejects function_uuid event_data request_id env db func :
  functions db !! function_uuid = Some func ->
  (5 <= running_invocations func db)%nat ->
  invoke_function_task function_uuid event_data request_id env db
  = (Done (rejected (rejection "Function is not deployed" func (now env) db)), db)
  /\ test_function_task function_uuid event_data env db
     = (Done (rejected (rejection "Function must be deployed before testing"
                          func (now env) db)), db).
Proof.
  intros Hfound Hbusy. apply Nat.leb_le in Hbusy.
  unfold invoke_function_task, test_function_task, rejection.
  rewrite !(guarded_invoke_found _ _ _ _ _ _ _ Hfound), Hbusy.
  destruct (negb (deployed func)); [split; reflexivity|].
  destruct (circuit_breaker_open func (now env) db); split; reflexivity.
Qed.

Lemma admission_control_rejects_witness :
  let uuid := Function.uuid Samples.hello in
  let env := Samples.surroundings Kubernetes.PostTimeout in
  functions Samples.busy !! uuid = Some Samples.hello
  /\ (5 <= running_invocations Samples.hello Samples.busy)%nat
  /\ invoke_function_task uuid [] (Some "req-manual") env Samples.busy
     = (Done (rejected (rejection "Function is not deployed" Samples.hello
                          (now env) Samples.busy)), Samples.busy)
  /\ test_function_task uuid [] env Samples.busy
     = (Done (rejected (rejection "Function must be deployed before testing"
                          Samples.hello (now env) Samples.busy)), Samples.busy).
Proof.
  intros uuid env.
  assert (H1 : functions Samples.busy !! uuid = Some Samples.hello)
    by (vm_compute; reflexivity).
  assert (H2 : (5 <= running_invocations Samples.hello Samples.busy)%nat)
    by (vm_compute; lia).
  split; [exact H1|]. split; [exact H2|].
  exact (admission_control_rejects uuid [] (Some "req-manual") env
           Samples.busy Samples.hello H1 H2).
Defined.

(** The sixth attempt on the busy function: the message counts the five in
flight. *)
Example sixth_attempt :
  fst (invoke_function_task (Function.uuid Samples.hello) [] None
         (Samples.surroundings Kubernetes.PostTimeout) Samples.busy)
  = Done (rejected "Too many concurrent invocations (5). Please wait for previous invocations to complete.").
Proof. vm_compute. reflexivity. Qed.

(** Seven errors and three timeouts in the last ten rows: the breaker stays
closed; one more error in place of a timeout opens it. *)
Example timeouts_do_not_trip :
  circuit_breaker_open Samples.hello (minutes 10) Samples.seven_errors_three_timeouts = false
  /\ circuit_breaker_open Samples.hello (minutes 10)
       (Samples.database (Samples.rows_from 1 (minutes 9)
                            (replicate 8 "error" ++ replicate 2 "timeout"))) = true.
Proof. vm_compute. split; reflexivity. Qed.

(** C10: with at most nine rows of the function in the last five minutes,
whatever their status, the circuit breaker stays closed and neither task
answers with its rejection; rows with status timeout are not failures to
it, so three of them among the ten newest keep it closed as well. *)
Theorem circuit_breaker_needs_full_window function_uuid event_data request_id env db func :
  functions db !! function_uuid = Some func ->
  (length (window func (now env) db) <= 9)%nat
  \/ (3 <= timeouts (recent_invocations func (now env) db))%nat ->
  circuit_breaker_open func (now env) db = false
  /\ fst (invoke_function_task function_uuid event_data request_id env db)
     <> Done (rejected high_failure_rate)
  /\ fst (test_function_task function_uuid event_data env db)
     <> Done (rejected high_failure_rate).
Proof.
  intros Hfound Hwindow.
  pose proof (circuit_breaker_closed _ _ _ Hwindow) as Hclosed.
  split; [exact Hclosed|].
  split; apply (guarded_invoke_not_throttled _ _ _ _ _ _ _ Hfound); try exact Hclosed;
    unfold high_failure_rate; discriminate.
Qed.

Lemma circuit_breaker_needs_full_window_witness :
  let uuid := Function.uuid Samples.hello in
  let env := Samples.surroundings Kubernetes.PostTimeout in
  functions Samples.nine_errors !! uuid = Some Samples.hello
  /\ ((length (window Samples.hello (now env) Samples.nine_errors) <= 9)%nat
      \/ (3 <= timeouts (recent_invocations Samples.hello (now env) Samples.nine_errors))%nat)
  /\ circuit_breaker_open Samples.hello (now env) Samples.nine_errors = false
  /\ fst (invoke_function_task uuid [] None env Samples.nine_errors)
     <> Done (rejected high_failure_rate)
  /\ fst (test_function_task uuid [] env Samples.nine_errors)
     <> Done (rejected high_failure_rate).
Proof.
  intros uuid env.
  assert (H1 : functions Samples.nine_errors !! uuid = Some Samples.hello)
    by (vm_compute; reflexivity).
  assert (H2 : (length (window Samples.hello (now env) Samples.nine_errors) <= 9)%nat
               \/ (3 <= timeouts (recent_invocations Samples.hello (now env)
                                    Samples.nine_errors))%nat)
    by (left; vm_compute; lia).
  split; [exact H1|]. split; [exact H2|].
  exact (circuit_breaker_needs_full_window uuid [] None env
           Samples.nine_errors Samples.hello H1 H2).
Defined.

End InvocationFacts.

(** ** Trigger sync *)

Module SignalFacts.
Import Spec.

Lemma manage_disabled_trigger t db :
  manage_scheduled_trigger (FunctionTrigger.set_enabled false t) db
  = with_periodic_tasks (delete (task_name_of t) (periodic_tasks db)) db.
Proof.
  unfold manage_scheduled_trigger. simpl.
  rewrite andb_false_r. reflexivity.
Qed.

Lemma disable_one_triggers db t :
  triggers (disable_one db t) = map (disabled_by [t]) (triggers db).
Proof.
  unfold disable_one, save_trigger_enabled, disabled_by.
  destruct (FunctionTrigger.enabled t) eqn:Hen.
  - rewrite manage_disabled_trigger. simpl.
    apply map_ext. intros row. rewrite orb_false_r, Hen. reflexivity.
  - simpl. rewrite <- (map_id (triggers db)) at 1.
    apply map_ext. intros row. rewrite Hen. reflexivity.
Qed.

Lemma disabled_by_cons t done row :
  disabled_by done (disabled_by [t] row) = disabled_by (t :: done) row.
Proof.
  unfold disabled_by. simpl. rewrite orb_false_r.
  destruct (FunctionTrigger.enabled t && _) eqn:Ht; simpl.
  - destruct (existsb _ done); reflexivity.
  - reflexivity.
Qed.

Lemma foldl_disable_one_triggers done db :
  triggers (foldl disable_one db done) = map (disabled_by done) (triggers db).
Proof.
  revert db. induction done as [|t done IH]; intros db.
  - simpl. rewrite <- (map_id (triggers db)) at 1. reflexivity.
  - simpl. rewrite IH, disable_one_triggers, map_map.
    apply map_ext. intros row. apply disabled_by_cons.
Qed.

Lemma disable_one_periodic_tasks db t :
  periodic_tasks (disable_one db t)
  = alter (PeriodicTask.set_enabled false) (task_name_of t)
      (if FunctionTrigger.enabled t
       then delete (task_name_of t) (periodic_tasks db)
       else periodic_tasks db).
Proof.
  unfold disable_one, save_trigger_enabled.
  destruct (FunctionTrigger.enabled t).
  - rewrite manage_disabled_trigger. reflexivity.
  - reflexivity.
Qed.

Lemma disable_one_job_off_self db t :
  job_off (periodic_tasks (disable_one db t)) (task_name_of t).
Proof.
  unfold job_off. rewrite disable_one_periodic_tasks, lookup_alter_eq.
  destruct (FunctionTrigger.enabled t).
  - rewrite lookup_delete_eq. exact I.
  - destruct (periodic_tasks db !! task_name_of t); [reflexivity|exact I].
Qed.

Lemma disable_one_job_off_kept db t task_name :
  job_off (periodic_tasks db) task_name ->
  job_off (periodic_tasks (disable_one db t)) task_name.
Proof.
  unfold job_off. rewrite disable_one_periodic_tasks. intros Hoff.
  destruct (decide (task_name_of t = task_name)) as [<-|Hne].
  - rewrite lookup_alter_eq.
    destruct (FunctionTrigger.enabled t).
    + rewrite lookup_delete_eq. exact I.
    + destruct (periodic_tasks db !! task_name_of t); [reflexivity|exact I].
  - rewrite lookup_alter_ne by exact Hne.
    destruct (FunctionTrigger.enabled t).
    + rewrite lookup_delete_ne by exact Hne. exact Hoff.
    + exact Hoff.
Qed.

Lemma foldl_disable_one_job_off_kept done db task_name :
  job_off (periodic_tasks db) task_name ->
  job_off (periodic_tasks (foldl disable_one db done)) task_name.
Proof.
  revert db. induction done as [|t done IH]; intros db Hoff; [exact Hoff|].
  simpl. apply IH, disable_one_job_off_kept, Hoff.
Qed.

Lemma foldl_disable_one_job_off done db t :
  t ∈ done ->
  job_off (periodic_tasks (foldl disable_one db done)) (task_name_of t).
Proof.
  revert db. induction done as [|t' done IH]; intros db Hin.
  - inversion Hin.
  - simpl. apply elem_of_cons in Hin as [->|Hin].
    + apply foldl_disable_one_job_off_kept, disable_one_job_off_self.
    + apply IH, Hin.
Qed.

Lemma disabled_by_owned func done row :
  owned_scheduled func (disabled_by done row) <-> owned_scheduled func row.
Proof. unfold disabled_by. destruct (existsb _ done); reflexivity. Qed.

Lemma disabled_by_task_name done row :
  task_name_of (disabled_by done row) = task_name_of row.
Proof. unfold disabled_by. destruct (existsb _ done); reflexivity. Qed.

Lemma disabled_by_enabled done row :
  row ∈ done -> FunctionTrigger.enabled (disabled_by done row) = false.
Proof.
  intros Hin. unfold disabled_by.
  destruct (existsb _ done) eqn:Hex; [reflexivity|].
  destruct (FunctionTrigger.enabled row) eqn:Hen; [|reflexivity].
  assert (Hyes : existsb (fun t => FunctionTrigger.enabled t
                                   && Nat.eqb (FunctionTrigger.id row) (FunctionTrigger.id t))
                         done = true).
  { apply existsb_exists. exists row. split; [apply list_elem_of_In, Hin|].
    rewrite Hen, Nat.eqb_refl. reflexivity. }
  congruence.
Qed.

(** The receiver, on an instance that is not active, leaves every scheduled
trigger of the function disabled, with its periodic task. *)
Lemma disable_triggers_on_undeploy_off instance db :
  Function.status instance <> "active" ->
  triggers_off instance (disable_triggers_on_undeploy instance false db).
Proof.
  intros Hstatus. unfold disable_triggers_on_undeploy.
  apply String.eqb_neq in Hstatus. rewrite Hstatus.
  assert (Hfold : match scheduled_triggers_of instance db with
                  | [] => db
                  | _ => foldl disable_one db (scheduled_triggers_of instance db)
                  end = foldl disable_one db (scheduled_triggers_of instance db))
    by (destruct (scheduled_triggers_of instance db); reflexivity).
  rewrite Hfold. clear Hfold.
  unfold triggers_off. rewrite foldl_disable_one_triggers.
  apply Forall_forall. intros row' Hrow' Howned.
  apply list_elem_of_In, in_map_iff in Hrow' as (row & <- & Hrow).
  apply list_elem_of_In in Hrow.
  apply disabled_by_owned in Howned.
  assert (Hsnap : row ∈ scheduled_triggers_of instance db).
  { unfold scheduled_triggers_of. apply list_elem_of_filter. split; assumption. }
  split.
  - apply disabled_by_enabled, Hsnap.
  - rewrite disabled_by_task_name. apply foldl_disable_one_job_off, Hsnap.
Qed.

(** The receiver does nothing on an active instance. *)
Lemma disable_triggers_on_undeploy_active instance created db :
  Function.status instance = "active" ->
  disable_triggers_on_undeploy instance created db = db.
Proof.
  intros Hstatus. unfold disable_triggers_on_undeploy. rewrite Hstatus.
  destruct created; reflexivity.
Qed.

(** Undeploying the sample function: its enabled trigger is disabled and
the periodic task of that trigger is removed by the trigger's own
[post_save] receiver, the task of the trigger that was already disabled is
switched off, the HTTP trigger is left alone; saving the function as active
afterwards changes none of this. *)
Example undeploy_disables_sample_triggers :
  let db1 :=
    save_function status_column (Function.set_status "undeploying" Samples.hello)
      Samples.scheduled in
  let db2 := save_function all_columns Samples.hello db1 in
  map FunctionTrigger.enabled (triggers db1) = [false; false; true]
  /\ periodic_tasks db1 !! "trigger-aaaa" = None
  /\ periodic_tasks db1 !! "trigger-bbbb" = Some (Samples.job false)
  /\ map FunctionTrigger.enabled (triggers db2) = [false; false; true]
  /\ periodic_tasks db2 !! "trigger-aaaa" = None
  /\ periodic_tasks db2 !! "trigger-bbbb" = Some (Samples.job false).
Proof. vm_compute. repeat split; reflexivity. Qed.

(** C9: when a function is saved with a status that is not active, every
scheduled trigger it owns ends up disabled and no enabled periodic task is
left for it; a later save of a function as active changes neither the
triggers nor the periodic tasks, so nothing is enabled again. *)
Theorem triggers_disabled_and_not_restored columns columns' func func' db :
  Function.status func <> "active" ->
  Function.status func' = "active" ->
  let db1 := save_function columns func db in
  let db2 := save_function columns' func' db1 in
  triggers_off func db1
  /\ triggers db2 = triggers db1
  /\ periodic_tasks db2 = periodic_tasks db1
  /\ triggers_off func db2.
Proof.
  intros Hleft Hactive db1 db2.
  assert (Hoff : triggers_off func db1).
  { unfold db1, save_function. apply disable_triggers_on_undeploy_off, Hleft. }
  assert (Hsame : triggers db2 = triggers db1 /\ periodic_tasks db2 = periodic_tasks db1).
  { unfold db2, save_function.
    rewrite disable_triggers_on_undeploy_active by exact Hactive.
    split; reflexivity. }
  destruct Hsame as [Htriggers Hjobs].
  split; [exact Hoff|]. split; [exact Htriggers|]. split; [exact Hjobs|].
  unfold triggers_off. rewrite Htriggers, Hjobs. exact Hoff.
Qed.

Lemma triggers_disabled_and_not_restored_witness :
  let undeploying := Function.set_status "undeploying" Samples.hello in
  let db1 := save_function status_column undeploying Samples.scheduled in
  let db2 := save_function all_columns Samples.hello db1 in
  Function.status undeploying <> "active"
  /\ Function.status Samples.hello = "active"
  /\ triggers_off undeploying db1
  /\ triggers db2 = triggers db1
  /\ periodic_tasks db2 = periodic_tasks db1
  /\ triggers_off undeploying db2.
Proof.
  intros undeploying db1 db2.
  assert (H1 : Function.status undeploying <> "active") by (simpl; discriminate).
  assert (H2 : Function.status Samples.hello = "active") by reflexivity.
  split; [exact H1|]. split; [exact H2|].
  exact (triggers_disabled_and_not_restored status_column all_columns undeploying
           Samples.hello Samples.scheduled H1 H2).
Defined.

End SignalFacts.

(** ** Looking a crontab up *)

Module CrontabFacts.

(** The rows [get] finds all carry the fields asked for. *)
Lemma found_rows (cron : CrontabSchedule.t) rows :
  exists n, filter (fun row => row = cron) rows = replicate n cron.
Proof.
  induction rows as [|row rows [n IH]]; [exists 0%nat; reflexivity|].
  rewrite filter_cons. destruct (decide (row = cron)) as [->|_].
  - exists (S n). rewrite IH. reflexivity.
  - exists n. exact IH.
Qed.

Lemma found_none (cron : CrontabSchedule.t) rows :
  filter (fun row => row = cron) rows = [] <-> cron ∉ rows.
Proof.
  split.
  - intros Hnil Hin.
    assert (H : cron ∈ filter (fun row => row = cron) rows)
      by (apply list_elem_of_filter; split; [reflexivity|exact Hin]).
    rewrite Hnil in H. inversion H.
  - intros Hout. destruct (filter (fun row => row = cron) rows) as [|x l] eqn:Hf;
      [reflexivity|].
    assert (H : x ∈ filter (fun row => row = cron) rows) by (rewrite Hf; left).
    apply list_elem_of_filter in H as [-> H]. contradiction.
Qed.

(** The three outcomes of [get_or_create], by the number of rows found. *)
Lemma get_or_create_crontab_schedule_cases cron_str cron db :
  parse_cron_expression cron_str = Return cron ->
  let found := filter (fun row => row = cron) (crontabs db) in
  (found = []
   /\ get_or_create_crontab_schedule cron_str db
      = (Return cron, with_crontabs (crontabs db ++ [cron]) db))
  \/ (found = [cron] /\ get_or_create_crontab_schedule cron_str db = (Return cron, db))
  \/ ((2 <= length found)%nat
      /\ get_or_create_crontab_schedule cron_str db
         = (Raise (multiple_objects_returned (length found)), db)).
Proof.
  intros Hparse found. unfold get_or_create_crontab_schedule. rewrite Hparse.
  fold found. destruct (found_rows cron (crontabs db)) as [n Hn]. fold found in Hn.
  rewrite Hn. destruct n as [|[|n]]; simpl.
  - left. split; reflexivity.
  - right. left. split; reflexivity.
  - right. right. split; [lia|reflexivity].
Qed.

(** Without duplicate rows, [get] finds at most one. *)
Lemma found_at_most_one (cron : CrontabSchedule.t) rows :
  NoDup rows -> (length (filter (fun row => row = cron) rows) <= 1)%nat.
Proof.
  intros Hnodup. apply (NoDup_filter (fun row => row = cron)) in Hnodup.
  destruct (found_rows cron rows) as [n Hn]. rewrite Hn in *.
  destruct n as [|[|n]]; simpl; [lia|lia|]. simpl in Hnodup.
  apply NoDup_cons in Hnodup as [Hout _]. exfalso. apply Hout. left.
Qed.

(** The table after a look-up that found at most one row. *)
Lemma get_or_create_crontab_schedule_found cron_str cron db :
  parse_cron_expression cron_str = Return cron ->
  (length (filter (fun row => row = cron) (crontabs db)) <= 1)%nat ->
  get_or_create_crontab_schedule cron_str db
  = (Return cron, if bool_decide (cron ∈ crontabs db) then db
                  else with_crontabs (crontabs db ++ [cron]) db).
Proof.
  intros Hparse Hone.
  destruct (get_or_create_crontab_schedule_cases cron_str cron db Hparse)
    as [[Hf ->]|[[Hf ->]|[Hf _]]]; cbv zeta in *.
  - apply found_none in Hf. rewrite bool_decide_eq_false_2 by exact Hf. reflexivity.
  - assert (Hin : cron ∈ crontabs db).
    { destruct (decide (cron ∈ crontabs db)) as [H|H]; [exact H|].
      apply found_none in H. rewrite H in Hf. discriminate Hf. }
    rewrite bool_decide_eq_true_2 by exact Hin. reflexivity.
  - lia.
Qed.

(** After such a look-up exactly one row is found. *)
Lemma found_after cron db :
  (length (filter (fun row => row = cron) (crontabs db)) <= 1)%nat ->
  let db1 := if bool_decide (cron ∈ crontabs db) then db
             else with_crontabs (crontabs db ++ [cron]) db in
  filter (fun row => row = cron) (crontabs db1) = [cron].
Proof.
  intros Hone db1. unfold db1.
  destruct (found_rows cron (crontabs db)) as [n Hn].
  destruct (bool_decide (cron ∈ crontabs db)) eqn:Hin.
  - apply bool_decide_eq_true in Hin. rewrite Hn in *.
    destruct n as [|[|n]]; simpl in *; [|reflexivity|lia].
    exfalso. revert Hin. apply found_none. exact Hn.
  - apply bool_decide_eq_false in Hin. apply found_none in Hin. simpl.
    rewrite filter_app, Hin. simpl. rewrite filter_cons.
    destruct (decide (cron = cron)); [reflexivity|contradiction].
Qed.

End CrontabFacts.

(** ** The function lifecycle *)

Module LifecycleFacts.
Import Spec.

(** The trigger receivers leave the function table alone. *)
Lemma manage_scheduled_trigger_functions t db :
  functions (manage_scheduled_trigger t db) = functions db
  /\ function_saves (manage_scheduled_trigger t db) = function_saves db.
Proof.
  unfold manage_scheduled_trigger, get_or_create_crontab_schedule.
  destruct (_ && _ && _); [|split; reflexivity].
  destruct (parse_cron_expression _); [|split; reflexivity].
  destruct (filter _ _) as [|? [|? ?]]; simpl;
    destruct (functions db !! FunctionTrigger.function t); split; reflexivity.
Qed.

Lemma disable_one_functions db t :
  functions (disable_one db t) = functions db
  /\ function_saves (disable_one db t) = function_saves db.
Proof.
  unfold disable_one.
  set (db1 := if FunctionTrigger.enabled t then _ else db).
  change (functions db1 = functions db /\ function_saves db1 = function_saves db).
  unfold db1. destruct (FunctionTrigger.enabled t); [|split; reflexivity].
  unfold save_trigger_enabled.
  match goal with
  | |- context [manage_scheduled_trigger ?t' ?d] =>
      destruct (manage_scheduled_trigger_functions t' d) as [-> ->]
  end.
  split; reflexivity.
Qed.

Lemma foldl_disable_one_functions done db :
  functions (foldl disable_one db done) = functions db
  /\ function_saves (foldl disable_one db done) = function_saves db.
Proof.
  revert db. induction done as [|t done IH]; intros db; [split; reflexivity|].
  simpl. destruct (IH (disable_one db t)) as [-> ->]. apply disable_one_functions.
Qed.

Lemma disable_triggers_on_undeploy_functions instance created db :
  functions (disable_triggers_on_undeploy instance created db) = functions db
  /\ function_saves (disable_triggers_on_undeploy instance created db) = function_saves db.
Proof.
  unfold disable_triggers_on_undeploy.
  destruct created; [split; reflexivity|].
  destruct (String.eqb _ _); [split; reflexivity|].
  destruct (scheduled_triggers_of instance db) as [|t rest] eqn:E; [split; reflexivity|].
  apply foldl_disable_one_functions.
Qed.

(** What a save does to the function table and to the stream of saves. *)
Lemma save_function_row columns func db :
  let row := columns func (default func (functions db !! Function.uuid func)) in
  functions (save_function columns func db) = <[ Function.uuid func := row ]> (functions db)
  /\ function_saves (save_function columns func db) = function_saves db ++ [row].
Proof.
  intros row. unfold save_function.
  destruct (disable_triggers_on_undeploy_functions func false
              (with_functions (<[ Function.uuid func := row ]> (functions db))
                 (function_saves db ++ [row]) db)) as [Hf Hs].
  fold row. rewrite Hf, Hs. split; reflexivity.
Qed.

Lemma save_status_found status f db :
  functions db !! Function.uuid f = Some f ->
  functions (save_function status_column (Function.set_status status f) db)
  = <[ Function.uuid f := Function.set_status status f ]> (functions db)
  /\ function_saves (save_function status_column (Function.set_status status f) db)
     = function_saves db ++ [Function.set_status status f].
Proof.
  intros Hfound.
  pose proof (save_function_row status_column (Function.set_status status f) db) as H.
  simpl in H. rewrite Hfound in H. exact H.
Qed.

Lemma save_all_columns f db :
  functions (save_function all_columns f db) = <[ Function.uuid f := f ]> (functions db)
  /\ function_saves (save_function all_columns f db) = function_saves db ++ [f].
Proof. exact (save_function_row all_columns f db). Qed.

Lemma mark_error_and_retry_found retries e countdown db f :
  functions db !! Function.uuid f = Some f ->
  snd (Tasks.mark_error_and_retry retries (Function.uuid f) e countdown db)
  = save_function status_column (Function.set_status "error" f) db.
Proof.
  intros Hfound. unfold Tasks.mark_error_and_retry. rewrite Hfound.
  destruct (retries <? Tasks.max_retries)%nat; reflexivity.
Qed.

Lemma same_binding_set_status status f : same_binding f (Function.set_status status f).
Proof. repeat split. Qed.

Section Jobs.
Context {world : Type} {cluster : Kubernetes.Cluster world}.

(** The writes of the deploy task: to deploying, then to active with the
binding set, or to error. *)
Lemma deploy_function_task_writes retries now ns db (k : Kubernetes.state) f0 :
  functions db !! Function.uuid f0 = Some f0 ->
  exists f1,
    lifecycle_write f0 (Function.set_status "deploying" f0)
    /\ lifecycle_write (Function.set_status "deploying" f0) f1
    /\ function_saves (fst (perform (DeployJob retries now ns) (Function.uuid f0) db k))
       = function_saves db ++ [Function.set_status "deploying" f0; f1]
    /\ functions (fst (perform (DeployJob retries now ns) (Function.uuid f0) db k))
         !! Function.uuid f0 = Some f1.
Proof.
  intros Hfound. unfold perform, Tasks.deploy_function_task. rewrite Hfound.
  set (f1 := Function.set_status "deploying" f0).
  destruct (save_status_found "deploying" f0 db Hfound) as [Hf1 Hs1]. fold f1 in Hf1, Hs1.
  assert (Hfound1 : functions (save_function status_column f1 db) !! Function.uuid f1
                    = Some f1)
    by (rewrite Hf1; apply lookup_insert_eq).
  destruct (Kubernetes.deploy_function _ _ _ _ _ _ _ k) as [[info|e] k1].
  - match goal with
    | |- context [save_function all_columns ?f2 _] => set (f2' := f2)
    end.
    destruct (save_all_columns f2' (save_function status_column f1 db)) as [Hf2 Hs2].
    exists f2'. simpl fst.
    split; [apply write_deploying; [reflexivity|apply same_binding_set_status]|].
    split; [apply write_active; [reflexivity|reflexivity|]|].
    { repeat split; eexists; reflexivity. }
    split.
    + rewrite Hs2, Hs1, <- app_assoc. reflexivity.
    + rewrite Hf2. apply lookup_insert_eq.
  - pose proof (mark_error_and_retry_found retries e 60 _ f1 Hfound1) as Hmark.
    change (Function.uuid f1) with (Function.uuid f0) in Hmark.
    destruct (Tasks.mark_error_and_retry retries (Function.uuid f0) e 60
                (save_function status_column f1 db)) as [out db2].
    simpl in Hmark. subst db2. simpl fst.
    destruct (save_status_found "error" f1 _ Hfound1) as [Hf2 Hs2].
    exists (Function.set_status "error" f1).
    split; [apply write_deploying; [reflexivity|apply same_binding_set_status]|].
    split; [apply write_deploy_error; [reflexivity|reflexivity|apply same_binding_set_status]|].
    split.
    + rewrite Hs2, Hs1, <- app_assoc. reflexivity.
    + rewrite Hf2. apply lookup_insert_eq.
Qed.

(** The writes of the undeploy task: to undeploying, then to draft with the
binding cleared, or to error. *)
Lemma undeploy_function_task_writes retries db (k : Kubernetes.state) f0 :
  functions db !! Function.uuid f0 = Some f0 ->
  exists f1,
    lifecycle_write f0 (Function.set_status "undeploying" f0)
    /\ lifecycle_write (Function.set_status "undeploying" f0) f1
    /\ function_saves (fst (perform (UndeployJob retries) (Function.uuid f0) db k))
       = function_saves db ++ [Function.set_status "undeploying" f0; f1]
    /\ functions (fst (perform (UndeployJob retries) (Function.uuid f0) db k))
         !! Function.uuid f0 = Some f1.
Proof.
  intros Hfound. unfold perform, Tasks.undeploy_function_task. rewrite Hfound.
  set (f1 := Function.set_status "undeploying" f0).
  destruct (save_status_found "undeploying" f0 db Hfound) as [Hf1 Hs1]. fold f1 in Hf1, Hs1.
  assert (Hfound1 : functions (save_function status_column f1 db) !! Function.uuid f1
                    = Some f1)
    by (rewrite Hf1; apply lookup_insert_eq).
  destruct (if truthy (Function.deployment_name f1) then _ else _) as [[[]|e] k1].
  - match goal with
    | |- context [save_function all_columns ?f2 _] => set (f2' := f2)
    end.
    destruct (save_all_columns f2' (save_function status_column f1 db)) as [Hf2 Hs2].
    exists f2'. simpl fst.
    split; [apply write_undeploying; [reflexivity|apply same_binding_set_status]|].
    split; [apply write_draft; [reflexivity|reflexivity|repeat split]|].
    split.
    + rewrite Hs2, Hs1, <- app_assoc. reflexivity.
    + rewrite Hf2. apply lookup_insert_eq.
  - pose proof (mark_error_and_retry_found retries e 30 _ f1 Hfound1) as Hmark.
    change (Function.uuid f1) with (Function.uuid f0) in Hmark.
    destruct (Tasks.mark_error_and_retry retries (Function.uuid f0) e 30
                (save_function status_column f1 db)) as [out db2].
    simpl in Hmark. subst db2. simpl fst.
    destruct (save_status_found "error" f1 _ Hfound1) as [Hf2 Hs2].
    exists (Function.set_status "error" f1).
    split; [apply write_undeploying; [reflexivity|apply same_binding_set_status]|].
    split; [apply write_undeploy_error; [reflexivity|reflexivity|apply same_binding_set_status]|].
    split.
    + rewrite Hs2, Hs1, <- app_assoc. reflexivity.
    + rewrite Hf2. apply lookup_insert_eq.
Qed.

End Jobs.

(** The endpoints write once, to deploying or to undeploying, or refuse. *)
Lemma deploy_request_writes db f0 :
  functions db !! Function.uuid f0 = Some f0 ->
  exists written,
    function_saves (snd (Api.deploy_function (Function.uuid f0) db))
    = function_saves db ++ written
    /\ chain lifecycle_write f0 written
    /\ functions (snd (Api.deploy_function (Function.uuid f0) db)) !! Function.uuid f0
       = Some (default f0 (last written)).
Proof.
  intros Hfound. unfold Api.deploy_function. rewrite Hfound.
  destruct (String.eqb (Function.status f0) "active"
            && truthy (Function.deployment_name f0));
    [exists (@nil Function.t); rewrite app_nil_r; simpl; auto|].
  destruct (String.eqb (Function.status f0) "deploying");
    [exists (@nil Function.t); rewrite app_nil_r; simpl; auto|].
  destruct (save_status_found "deploying" f0 db Hfound) as [Hf1 Hs1].
  exists [Function.set_status "deploying" f0]. simpl snd.
  split; [exact Hs1|]. split.
  - split; [|exact I]. apply write_deploying; [reflexivity|apply same_binding_set_status].
  - rewrite Hf1. apply lookup_insert_eq.
Qed.

Lemma undeploy_request_writes db f0 :
  functions db !! Function.uuid f0 = Some f0 ->
  exists written,
    function_saves (snd (Api.undeploy_function (Function.uuid f0) db))
    = function_saves db ++ written
    /\ chain lifecycle_write f0 written
    /\ functions (snd (Api.undeploy_function (Function.uuid f0) db)) !! Function.uuid f0
       = Some (default f0 (last written)).
Proof.
  intros Hfound. unfold Api.undeploy_function. rewrite Hfound.
  destruct (negb (truthy (Function.deployment_name f0))
            && negb (String.eqb (Function.status f0) "active"));
    [exists (@nil Function.t); rewrite app_nil_r; simpl; auto|].
  destruct (String.eqb (Function.status f0) "undeploying");
    [exists (@nil Function.t); rewrite app_nil_r; simpl; auto|].
  destruct (save_status_found "undeploying" f0 db Hfound) as [Hf1 Hs1].
  exists [Function.set_status "undeploying" f0]. simpl snd.
  split; [exact Hs1|]. split.
  - split; [|exact I]. apply write_undeploying; [reflexivity|apply same_binding_set_status].
  - rewrite Hf1. apply lookup_insert_eq.
Qed.

(** A deployed function cannot be deployed again, and a draft cannot be
undeployed: the endpoints answer 400 and write nothing. *)
Example requests_refused :
  Api.deploy_function (Function.uuid Samples.hello) (Samples.database [])
  = (Api.HttpError 400 "Function is already deployed. Undeploy first to redeploy.",
     Samples.database [])
  /\ fst (Api.undeploy_function (Function.uuid Samples.hello)
            (with_functions
               {[ Function.uuid Samples.hello :=
                    Function.set_status "draft"
                      (Function.set_binding None None None Samples.hello) ]}
               [] (Samples.database [])))
     = Api.HttpError 400 "Function is not deployed".
Proof. vm_compute. split; reflexivity. Qed.

(** A deployment of a draft on the healthy cluster: the row goes to
deploying, then to active with its three binding fields. *)
Example deploy_job_on_healthy_cluster :
  let draft :=
    Function.set_status "draft" (Function.set_binding None None None Samples.hello) in
  let db :=
    with_functions {[ Function.uuid Samples.hello := draft ]} [] (Samples.database []) in
  let db' :=
    fst (perform (cluster := Samples.healthy) (DeployJob 0 (minutes 10) "fnbox-functions")
           (Function.uuid Samples.hello) db (tt, [])) in
  map (fun f => (Function.status f, Function.deployment_name f, Function.service_name f,
                 Function.k8s_namespace f)) (function_saves db')
  = [ ("deploying", None, None, None);
      ("active", Some "func-0a1b2c3d", Some "func-0a1b2c3d-svc", Some "fnbox-functions") ].
Proof. vm_compute. reflexivity. Qed.

(** C1 as stated fails: an undeploy whose retries are used up on a cluster
that cannot be reached takes the active function to undeploying and then to
error, and both rows keep the deployment name, the service name and the
namespace; the row left in the table is bound without being active. *)
Lemma failed_undeploy_keeps_binding :
  let run :=
    Tasks.undeploy_function_task (cluster := Samples.unreachable) 3
      (Function.uuid Samples.hello) (Samples.database []) (tt, []) in
  let db' := snd (fst run) in
  fst (fst run) = Tasks.Done (Tasks.failed "Max retries exceeded with url")
  /\ map (fun f => (Function.status f, Function.deployment_name f, Function.service_name f,
                    Function.k8s_namespace f)) (function_saves db')
     = [ ("undeploying", Some "func-0a1b2c3d", Some "func-0a1b2c3d-svc",
          Some "fnbox-functions");
         ("error", Some "func-0a1b2c3d", Some "func-0a1b2c3d-svc",
          Some "fnbox-functions") ]
  /\ exists f,
       functions db' !! Function.uuid Samples.hello = Some f
       /\ Function.status f = "error"
       /\ bound f
       /\ ~ (bound f <-> Function.status f = "active").
Proof.
  intros run db'.
  split; [vm_compute; reflexivity|]. split; [vm_compute; reflexivity|].
  exists (Function.set_status "error" Samples.hello).
  split; [vm_compute; reflexivity|]. split; [reflexivity|].
  assert (Hbound : bound (Function.set_status "error" Samples.hello))
    by (repeat split; eexists; reflexivity).
  split; [exact Hbound|].
  intros [Hactive _]. specialize (Hactive Hbound). discriminate Hactive.
Qed.

(** C1, as the code has it: every row the deploy and undeploy endpoints and
tasks write follows from the row before it by one of these steps: to
deploying or to undeploying with the binding fields unchanged, from
deploying to active with all three binding fields set, from undeploying to
draft with all three cleared, from deploying or undeploying to error with
the binding fields unchanged.  So error is written only over deploying or
undeploying, a row made active is bound and a row made draft is unbound,
while a row that leaves active keeps its binding until it reaches draft. *)
Theorem lifecycle_writes_follow_the_machine {world} {cluster : Kubernetes.Cluster world}
    op db (k : Kubernetes.state) f0 :
  functions db !! Function.uuid f0 = Some f0 ->
  let db' := fst (perform op (Function.uuid f0) db k) in
  exists written,
    function_saves db' = function_saves db ++ written
    /\ chain lifecycle_write f0 written
    /\ functions db' !! Function.uuid f0 = Some (default f0 (last written)).
Proof.
  intros Hfound db'. unfold db'. destruct op as [|retries now ns| |retries].
  - exact (deploy_request_writes db f0 Hfound).
  - destruct (deploy_function_task_writes retries now ns db k f0 Hfound)
      as (f1 & Hw0 & Hw1 & Hsaves & Hrow).
    exists [Function.set_status "deploying" f0; f1].
    split; [exact Hsaves|]. split; [simpl; auto|exact Hrow].
  - exact (undeploy_request_writes db f0 Hfound).
  - destruct (undeploy_function_task_writes retries db k f0 Hfound)
      as (f1 & Hw0 & Hw1 & Hsaves & Hrow).
    exists [Function.set_status "undeploying" f0; f1].
    split; [exact Hsaves|]. split; [simpl; auto|exact Hrow].
Qed.

Lemma lifecycle_writes_follow_the_machine_witness :
  let db := Samples.database [] in
  let db' :=
    fst (perform (cluster := Samples.one_function) (UndeployJob 0)
           (Function.uuid Samples.hello) db (Samples.nothing, [])) in
  functions db !! Function.uuid Samples.hello = Some Samples.hello
  /\ exists written,
       function_saves db' = function_saves db ++ written
       /\ chain lifecycle_write Samples.hello written
       /\ functions db' !! Function.uuid Samples.hello
          = Some (default Samples.hello (last written)).
Proof.
  intros db db'.
  assert (H : functions db !! Function.uuid Samples.hello = Some Samples.hello)
    by (vm_compute; reflexivity).
  split; [exact H|].
  exact (lifecycle_writes_follow_the_machine (cluster := Samples.one_function)
           (UndeployJob 0) db (Samples.nothing, []) Samples.hello H).
Defined.

End LifecycleFacts.

(** ** Cron expressions *)

Module CronFacts.
Import Extra.

Lemma append_cons c s t : String c s +:+ t = String c (s +:+ t).
Proof. reflexivity. Qed.

Lemma append_nil_r s : s +:+ "" = s.
Proof. induction s as [|c s IH]; [reflexivity|]. rewrite append_cons, IH. reflexivity. Qed.

Lemma append_assoc s t u : (s +:+ t) +:+ u = s +:+ (t +:+ u).
Proof.
  induction s as [|c s IH]; [reflexivity|]. rewrite !append_cons, IH. reflexivity.
Qed.

Lemma spaceless_append s t : spaceless (s +:+ t) = spaceless s && spaceless t.
Proof.
  induction s as [|c s IH]; [reflexivity|].
  rewrite append_cons. simpl. rewrite IH, andb_assoc. reflexivity.
Qed.

Lemma append_not_empty s c : s +:+ String c "" <> "".
Proof. destruct s; discriminate. Qed.

(** Every token is a field, whatever the token under construction. *)
Lemma split_from_fields s token :
  spaceless token = true -> Forall cron_field (split_from s token).
Proof.
  revert token. induction s as [|c s IH]; intros token Htoken; simpl.
  - destruct (String.eqb token "") eqn:E; [constructor|].
    apply String.eqb_neq in E. constructor; [split; assumption|constructor].
  - destruct (is_space c) eqn:Hc.
    + destruct (String.eqb token "") eqn:E; [apply IH; reflexivity|].
      apply String.eqb_neq in E. constructor; [split; assumption|apply IH; reflexivity].
    + apply IH. rewrite spaceless_append, Htoken. simpl. rewrite Hc. reflexivity.
Qed.

(** Reading a field moves it into the token under construction. *)
Lemma split_from_field field s token :
  spaceless field = true ->
  split_from (field +:+ s) token = split_from s (token +:+ field).
Proof.
  revert token. induction field as [|c field IH]; intros token Hfield.
  - rewrite append_nil_r. reflexivity.
  - simpl in Hfield. apply andb_prop in Hfield as [Hc Hfield].
    apply negb_true_iff in Hc.
    rewrite append_cons. simpl. rewrite Hc, (IH _ Hfield), append_assoc. reflexivity.
Qed.

Lemma split_field_then_blank field s :
  cron_field field -> split (field +:+ " " +:+ s) = field :: split s.
Proof.
  intros [Hne Hfield]. unfold split. rewrite (split_from_field _ _ _ Hfield).
  change ("" +:+ field) with field.
  change (" " +:+ s) with (String " "%char s).
  change (split_from (String " "%char s) field)
    with (if String.eqb field "" then split_from s "" else field :: split_from s "").
  apply String.eqb_neq in Hne. rewrite Hne. reflexivity.
Qed.

Lemma split_last_field field : cron_field field -> split field = [field].
Proof.
  intros [Hne Hfield]. unfold split.
  rewrite <- (append_nil_r field) at 1.
  rewrite (split_from_field _ _ _ Hfield).
  change (split_from "" ("" +:+ field)) with (if String.eqb field "" then [] else [field]).
  apply String.eqb_neq in Hne. rewrite Hne. reflexivity.
Qed.

(** What [parse_cron_expression] returns for an expression of ASCII
characters are the five tokens of the expression, in order, each non-empty
and free of white space. *)
Theorem parse_cron_expression_fields cron_str schedule :
  isascii cron_str = true ->
  parse_cron_expression cron_str = Return schedule ->
  split cron_str = fields_of schedule /\ Forall cron_field (fields_of schedule).
Proof.
  unfold parse_cron_expression. intros _ Hparse.
  pose proof (split_from_fields cron_str "" eq_refl) as Hfields.
  fold (split cron_str) in Hfields.
  destruct (split cron_str) as [|p0 [|p1 [|p2 [|p3 [|p4 [|p5 rest]]]]]];
    try discriminate.
  injection Hparse as <-. split; [reflexivity|exact Hfields].
Qed.

Lemma parse_cron_expression_fields_witness :
  isascii "  */5 *  * * 1-5 " = true
  /\ parse_cron_expression "  */5 *  * * 1-5 " = Return
    {| CrontabSchedule.minute := "*/5"; CrontabSchedule.hour := "*";
       CrontabSchedule.day_of_month := "*"; CrontabSchedule.month_of_year := "*";
       CrontabSchedule.day_of_week := "1-5" |}
  /\ split "  */5 *  * * 1-5 " = ["*/5"; "*"; "*"; "*"; "1-5"]
  /\ Forall cron_field ["*/5"; "*"; "*"; "*"; "1-5"].
Proof.
  assert (H : parse_cron_expression "  */5 *  * * 1-5 " = Return
                {| CrontabSchedule.minute := "*/5"; CrontabSchedule.hour := "*";
                   CrontabSchedule.day_of_month := "*"; CrontabSchedule.month_of_year := "*";
                   CrontabSchedule.day_of_week := "1-5" |})
    by (vm_compute; reflexivity).
  assert (Hascii : isascii "  */5 *  * * 1-5 " = true) by reflexivity.
  split; [exact Hascii|]. split; [exact H|].
  exact (parse_cron_expression_fields _ _ Hascii H).
Defined.

(** Five fields of ASCII characters joined by single blanks parse back to
those fields. *)
Theorem parse_cron_expression_of_fields p0 p1 p2 p3 p4 :
  Forall (fun field => isascii field = true) [p0; p1; p2; p3; p4] ->
  Forall cron_field [p0; p1; p2; p3; p4] ->
  parse_cron_expression (p0 +:+ " " +:+ p1 +:+ " " +:+ p2 +:+ " " +:+ p3 +:+ " " +:+ p4)
  = Return {| CrontabSchedule.minute := p0; CrontabSchedule.hour := p1;
              CrontabSchedule.day_of_month := p2; CrontabSchedule.month_of_year := p3;
              CrontabSchedule.day_of_week := p4 |}.
Proof.
  intros _ Hfields.
  inversion Hfields as [|? ? H0 Hf1]; subst.
  inversion Hf1 as [|? ? H1 Hf2]; subst.
  inversion Hf2 as [|? ? H2 Hf3]; subst.
  inversion Hf3 as [|? ? H3 Hf4]; subst.
  inversion Hf4 as [|? ? H4 _]; subst.
  unfold parse_cron_expression.
  rewrite (split_field_then_blank _ _ H0), (split_field_then_blank _ _ H1),
    (split_field_then_blank _ _ H2), (split_field_then_blank _ _ H3),
    (split_last_field _ H4).
  reflexivity.
Qed.

Lemma parse_cron_expression_of_fields_witness :
  Forall (fun field => isascii field = true) ["0"; "*/2"; "1,15"; "*"; "mon-fri"]
  /\ Forall cron_field ["0"; "*/2"; "1,15"; "*"; "mon-fri"]
  /\ parse_cron_expression ("0" +:+ " " +:+ "*/2" +:+ " " +:+ "1,15" +:+ " " +:+ "*" +:+ " "
                            +:+ "mon-fri")
     = Return {| CrontabSchedule.minute := "0"; CrontabSchedule.hour := "*/2";
                 CrontabSchedule.day_of_month := "1,15"; CrontabSchedule.month_of_year := "*";
                 CrontabSchedule.day_of_week := "mon-fri" |}.
Proof.
  assert (H : Forall cron_field ["0"; "*/2"; "1,15"; "*"; "mon-fri"]).
  { repeat (constructor; [split; [discriminate|reflexivity]|]). constructor. }
  assert (Hascii : Forall (fun field => isascii field = true)
                     ["0"; "*/2"; "1,15"; "*"; "mon-fri"]).
  { repeat (constructor; [reflexivity|]). constructor. }
  split; [exact Hascii|]. split; [exact H|].
  exact (parse_cron_expression_of_fields "0" "*/2" "1,15" "*" "mon-fri" Hascii H).
Defined.

End CronFacts.

(** ** Periodic tasks of triggers *)

Module TriggerFacts.
Import Spec Extra.

(** What a save of a trigger does, case by case. *)
Lemma manage_scheduled_trigger_cases t db :
  (schedulable t = false
   /\ manage_scheduled_trigger t db
      = with_periodic_tasks (delete (task_name_of t) (periodic_tasks db)) db)
  \/ (schedulable t = true
      /\ ((exists e, parse_cron_expression (default "" (FunctionTrigger.schedule t)) = Raise e)
          \/ (exists cron,
                parse_cron_expression (default "" (FunctionTrigger.schedule t)) = Return cron
                /\ (2 <= length (filter (fun row => row = cron) (crontabs db)))%nat))
      /\ manage_scheduled_trigger t db = db)
  \/ (schedulable t = true
      /\ exists cron,
           parse_cron_expression (default "" (FunctionTrigger.schedule t)) = Return cron
           /\ (length (filter (fun row => row = cron) (crontabs db)) <= 1)%nat
           /\ let db1 := if bool_decide (cron ∈ crontabs db) then db
                         else with_crontabs (crontabs db ++ [cron]) db in
              match functions db !! FunctionTrigger.function t with
              | None => manage_scheduled_trigger t db = db1
              | Some func =>
                  exists job,
                    PeriodicTask.crontab job = cron
                    /\ PeriodicTask.task job = "functions.tasks.invoke_function_task"
                    /\ PeriodicTask.enabled job = String.eqb (Function.status func) "active"
                    /\ manage_scheduled_trigger t db
                       = with_periodic_tasks
                           (<[ task_name_of t := job ]> (periodic_tasks db1)) db1
              end).
Proof.
  unfold manage_scheduled_trigger, schedulable.
  destruct (String.eqb (FunctionTrigger.trigger_type t) "scheduled"
            && FunctionTrigger.enabled t && truthy (FunctionTrigger.schedule t));
    [|left; split; reflexivity].
  right.
  destruct (parse_cron_expression (default "" (FunctionTrigger.schedule t)))
    as [cron|e] eqn:Hparse.
  - destruct (le_lt_dec (length (filter (fun row => row = cron) (crontabs db))) 1)
      as [Hone|Hmany].
    + right. split; [reflexivity|]. exists cron. split; [reflexivity|].
      split; [exact Hone|].
      rewrite (CrontabFacts.get_or_create_crontab_schedule_found _ _ _ Hparse Hone).
      destruct (bool_decide (cron ∈ crontabs db)); simpl;
        destruct (functions db !! FunctionTrigger.function t) as [func|];
        try reflexivity; eexists; repeat split; reflexivity.
    + left. split; [reflexivity|]. split; [right; exists cron; split; [reflexivity|lia]|].
      destruct (CrontabFacts.get_or_create_crontab_schedule_cases _ _ db Hparse)
        as [[Hf _]|[[Hf _]|[_ ->]]]; cbv zeta in *;
        [rewrite Hf in Hmany; simpl in Hmany; lia..|reflexivity].
  - left. split; [reflexivity|]. split; [left; exists e; reflexivity|].
    unfold get_or_create_crontab_schedule. rewrite Hparse. reflexivity.
Qed.

(** A save of a trigger touches no periodic task but the trigger's own, and
no row of functions, invocations or triggers. *)
Theorem manage_scheduled_trigger_touches_own_task t db :
  let db' := manage_scheduled_trigger t db in
  delete (task_name_of t) (periodic_tasks db') = delete (task_name_of t) (periodic_tasks db)
  /\ functions db' = functions db
  /\ invocations db' = invocations db
  /\ triggers db' = triggers db.
Proof.
  intros db'. unfold db'.
  destruct (manage_scheduled_trigger_cases t db)
    as [[_ ->]|[(_ & _ & ->)|(_ & cron & _ & _ & H)]].
  - simpl. rewrite (delete_id (delete _ _)) by apply lookup_delete_eq. repeat split.
  - repeat split.
  - cbv zeta in H. destruct (functions db !! FunctionTrigger.function t) as [func|].
    + destruct H as (job & _ & _ & _ & ->). simpl.
      rewrite delete_insert_eq.
      destruct (bool_decide (cron ∈ crontabs db)); repeat split.
    + rewrite H. destruct (bool_decide (cron ∈ crontabs db)); repeat split.
Qed.

(** A save of a scheduled, enabled trigger with a valid schedule, over a
table of crontabs without duplicate rows, registers its periodic task: the
entry point is the invocation task, the schedule is the parsed one and is on
record, and the task is enabled exactly when the function is active. *)
Theorem manage_scheduled_trigger_registers t db cron func :
  schedulable t = true ->
  parse_cron_expression (default "" (FunctionTrigger.schedule t)) = Return cron ->
  functions db !! FunctionTrigger.function t = Some func ->
  NoDup (crontabs db) ->
  let db' := manage_scheduled_trigger t db in
  exists job,
    periodic_tasks db' !! task_name_of t = Some job
    /\ PeriodicTask.crontab job = cron
    /\ PeriodicTask.task job = "functions.tasks.invoke_function_task"
    /\ PeriodicTask.enabled job = String.eqb (Function.status func) "active"
    /\ cron ∈ crontabs db'.
Proof.
  intros Hsched Hparse Hfunc Hnodup db'. unfold db'.
  destruct (manage_scheduled_trigger_cases t db)
    as [[Hno _]|[(_ & [[e He]|(cron' & Hparse' & Hmany)] & _)
                |(_ & cron' & Hparse' & _ & H)]]; try congruence.
  { pose proof (CrontabFacts.found_at_most_one cron' _ Hnodup). lia. }
  rewrite Hparse in Hparse'. injection Hparse' as <-.
  cbv zeta in H. rewrite Hfunc in H. destruct H as (job & Hc & Ht & He & ->).
  exists job. simpl. rewrite lookup_insert_eq.
  repeat (split; [assumption || reflexivity|]).
  destruct (bool_decide (cron ∈ crontabs db)) eqn:Hin; simpl.
  - apply bool_decide_eq_true in Hin. exact Hin.
  - apply elem_of_app. right. apply list_elem_of_singleton. reflexivity.
Qed.

(** With two crontabs of the same fields on record the look-up raises, the
receiver logs it, and the trigger is saved without a periodic task. *)
Example duplicate_crontabs_register_nothing :
  let db := with_crontabs [ Samples.every_five_minutes; Samples.every_five_minutes ]
              (with_periodic_tasks ∅ Samples.scheduled) in
  fst (get_or_create_crontab_schedule "*/5 * * * *" db)
  = Raise (Exception "get() returned more than one CrontabSchedule -- it returned 2!")
  /\ manage_scheduled_trigger Cases.nightly db = db
  /\ periodic_tasks (manage_scheduled_trigger Cases.nightly db)
       !! task_name_of Cases.nightly = None.
Proof. vm_compute. repeat split. Qed.

(** After a save of a trigger, its periodic task is enabled only if the
trigger asks for one and either its function is active or the save could not
go through (the schedule does not parse, or the function is gone) and the
task was there before. *)
Theorem enabled_task_needs_active_function t db job :
  periodic_tasks (manage_scheduled_trigger t db) !! task_name_of t = Some job ->
  PeriodicTask.enabled job = true ->
  schedulable t = true
  /\ ((exists func, functions db !! FunctionTrigger.function t = Some func
                    /\ Function.status func = "active")
      \/ periodic_tasks db !! task_name_of t = Some job).
Proof.
  intros Hjob Hen.
  destruct (manage_scheduled_trigger_cases t db)
    as [[_ Heq]|[(Hs & _ & Heq)|(Hs & cron & _ & _ & H)]].
  - rewrite Heq in Hjob. simpl in Hjob. rewrite lookup_delete_eq in Hjob. discriminate.
  - rewrite Heq in Hjob. split; [exact Hs|right; exact Hjob].
  - split; [exact Hs|]. cbv zeta in H.
    destruct (functions db !! FunctionTrigger.function t) as [func|].
    + destruct H as (job' & _ & _ & He & Heq). rewrite Heq in Hjob. simpl in Hjob.
      rewrite lookup_insert_eq in Hjob. injection Hjob as ->.
      left. exists func. split; [reflexivity|].
      apply String.eqb_eq. congruence.
    + rewrite H in Hjob. right.
      destruct (bool_decide (cron ∈ crontabs db)); exact Hjob.
Qed.

Lemma manage_scheduled_trigger_registers_witness :
  schedulable Cases.nightly = true
  /\ parse_cron_expression (default "" (FunctionTrigger.schedule Cases.nightly))
     = Return Samples.every_five_minutes
  /\ functions Samples.scheduled !! FunctionTrigger.function Cases.nightly
     = Some Samples.hello
  /\ NoDup (crontabs Samples.scheduled)
  /\ exists job,
       periodic_tasks (manage_scheduled_trigger Cases.nightly Samples.scheduled)
         !! task_name_of Cases.nightly = Some job
       /\ PeriodicTask.crontab job = Samples.every_five_minutes
       /\ PeriodicTask.task job = "functions.tasks.invoke_function_task"
       /\ PeriodicTask.enabled job = String.eqb (Function.status Samples.hello) "active"
       /\ Samples.every_five_minutes
          ∈ crontabs (manage_scheduled_trigger Cases.nightly Samples.scheduled).
Proof.
  assert (H1 : schedulable Cases.nightly = true) by reflexivity.
  assert (H2 : parse_cron_expression (default "" (FunctionTrigger.schedule Cases.nightly))
               = Return Samples.every_five_minutes) by (vm_compute; reflexivity).
  assert (H3 : functions Samples.scheduled !! FunctionTrigger.function Cases.nightly
               = Some Samples.hello) by (vm_compute; reflexivity).
  assert (H4 : NoDup (crontabs Samples.scheduled)).
  { simpl. apply NoDup_singleton. }
  split; [exact H1|]. split; [exact H2|]. split; [exact H3|]. split; [exact H4|].
  exact (manage_scheduled_trigger_registers Cases.nightly Samples.scheduled
           Samples.every_five_minutes Samples.hello H1 H2 H3 H4).
Defined.

Lemma enabled_task_needs_active_function_witness :
  periodic_tasks (manage_scheduled_trigger Cases.nightly Samples.scheduled)
    !! task_name_of Cases.nightly = Some Cases.nightly_job
  /\ PeriodicTask.enabled Cases.nightly_job = true
  /\ schedulable Cases.nightly = true
  /\ ((exists func,
         functions Samples.scheduled !! FunctionTrigger.function Cases.nightly = Some func
         /\ Function.status func = "active")
      \/ periodic_tasks Samples.scheduled !! task_name_of Cases.nightly
         = Some Cases.nightly_job).
Proof.
  assert (H1 : periodic_tasks (manage_scheduled_trigger Cases.nightly Samples.scheduled)
                 !! task_name_of Cases.nightly = Some Cases.nightly_job)
    by (vm_compute; reflexivity).
  assert (H2 : PeriodicTask.enabled Cases.nightly_job = true) by reflexivity.
  split; [exact H1|]. split; [exact H2|].
  exact (enabled_task_needs_active_function Cases.nightly Samples.scheduled
           Cases.nightly_job H1 H2).
Defined.

(** The schedules on record stay without duplicates, and none is dropped. *)
Theorem manage_scheduled_trigger_crontabs t db :
  NoDup (crontabs db) ->
  NoDup (crontabs (manage_scheduled_trigger t db))
  /\ crontabs db ⊆ crontabs (manage_scheduled_trigger t db).
Proof.
  intros Hnodup.
  assert (Hadd : forall cron,
             let db1 := if bool_decide (cron ∈ crontabs db) then db
                        else with_crontabs (crontabs db ++ [cron]) db in
             NoDup (crontabs db1) /\ crontabs db ⊆ crontabs db1).
  { intros cron. destruct (bool_decide (cron ∈ crontabs db)) eqn:Hin; simpl.
    - split; [exact Hnodup|reflexivity].
    - apply bool_decide_eq_false in Hin. split.
      + apply NoDup_app. split; [exact Hnodup|]. split.
        * intros x Hx Hx'. apply list_elem_of_singleton in Hx'. subst. contradiction.
        * apply NoDup_singleton.
      + intros x Hx. apply elem_of_app. left. exact Hx. }
  destruct (manage_scheduled_trigger_cases t db)
    as [[_ ->]|[(_ & _ & ->)|(_ & cron & _ & _ & H)]].
  - split; [exact Hnodup|reflexivity].
  - split; [exact Hnodup|reflexivity].
  - cbv zeta in H. specialize (Hadd cron). cbv zeta in Hadd.
    destruct (functions db !! FunctionTrigger.function t) as [func|].
    + destruct H as (job & _ & _ & _ & ->). exact Hadd.
    + rewrite H. exact Hadd.
Qed.

Lemma manage_scheduled_trigger_crontabs_witness :
  NoDup (crontabs Samples.scheduled)
  /\ NoDup (crontabs (manage_scheduled_trigger Cases.nightly Samples.scheduled))
  /\ crontabs Samples.scheduled
     ⊆ crontabs (manage_scheduled_trigger Cases.nightly Samples.scheduled).
Proof.
  assert (H : NoDup (crontabs Samples.scheduled)).
  { simpl. apply NoDup_singleton. }
  split; [exact H|].
  exact (manage_scheduled_trigger_crontabs Cases.nightly Samples.scheduled H).
Defined.

(** Saving a trigger twice is the same as saving it once. *)
Theorem manage_scheduled_trigger_idempotent t db :
  manage_scheduled_trigger t (manage_scheduled_trigger t db)
  = manage_scheduled_trigger t db.
Proof.
  destruct (manage_scheduled_trigger_cases t db)
    as [[Hs Heq]|[(Hs & _ & Heq)|(Hs & cron & Hparse & Hone & H)]].
  - rewrite Heq.
    destruct (manage_scheduled_trigger_cases t
                (with_periodic_tasks (delete (task_name_of t) (periodic_tasks db)) db))
      as [[_ ->]|[(Hs' & _)|(Hs' & _)]]; try congruence.
    simpl. rewrite (delete_id (delete _ _)) by apply lookup_delete_eq. reflexivity.
  - rewrite !Heq. reflexivity.
  - cbv zeta in H.
    pose proof (CrontabFacts.found_after cron db Hone) as Hfound. cbv zeta in Hfound.
    set (db1 := if bool_decide (cron ∈ crontabs db) then db
                else with_crontabs (crontabs db ++ [cron]) db) in *.
    assert (Hfuncs : functions db1 = functions db)
      by (unfold db1; destruct (bool_decide (cron ∈ crontabs db)); reflexivity).
    destruct (functions db !! FunctionTrigger.function t) as [func|] eqn:Hfunc.
    + destruct H as (job & Hc & Ht & He & Heq). rewrite Heq.
      unfold manage_scheduled_trigger at 1, get_or_create_crontab_schedule.
      fold (schedulable t). rewrite Hs, Hparse. simpl crontabs. rewrite Hfound.
      simpl functions. rewrite Hfuncs, Hfunc. simpl.
      rewrite insert_insert_eq.
      unfold manage_scheduled_trigger in Heq.
      fold (schedulable t) in Heq.
      rewrite Hs, (CrontabFacts.get_or_create_crontab_schedule_found _ _ _ Hparse Hone)
        in Heq.
      fold db1 in Heq. rewrite Hfuncs, Hfunc in Heq. exact Heq.
    + rewrite H.
      unfold manage_scheduled_trigger, get_or_create_crontab_schedule.
      fold (schedulable t). rewrite Hs, Hparse, Hfound, Hfuncs, Hfunc. reflexivity.
Qed.

(** Rows with distinct keys are told apart by their key. *)
Lemma same_id_same_row (rows : list FunctionTrigger.t) a b :
  NoDup (map FunctionTrigger.id rows) ->
  a ∈ rows -> b ∈ rows -> FunctionTrigger.id a = FunctionTrigger.id b -> a = b.
Proof.
  induction rows as [|r rows IH]; intros Hnodup Ha Hb Hid; [inversion Ha|].
  simpl in Hnodup. apply NoDup_cons in Hnodup as [Hfresh Hnodup].
  assert (Hin : forall x, x ∈ rows -> FunctionTrigger.id x ∈ map FunctionTrigger.id rows).
  { intros x Hx. apply list_elem_of_In, in_map, list_elem_of_In, Hx. }
  apply elem_of_cons in Ha as [->|Ha]; apply elem_of_cons in Hb as [->|Hb].
  - reflexivity.
  - exfalso. apply Hfresh. rewrite Hid. apply Hin, Hb.
  - exfalso. apply Hfresh. rewrite <- Hid. apply Hin, Ha.
  - apply IH; assumption.
Qed.

Lemma set_enabled_same row :
  FunctionTrigger.enabled row = false -> FunctionTrigger.set_enabled false row = row.
Proof. destruct row. simpl. intros ->. reflexivity. Qed.

Lemma foldl_disable_one_other_tasks done db task_name :
  task_name ∉ map task_name_of done ->
  periodic_tasks (foldl disable_one db done) !! task_name = periodic_tasks db !! task_name.
Proof.
  revert db. induction done as [|t done IH]; intros db Hout; [reflexivity|].
  simpl in Hout |- *. apply not_elem_of_cons in Hout as [Hne Hout].
  rewrite (IH _ Hout), SignalFacts.disable_one_periodic_tasks.
  rewrite lookup_alter_ne by congruence.
  destruct (FunctionTrigger.enabled t); [|reflexivity].
  apply lookup_delete_ne. congruence.
Qed.

(** When a function is saved with a status that is not active, exactly its
scheduled triggers are switched off: with distinct primary keys every other
trigger row is left as it is, and so is every periodic task that is not the
task of one of those triggers. *)
Theorem disable_triggers_on_undeploy_exact instance db task_name :
  NoDup (map FunctionTrigger.id (triggers db)) ->
  Function.status instance <> "active" ->
  task_name ∉ map task_name_of (scheduled_triggers_of instance db) ->
  let db' := disable_triggers_on_undeploy instance false db in
  triggers db'
  = map (fun row => if bool_decide (owned_scheduled instance row)
                    then FunctionTrigger.set_enabled false row else row)
        (triggers db)
  /\ periodic_tasks db' !! task_name = periodic_tasks db !! task_name.
Proof.
  intros Hnodup Hstatus Hname db'. unfold db', disable_triggers_on_undeploy.
  apply String.eqb_neq in Hstatus. rewrite Hstatus.
  assert (Hfold : match scheduled_triggers_of instance db with
                  | [] => db
                  | _ => foldl disable_one db (scheduled_triggers_of instance db)
                  end = foldl disable_one db (scheduled_triggers_of instance db))
    by (destruct (scheduled_triggers_of instance db); reflexivity).
  rewrite Hfold. clear Hfold. split.
  - rewrite SignalFacts.foldl_disable_one_triggers.
    apply map_ext_in. intros row Hrow%list_elem_of_In.
    destruct (bool_decide (owned_scheduled instance row)) eqn:Howned.
    + apply bool_decide_eq_true in Howned.
      assert (Hsnap : row ∈ scheduled_triggers_of instance db)
        by (apply list_elem_of_filter; split; assumption).
      unfold disabled_by. destruct (existsb _ _) eqn:Hex; [reflexivity|].
      symmetry. apply set_enabled_same.
      destruct (FunctionTrigger.enabled row) eqn:Hen; [|reflexivity].
      assert (Hyes : existsb (fun t => FunctionTrigger.enabled t
                                       && Nat.eqb (FunctionTrigger.id row)
                                            (FunctionTrigger.id t))
                       (scheduled_triggers_of instance db) = true).
      { apply existsb_exists. exists row. split; [apply list_elem_of_In, Hsnap|].
        rewrite Hen, Nat.eqb_refl. reflexivity. }
      congruence.
    + apply bool_decide_eq_false in Howned.
      unfold disabled_by. destruct (existsb _ _) eqn:Hex; [|reflexivity].
      exfalso. apply existsb_exists in Hex as (t & Ht%list_elem_of_In & Hmatch).
      apply andb_prop in Hmatch as [_ Hid]. apply Nat.eqb_eq in Hid.
      apply list_elem_of_filter in Ht as [Ht_owned Ht].
      apply Howned. rewrite (same_id_same_row _ row t Hnodup Hrow Ht Hid). exact Ht_owned.
  - apply foldl_disable_one_other_tasks, Hname.
Qed.

Lemma disable_triggers_on_undeploy_exact_witness :
  let undeploying := Function.set_status "undeploying" Samples.hello in
  let db' := disable_triggers_on_undeploy undeploying false Samples.scheduled in
  NoDup (map FunctionTrigger.id (triggers Samples.scheduled))
  /\ Function.status undeploying <> "active"
  /\ ("trigger-cccc" ∉ map task_name_of (scheduled_triggers_of undeploying Samples.scheduled))
  /\ triggers db'
     = map (fun row => if bool_decide (owned_scheduled undeploying row)
                       then FunctionTrigger.set_enabled false row else row)
           (triggers Samples.scheduled)
  /\ periodic_tasks db' !! "trigger-cccc" = periodic_tasks Samples.scheduled !! "trigger-cccc".
Proof.
  intros undeploying db'.
  assert (H1 : NoDup (map FunctionTrigger.id (triggers Samples.scheduled))).
  { simpl. apply NoDup_ListNoDup. repeat constructor; simpl; lia. }
  assert (H2 : Function.status undeploying <> "active") by (simpl; discriminate).
  assert (H3 : "trigger-cccc"
               ∉ map task_name_of (scheduled_triggers_of undeploying Samples.scheduled)).
  { vm_compute. intros H. apply list_elem_of_In in H. simpl in H.
    destruct H as [H|[H|[]]]; discriminate H. }
  split; [exact H1|]. split; [exact H2|]. split; [exact H3|].
  exact (disable_triggers_on_undeploy_exact undeploying Samples.scheduled "trigger-cccc"
           H1 H2 H3).
Defined.

End TriggerFacts.

(** ** Invocation rows and statistics *)

Module InvocationRowFacts.
Import Tasks Spec Extra.

Lemma next_id_above db row :
  row ∈ invocations db -> (FunctionInvocation.id row < next_id db)%nat.
Proof.
  unfold next_id. induction (invocations db) as [|r l IH]; intros Hin; [inversion Hin|].
  simpl. apply elem_of_cons in Hin as [->|Hin]; [lia|]. specialize (IH Hin). lia.
Qed.

(** Saving the newest row replaces it and nothing else. *)
Lemma save_invocation_newest inv' db rows inv :
  invocations db = rows ++ [inv] ->
  (forall r, r ∈ rows -> FunctionInvocation.id r <> FunctionInvocation.id inv') ->
  FunctionInvocation.id inv = FunctionInvocation.id inv' ->
  invocations (save_invocation inv' db) = rows ++ [inv'].
Proof.
  intros Hrows Hold Hid. unfold save_invocation. simpl. rewrite Hrows, map_app. simpl.
  rewrite Hid, Nat.eqb_refl. f_equal.
  rewrite <- (map_id rows) at 2. apply map_ext_in. intros r Hr%list_elem_of_In.
  destruct (Nat.eqb_spec (FunctionInvocation.id r) (FunctionInvocation.id inv'));
    [|reflexivity].
  exfalso. exact (Hold r Hr e).
Qed.

Lemma manage_scheduled_trigger_invocations t db :
  invocations (manage_scheduled_trigger t db) = invocations db.
Proof. apply TriggerFacts.manage_scheduled_trigger_touches_own_task. Qed.

Lemma disable_one_invocations db t : invocations (disable_one db t) = invocations db.
Proof.
  unfold disable_one.
  set (db1 := if FunctionTrigger.enabled t then _ else db).
  change (invocations db1 = invocations db).
  unfold db1. destruct (FunctionTrigger.enabled t); [|reflexivity].
  unfold save_trigger_enabled. rewrite manage_scheduled_trigger_invocations. reflexivity.
Qed.

Lemma save_function_invocations columns func db :
  invocations (save_function columns func db) = invocations db.
Proof.
  assert (Hfold : forall done d0, invocations (foldl disable_one d0 done) = invocations d0).
  { intros done. induction done as [|t done IH]; intros d0; [reflexivity|].
    simpl. rewrite IH. apply disable_one_invocations. }
  unfold save_function, disable_triggers_on_undeploy.
  destruct (String.eqb (Function.status func) "active"); [reflexivity|].
  destruct (scheduled_triggers_of func _) as [|t rest]; [reflexivity|].
  rewrite Hfold. reflexivity.
Qed.

(** Past the guards, with a free request id, the body of the tasks adds
exactly one row; it returns the id of the row and leaves it finished, or it
returns no id and leaves the row running. *)
Lemma create_and_invoke_row func event_data request_id env db :
  existsb (fun row => String.eqb (FunctionInvocation.request_id row) request_id)
          (invocations db) = false ->
  exists fields row,
    fst (create_and_invoke func event_data request_id env db) = Done (JDict fields)
    /\ invocations (snd (create_and_invoke func event_data request_id env db))
       = invocations db ++ [row]
    /\ FunctionInvocation.function row = Function.uuid func
    /\ FunctionInvocation.created_at row = now env
    /\ (assoc "invocation_id" fields = Some (JInt (Z.of_nat (FunctionInvocation.id row)))
        /\ finished row
        \/ assoc "invocation_id" fields = Some JNull
           /\ left_running row
           /\ functions (snd (create_and_invoke func event_data request_id env db))
              = functions db).
Proof.
  intros Hfree. unfold create_and_invoke. rewrite Hfree.
  set (pending := {| FunctionInvocation.id := next_id db |}).
  set (db1 := with_invocations (invocations db ++ [pending]) db).
  set (running := FunctionInvocation.set_status "running" pending).
  assert (Hold : forall r, r ∈ invocations db -> FunctionInvocation.id r <> next_id db).
  { intros r Hr. pose proof (next_id_above db r Hr). lia. }
  assert (Hdb2 : invocations (save_invocation running db1) = invocations db ++ [running]).
  { apply (save_invocation_newest running db1 (invocations db) pending);
      [reflexivity|exact Hold|reflexivity]. }
  assert (Hexc : forall inv e,
             FunctionInvocation.id inv = next_id db ->
             FunctionInvocation.function inv = Function.uuid func ->
             FunctionInvocation.created_at inv = now env ->
             exists fields row,
               fst (record_exception inv e env (save_invocation running db1))
               = Done (JDict fields)
               /\ invocations (snd (record_exception inv e env (save_invocation running db1)))
                  = invocations db ++ [row]
               /\ FunctionInvocation.function row = Function.uuid func
               /\ FunctionInvocation.created_at row = now env
               /\ (assoc "invocation_id" fields
                   = Some (JInt (Z.of_nat (FunctionInvocation.id row)))
                   /\ finished row
                   \/ assoc "invocation_id" fields = Some JNull
                      /\ left_running row
                      /\ functions (snd (record_exception inv e env
                                           (save_invocation running db1)))
                         = functions db)).
  { intros inv e Hid Hfn Hat. unfold record_exception.
    destruct (save_error (errored inv e env)) as [e'|].
    - exists [ ("success", JBool false); ("error", JStr (str e')); ("invocation_id", JNull) ],
        running.
      split; [reflexivity|]. split; [exact Hdb2|]. split; [reflexivity|].
      split; [reflexivity|]. right. repeat split.
    - eexists _, _. split; [reflexivity|]. split.
      + simpl snd. apply (save_invocation_newest _ _ (invocations db) running);
          [exact Hdb2|simpl; rewrite Hid; exact Hold|simpl; symmetry; exact Hid].
      + simpl. split; [exact Hfn|]. split; [exact Hat|]. left.
        split; [reflexivity|].
        split; [apply elem_of_cons; right; apply elem_of_cons; left; reflexivity|].
        split; eexists; reflexivity. }
  destruct (Kubernetes.invoke_function _ _ _ _ _ _) as [result|e];
    [|apply Hexc; reflexivity].
  destruct result as [| | | | |result]; try (apply Hexc; reflexivity).
  destruct (duration_of result (execution_time env)) as [duration|e];
    [|apply Hexc; reflexivity].
  destruct (save_error _) as [e|]; [apply Hexc; reflexivity|].
  eexists _, _. split; [reflexivity|]. split.
  - simpl snd. rewrite save_function_invocations.
    apply (save_invocation_newest _ _ (invocations db) running);
      [exact Hdb2|exact Hold|reflexivity].
  - simpl. split; [reflexivity|]. split; [reflexivity|]. left.
    split; [reflexivity|].
    split; [|split; eexists; reflexivity].
    destruct (Kubernetes.json_truthy_default _);
      [apply elem_of_cons; left; reflexivity
      |apply elem_of_cons; right; apply elem_of_cons; left; reflexivity].
Qed.

Lemma guarded_invoke_reports not_deployed function_uuid event_data request_id env db :
  reports_its_row function_uuid env db
    (guarded_invoke not_deployed function_uuid event_data request_id env db).
Proof.
  unfold reports_its_row, guarded_invoke.
  destruct (functions db !! function_uuid) as [func|] eqn:Hfunc;
    [|eexists; split; [reflexivity|left; reflexivity]].
  destruct (_ || _); [eexists; split; [reflexivity|left; reflexivity]|].
  destruct (circuit_breaker_open _ _ _); [eexists; split; [reflexivity|left; reflexivity]|].
  destruct (5 <=? _)%nat; [eexists; split; [reflexivity|left; reflexivity]|].
  set (rid := if truthy request_id then default "" request_id
              else generated_request_id env).
  destruct (existsb (fun row => String.eqb (FunctionInvocation.request_id row) rid)
                    (invocations db)) eqn:Hfree.
  - unfold create_and_invoke. rewrite Hfree.
    eexists; split; [reflexivity|left; reflexivity].
  - destruct (create_and_invoke_row func event_data rid env db Hfree)
      as (fields & row & Hres & Hrows & Hfn & Hat & [[Hid Hfin]|(Hid & Hrun & Hfuncs)]).
    + exists fields. split; [exact Hres|]. rewrite Hid.
      exists func, row. repeat split; try assumption; apply Hfin.
    + exists fields. split; [exact Hres|]. rewrite Hid. right.
      exists func, row. repeat split; try assumption; apply Hrun.
Qed.

(** Both invocation tasks end by returning a result, never by asking for a
retry.  A result with an invocation id means that exactly one row was added
for the function, with that id, created now and finished as success or
error.  A result without one means that nothing was written, or that the one
row that was added for the function could not be saved after the call (the
agent answered with a null log, say, which the table does not take) and is
left running, the function table being as it was. *)
Theorem invocation_tasks_report_their_row function_uuid event_data request_id env db :
  reports_its_row function_uuid env db
    (invoke_function_task function_uuid event_data request_id env db)
  /\ reports_its_row function_uuid env db
       (test_function_task function_uuid event_data env db).
Proof. split; apply guarded_invoke_reports. Qed.

(** [int] on texts: white space at both ends, a sign and single
underscores between digits are taken; the separators 28 to 31, which
[str.strip] removes, are not. *)
Example int_of_str_samples :
  int_of_str " 12 " = Some 12
  /\ int_of_str "-1_000" = Some (-1000)
  /\ int_of_str "+007" = Some 7
  /\ int_of_str (String "160" "12") = Some 12
  /\ int_of_str (String "028" "12") = None
  /\ int_of_str "1__2" = None
  /\ int_of_str "12.0" = None
  /\ int_of_str "0x1f" = None
  /\ int_of_str "- 1" = None
  /\ int_of_str "" = None.
Proof. vm_compute. repeat split. Qed.

(** The duration of a reply: a numeric text is converted, other texts and
values that are no numbers make [int] raise. *)
Example duration_of_samples :
  duration_of [ ("execution_time_ms", JStr "12") ] 250 = Return 12
  /\ duration_of [] 250 = Return 250
  /\ duration_of [ ("execution_time_ms", JBool true) ] 250 = Return 1
  /\ duration_of [ ("execution_time_ms", JStr "soon") ] 250
     = Raise (ValueError "invalid literal for int() with base 10: 'soon'")
  /\ duration_of [ ("execution_time_ms", JNull) ] 250
     = Raise (Exception ("int() argument must be a string, a bytes-like object or a " +:+
                         "real number, not 'NoneType'")).
Proof. vm_compute. repeat split. Qed.

(** The row and the result when the gateway returns a dict whose execution
time is usable and which can be stored. *)
Lemma create_and_invoke_returned func event_data request_id env db result duration :
  existsb (fun row => String.eqb (FunctionInvocation.request_id row) request_id)
          (invocations db) = false ->
  Kubernetes.invoke_function (network env) (default "" (Function.service_name func))
    (dict_set "__secrets__" (JDict (secrets_dict func)) event_data)
    (Function.timeout_seconds func) (Some (Function.code func)) (Function.handler func)
  = Return (JDict result) ->
  duration_of result (execution_time env) = Return duration ->
  refused (default (JStr "") (assoc "error" result)) (default (JStr "") (assoc "logs" result))
    (assoc "memory_used_mb" result) = None ->
  exists row,
    fst (create_and_invoke func event_data request_id env db)
    = Done (JDict [ ("success", JBool true);
                    ("invocation_id", JInt (Z.of_nat (FunctionInvocation.id row))) ])
    /\ invocations (snd (create_and_invoke func event_data request_id env db))
       = invocations db ++ [row]
    /\ FunctionInvocation.status row
       = (if Kubernetes.json_truthy_default (assoc "success" result)
          then "success" else "error")
    /\ FunctionInvocation.duration_ms row = Some duration
    /\ FunctionInvocation.error_message row = default (JStr "") (assoc "error" result)
    /\ FunctionInvocation.output_data row = assoc "result" result.
Proof.
  intros Hfree Hgateway Hduration Hstorable. unfold create_and_invoke.
  rewrite Hfree, Hgateway, Hduration.
  assert (Hsave : forall inv,
             FunctionInvocation.error_message inv = default (JStr "") (assoc "error" result) ->
             FunctionInvocation.logs inv = default (JStr "") (assoc "logs" result) ->
             FunctionInvocation.memory_used_mb inv = assoc "memory_used_mb" result ->
             save_error inv = None).
  { intros inv H1 H2 H3. unfold save_error. rewrite H1, H2, H3. exact Hstorable. }
  rewrite Hsave by reflexivity.
  eexists. split; [reflexivity|]. split; [|repeat split].
  simpl snd. rewrite save_function_invocations.
  assert (Hold : forall r, r ∈ invocations db -> FunctionInvocation.id r <> next_id db).
  { intros r Hr. pose proof (next_id_above db r Hr). lia. }
  eapply (save_invocation_newest _ _ (invocations db));
    [eapply (save_invocation_newest _ _ (invocations db));
       [reflexivity|exact Hold|reflexivity]
    |exact Hold|reflexivity].
Qed.

(** The row and the result when the gateway raises. *)
Lemma create_and_invoke_raised func event_data request_id env db e :
  existsb (fun row => String.eqb (FunctionInvocation.request_id row) request_id)
          (invocations db) = false ->
  Kubernetes.invoke_function (network env) (default "" (Function.service_name func))
    (dict_set "__secrets__" (JDict (secrets_dict func)) event_data)
    (Function.timeout_seconds func) (Some (Function.code func)) (Function.handler func)
  = Raise e ->
  exists row,
    fst (create_and_invoke func event_data request_id env db)
    = Done (JDict [ ("success", JBool false);
                    ("error", JStr (str e));
                    ("invocation_id", JInt (Z.of_nat (FunctionInvocation.id row))) ])
    /\ invocations (snd (create_and_invoke func event_data request_id env db))
       = invocations db ++ [row]
    /\ FunctionInvocation.status row = "error"
    /\ FunctionInvocation.error_message row = JStr (str e)
    /\ functions (snd (create_and_invoke func event_data request_id env db)) = functions db.
Proof.
  intros Hfree Hgateway. unfold create_and_invoke. rewrite Hfree, Hgateway.
  unfold record_exception.
  eexists. split; [reflexivity|]. split; [|repeat split].
  simpl snd.
  assert (Hold : forall r, r ∈ invocations db -> FunctionInvocation.id r <> next_id db).
  { intros r Hr. pose proof (next_id_above db r Hr). lia. }
  eapply (save_invocation_newest _ _ (invocations db));
    [eapply (save_invocation_newest _ _ (invocations db));
       [reflexivity|exact Hold|reflexivity]
    |exact Hold|reflexivity].
Qed.

Lemma invoke_function_task_let_through function_uuid event_data env db func :
  functions db !! function_uuid = Some func ->
  let_through func (generated_request_id env) env db ->
  invoke_function_task function_uuid event_data None env db
  = create_and_invoke func event_data (generated_request_id env) env db.
Proof.
  intros Hfound (Hdeployed & Hclosed & Hfew & _).
  unfold invoke_function_task.
  rewrite (InvocationFacts.guarded_invoke_found _ _ _ _ _ _ _ Hfound).
  rewrite Hdeployed, Hclosed. simpl negb. cbv iota.
  apply Nat.leb_gt in Hfew. rewrite Hfew. reflexivity.
Qed.

(** A request to the agent that times out is stored as an error, not as a
timeout: the task reports success with the id of a row whose status is
error, whose duration is the whole timeout and whose message names it. *)
Theorem timed_out_request_is_stored_as_error function_uuid event_data env db func :
  functions db !! function_uuid = Some func ->
  let_through func (generated_request_id env) env db ->
  endpoint_resolved (network env) ->
  (forall url payload timeout,
      Kubernetes.post (network env) url payload timeout = Kubernetes.PostTimeout) ->
  let run := invoke_function_task function_uuid event_data None env db in
  exists row,
    fst run = Done (JDict [ ("success", JBool true);
                            ("invocation_id", JInt (Z.of_nat (FunctionInvocation.id row))) ])
    /\ invocations (snd run) = invocations db ++ [row]
    /\ FunctionInvocation.status row = "error"
    /\ FunctionInvocation.duration_ms row = Some (Function.timeout_seconds func * 1000)
    /\ FunctionInvocation.error_message row
       = JStr ("Function execution exceeded " +:+ pretty (Function.timeout_seconds func)
               +:+ " seconds").
Proof.
  intros Hfound Hthrough Hresolved Hpost run. unfold run.
  rewrite (invoke_function_task_let_through _ _ _ _ _ Hfound Hthrough).
  destruct Hthrough as (_ & _ & _ & Hfree).
  assert (Hgateway :
            Kubernetes.invoke_function (network env)
              (default "" (Function.service_name func))
              (dict_set "__secrets__" (JDict (secrets_dict func)) event_data)
              (Function.timeout_seconds func) (Some (Function.code func))
              (Function.handler func)
            = Return (Kubernetes.failure_result
                        ("Function execution exceeded "
                         +:+ pretty (Function.timeout_seconds func) +:+ " seconds")
                        "" (Function.timeout_seconds func * 1000))).
  { unfold Kubernetes.invoke_function.
    assert (Hurl : exists url, Kubernetes.service_url_of (network env)
                                 (default "" (Function.service_name func)) = Return url).
    { unfold Kubernetes.service_url_of. destruct Hresolved as [Hin|Hrun].
      - rewrite Hin. eauto.
      - rewrite Hrun. destruct (Kubernetes.in_cluster (network env)); eauto. }
    destruct Hurl as [url ->]. rewrite Hpost. reflexivity. }
  destruct (create_and_invoke_returned func event_data (generated_request_id env) env db
              _ (Function.timeout_seconds func * 1000) Hfree Hgateway eq_refl eq_refl)
    as (row & Hres & Hrows & Hstatus & Hduration & Herror & _).
  exists row. repeat split; assumption.
Qed.

Lemma timed_out_request_is_stored_as_error_witness :
  let env := Samples.surroundings Kubernetes.PostTimeout in
  let db := Samples.database [] in
  let run := invoke_function_task (Function.uuid Samples.hello) [] None env db in
  functions db !! Function.uuid Samples.hello = Some Samples.hello
  /\ let_through Samples.hello (generated_request_id env) env db
  /\ endpoint_resolved (network env)
  /\ (forall url payload timeout,
        Kubernetes.post (network env) url payload timeout = Kubernetes.PostTimeout)
  /\ exists row,
       fst run = Done (JDict [ ("success", JBool true);
                               ("invocation_id",
                                JInt (Z.of_nat (FunctionInvocation.id row))) ])
       /\ invocations (snd run) = invocations db ++ [row]
       /\ FunctionInvocation.status row = "error"
       /\ FunctionInvocation.duration_ms row
          = Some (Function.timeout_seconds Samples.hello * 1000)
       /\ FunctionInvocation.error_message row
          = JStr ("Function execution exceeded "
                  +:+ pretty (Function.timeout_seconds Samples.hello) +:+ " seconds").
Proof.
  intros env db run.
  assert (H1 : functions db !! Function.uuid Samples.hello = Some Samples.hello)
    by (vm_compute; reflexivity).
  assert (H2 : let_through Samples.hello (generated_request_id env) env db).
  { split; [reflexivity|]. split; [vm_compute; reflexivity|].
    split; [vm_compute; lia|reflexivity]. }
  assert (H3 : endpoint_resolved (network env)) by (left; reflexivity).
  assert (H4 : forall url payload timeout,
             Kubernetes.post (network env) url payload timeout = Kubernetes.PostTimeout)
    by (intros; reflexivity).
  split; [exact H1|]. split; [exact H2|]. split; [exact H3|]. split; [exact H4|].
  exact (timed_out_request_is_stored_as_error (Function.uuid Samples.hello) [] env db
           Samples.hello H1 H2 H3 H4).
Defined.

(** When the port-forward cannot be established the gateway raises; the
task catches it, leaves a row in error that carries the message, reports
failure with the id of that row, and does not count the invocation. *)
Theorem tunnel_failure_is_recorded function_uuid event_data env db func :
  functions db !! function_uuid = Some func ->
  let_through func (generated_request_id env) env db ->
  Kubernetes.in_cluster (network env) = false ->
  Kubernetes.kubectl (network env) = Kubernetes.ProcessExited ->
  let run := invoke_function_task function_uuid event_data None env db in
  let message :=
    "Could not establish port-forward to " +:+ default "" (Function.service_name func)
    +:+ ": " +:+ "kubectl port-forward process exited unexpectedly" in
  exists row,
    fst run = Done (JDict [ ("success", JBool false);
                            ("error", JStr message);
                            ("invocation_id", JInt (Z.of_nat (FunctionInvocation.id row))) ])
    /\ invocations (snd run) = invocations db ++ [row]
    /\ FunctionInvocation.status row = "error"
    /\ FunctionInvocation.error_message row = JStr message
    /\ functions (snd run) = functions db.
Proof.
  intros Hfound Hthrough Hout Hexited run message. unfold run.
  rewrite (invoke_function_task_let_through _ _ _ _ _ Hfound Hthrough).
  destruct Hthrough as (_ & _ & _ & Hfree).
  assert (Hgateway :
            Kubernetes.invoke_function (network env)
              (default "" (Function.service_name func))
              (dict_set "__secrets__" (JDict (secrets_dict func)) event_data)
              (Function.timeout_seconds func) (Some (Function.code func))
              (Function.handler func)
            = Raise (Exception message)).
  { unfold Kubernetes.invoke_function, Kubernetes.service_url_of.
    rewrite Hout, Hexited. reflexivity. }
  exact (create_and_invoke_raised func event_data (generated_request_id env) env db
           _ Hfree Hgateway).
Qed.

Lemma tunnel_failure_is_recorded_witness :
  let env :=
    {| now := minutes 10; completed := minutes 10 + 250000; execution_time := 250;
       generated_request_id := "req-5f0c2d9a41be"; network := Samples.broken_tunnel |} in
  let db := Samples.database [] in
  let run := invoke_function_task (Function.uuid Samples.hello) [] None env db in
  let message :=
    "Could not establish port-forward to "
    +:+ default "" (Function.service_name Samples.hello)
    +:+ ": " +:+ "kubectl port-forward process exited unexpectedly" in
  functions db !! Function.uuid Samples.hello = Some Samples.hello
  /\ let_through Samples.hello (generated_request_id env) env db
  /\ Kubernetes.in_cluster (network env) = false
  /\ Kubernetes.kubectl (network env) = Kubernetes.ProcessExited
  /\ exists row,
       fst run = Done (JDict [ ("success", JBool false);
                               ("error", JStr message);
                               ("invocation_id",
                                JInt (Z.of_nat (FunctionInvocation.id row))) ])
       /\ invocations (snd run) = invocations db ++ [row]
       /\ FunctionInvocation.status row = "error"
       /\ FunctionInvocation.error_message row = JStr message
       /\ functions (snd run) = functions db.
Proof.
  intros env db run message.
  assert (H1 : functions db !! Function.uuid Samples.hello = Some Samples.hello)
    by (vm_compute; reflexivity).
  assert (H2 : let_through Samples.hello (generated_request_id env) env db).
  { split; [reflexivity|]. split; [vm_compute; reflexivity|].
    split; [vm_compute; lia|reflexivity]. }
  split; [exact H1|]. split; [exact H2|]. split; [reflexivity|]. split; [reflexivity|].
  exact (tunnel_failure_is_recorded (Function.uuid Samples.hello) [] env db
           Samples.hello H1 H2 eq_refl eq_refl).
Defined.

End InvocationRowFacts.

(** ** The statistics of a function *)

Module StatisticsFacts.
Import Tasks Extra.

(** The exception handler of the tasks reports a failure and leaves the
function table alone. *)
Lemma record_exception_counts inv e env db :
  exists fields,
    fst (record_exception inv e env db) = Done (JDict fields)
    /\ assoc "success" fields = Some (JBool false)
    /\ functions (snd (record_exception inv e env db)) = functions db.
Proof.
  unfold record_exception.
  destruct (save_error (errored inv e env)); eexists; repeat split.
Qed.

Lemma guarded_invoke_counts not_deployed func event_data request_id env db :
  functions db !! Function.uuid func = Some func ->
  counts_successes func env db
    (guarded_invoke not_deployed (Function.uuid func) event_data request_id env db).
Proof.
  intros Hfound. unfold counts_successes, guarded_invoke. rewrite Hfound.
  destruct (_ || _); [eexists; split; reflexivity|].
  destruct (circuit_breaker_open _ _ _); [eexists; split; reflexivity|].
  destruct (5 <=? _)%nat; [eexists; split; reflexivity|].
  unfold create_and_invoke.
  destruct (existsb _ _); [eexists; split; reflexivity|].
  assert (Hexc : forall inv e db0,
             functions db0 = functions db ->
             exists fields,
               fst (record_exception inv e env db0) = Done (JDict fields)
               /\ functions (snd (record_exception inv e env db0))
                  = match assoc "success" fields with
                    | Some (JBool true) => counted func env db
                    | _ => functions db
                    end).
  { intros inv e db0 Hdb0.
    destruct (record_exception_counts inv e env db0) as (fields & Hres & Hfail & Hfuncs).
    exists fields. split; [exact Hres|]. rewrite Hfail, Hfuncs. exact Hdb0. }
  destruct (Kubernetes.invoke_function _ _ _ _ _ _) as [result|e];
    [|apply Hexc; reflexivity].
  destruct result as [| | | | |result]; try (apply Hexc; reflexivity).
  destruct (duration_of result (execution_time env)) as [duration|e];
    [|apply Hexc; reflexivity].
  destruct (save_error _) as [e|]; [apply Hexc; reflexivity|].
  eexists. split; [reflexivity|]. simpl assoc. cbv iota. simpl snd.
  match goal with
  | |- functions (save_function statistics_columns ?f ?d) = _ =>
      destruct (LifecycleFacts.save_function_row statistics_columns f d) as [-> _]
  end.
  unfold counted. simpl. rewrite Hfound. reflexivity.
Qed.

(** The invocation tasks count an invocation exactly when they report
success: the counter of the function goes up by one and the time of the
last invocation is set; a rejected attempt, a duplicate request id and a
gateway that raised leave the function table as it was. *)
Theorem invocation_tasks_count_successes func event_data request_id env db :
  functions db !! Function.uuid func = Some func ->
  counts_successes func env db
    (invoke_function_task (Function.uuid func) event_data request_id env db)
  /\ counts_successes func env db
       (test_function_task (Function.uuid func) event_data env db).
Proof. intros Hfound. split; apply guarded_invoke_counts; exact Hfound. Qed.

Lemma invocation_tasks_count_successes_witness :
  let env := Samples.surroundings Kubernetes.PostTimeout in
  let db := Samples.database [] in
  functions db !! Function.uuid Samples.hello = Some Samples.hello
  /\ counts_successes Samples.hello env db
       (invoke_function_task (Function.uuid Samples.hello) [] None env db)
  /\ counts_successes Samples.hello env db
       (test_function_task (Function.uuid Samples.hello) [] env db).
Proof.
  intros env db.
  assert (H1 : functions db !! Function.uuid Samples.hello = Some Samples.hello)
    by (vm_compute; reflexivity).
  split; [exact H1|].
  exact (invocation_tasks_count_successes Samples.hello [] None env db H1).
Defined.

End StatisticsFacts.

(** ** Secrets on their way to the agent *)

Module SecretsFacts.
Import Tasks Extra.

Lemma assoc_dict_set {A} key (value : A) fields :
  assoc key (dict_set key value fields) = Some value.
Proof.
  induction fields as [|[k v] rest IH]; simpl.
  - rewrite String.eqb_refl. reflexivity.
  - destruct (String.eqb k key) eqn:E; simpl; rewrite E; [reflexivity|exact IH].
Qed.

Lemma filter_cons_bool {A} (p : A -> bool) x l :
  filter p (x :: l) = if p x then x :: filter p l else filter p l.
Proof. rewrite filter_cons. destruct (p x); reflexivity. Qed.

Lemma without_secrets_dict_set value event :
  without_secrets (dict_set "__secrets__" value event) = without_secrets event.
Proof.
  unfold without_secrets. induction event as [|[k v] rest IH].
  - reflexivity.
  - cbn [dict_set]. destruct (String.eqb k "__secrets__") eqn:E.
    + rewrite !filter_cons_bool. cbn [fst]. rewrite E. reflexivity.
    + rewrite !filter_cons_bool. cbn [fst]. rewrite E. cbn [negb]. rewrite IH. reflexivity.
Qed.

(** What the tasks post to the agent for a function with code: the event
without any [__secrets__] entry, whatever the caller put there, the timeout,
the code and the handler, and the readable secrets of the function as
[env_vars] when there is at least one. *)
Theorem secrets_travel_as_env_vars func event_data :
  Function.code func <> "" ->
  Kubernetes.payload_of
    (dict_set "__secrets__" (JDict (secrets_dict func)) event_data)
    (Function.timeout_seconds func) (Some (Function.code func)) (Function.handler func)
  = JDict ([ ("event", JDict (without_secrets event_data));
             ("timeout_seconds", JInt (Function.timeout_seconds func));
             ("code", JStr (Function.code func));
             ("handler", JStr (Function.handler func)) ]
           ++ match secrets_dict func with
              | [] => []
              | _ :: _ => [ ("env_vars", JDict (secrets_dict func)) ]
              end)
  /\ assoc "__secrets__" (without_secrets event_data) = None.
Proof.
  intros Hcode. split.
  - unfold Kubernetes.payload_of. rewrite assoc_dict_set.
    fold (without_secrets (dict_set "__secrets__" (JDict (secrets_dict func)) event_data)).
    rewrite without_secrets_dict_set.
    assert (Htruthy : truthy (Some (Function.code func)) = true).
    { destruct (Function.code func); [congruence|reflexivity]. }
    rewrite Htruthy. cbn [default Kubernetes.json_truthy].
    destruct (secrets_dict func); reflexivity.
  - unfold without_secrets. induction event_data as [|[k v] rest IH]; [reflexivity|].
    rewrite filter_cons_bool. cbn [fst].
    destruct (String.eqb k "__secrets__") eqn:E; cbn [negb].
    + exact IH.
    + cbn [assoc]. rewrite E. exact IH.
Qed.

Lemma secrets_travel_as_env_vars_witness :
  let event := [ ("name", JStr "world"); ("__secrets__", JDict [ ("PATH", JStr "/tmp") ]) ] in
  Function.code Cases.with_two_secrets <> ""
  /\ Kubernetes.payload_of
       (dict_set "__secrets__" (JDict (secrets_dict Cases.with_two_secrets)) event)
       30 (Some (Function.code Cases.with_two_secrets)) "handler"
     = JDict ([ ("event", JDict (without_secrets event));
                ("timeout_seconds", JInt 30);
                ("code", JStr (Function.code Cases.with_two_secrets));
                ("handler", JStr "handler") ]
              ++ match secrets_dict Cases.with_two_secrets with
                 | [] => []
                 | _ :: _ => [ ("env_vars", JDict (secrets_dict Cases.with_two_secrets)) ]
                 end)
  /\ assoc "__secrets__" (without_secrets event) = None.
Proof.
  intros event.
  assert (H1 : Function.code Cases.with_two_secrets <> "") by (vm_compute; discriminate).
  split; [exact H1|].
  exact (secrets_travel_as_env_vars Cases.with_two_secrets event H1).
Defined.

(** The request of the sample: the entry of the caller is gone and the one
readable secret is the only variable. *)
Example payload_of_sample :
  Kubernetes.payload_of
    (dict_set "__secrets__" (JDict (secrets_dict Cases.with_two_secrets))
       [ ("name", JStr "world"); ("__secrets__", JDict [ ("PATH", JStr "/tmp") ]) ])
    30 (Some "def handler(event, context): return 1") "handler"
  = JDict [ ("event", JDict [ ("name", JStr "world") ]);
            ("timeout_seconds", JInt 30);
            ("code", JStr "def handler(event, context): return 1");
            ("handler", JStr "handler");
            ("env_vars", JDict [ ("API_KEY", JStr "s3cr3t") ]) ].
Proof. vm_compute. reflexivity. Qed.

End SecretsFacts.

(** ** The reply of the agent *)

Module AgentReplyFacts.
Import Extra.


(** A handler that calls [sys.exit()] ends its thread without a result and
without an error: the agent reports success with the result [None]. *)
Example exit_is_reported_as_success :
  Agent.execute Samples.sleeper (JDict []) 30
    {| Agent.on_exec := Agent.ExecDefines ["__name__"; "__builtins__"; "handler"];
       Agent.on_join := Agent.HandlerExits;
       Agent.stdout_capture := "";
       Agent.stderr_capture := "";
       Agent.elapsed_ms := 3;
       Agent.start_memory := 21;
       Agent.end_memory := 21;
       Agent.traceback := "" |}
  = JDict [ ("success", JBool true);
            ("result", JNull);
            ("logs", JStr "");
            ("execution_time_ms", JInt 3);
            ("memory_used_mb", JInt 0) ].
Proof. vm_compute. reflexivity. Qed.

End AgentReplyFacts.

(** ** Retries of the deploy and undeploy tasks *)

Module RetryFacts.
Import Tasks.

Section Jobs.
Context {world : Type} {cluster : Kubernetes.Cluster world}.

Lemma mark_error_and_retry_outcome retries function_uuid e countdown db :
  fst (mark_error_and_retry retries function_uuid e countdown db)
  = if (retries <? 3)%nat then Retry e countdown else Done (failed (str e)).
Proof.
  unfold mark_error_and_retry, max_retries. destruct (retries <? 3)%nat; reflexivity.
Qed.

Lemma marked_error status retries e countdown db f :
  functions db !! Function.uuid f = Some f ->
  functions (snd (mark_error_and_retry retries (Function.uuid f) e countdown
                    (save_function status_column (Function.set_status status f) db)))
    !! Function.uuid f
  = Some (Function.set_status "error" f).
Proof.
  intros Hfound.
  destruct (LifecycleFacts.save_status_found status f db Hfound) as [Hf1 _].
  assert (Hfound1 : functions (save_function status_column (Function.set_status status f) db)
                      !! Function.uuid (Function.set_status status f)
                    = Some (Function.set_status status f))
    by (rewrite Hf1; apply lookup_insert_eq).
  pose proof (LifecycleFacts.mark_error_and_retry_found retries e countdown _ _ Hfound1)
    as Hmark.
  change (Function.uuid (Function.set_status status f)) with (Function.uuid f) in Hmark.
  rewrite Hmark.
  destruct (LifecycleFacts.save_status_found "error" _ _ Hfound1) as [Hf2 _].
  rewrite Hf2. apply lookup_insert_eq.
Qed.

(** A deploy that raises leaves the row in error and asks Celery for
another run sixty seconds later, until three retries have been used; the
fourth failure is returned as the result. *)
Theorem failed_deploy_is_retried retries now ns db (k k1 : Kubernetes.state) f e :
  functions db !! Function.uuid f = Some f ->
  Kubernetes.deploy_function (Function.uuid f) (Function.runtime f) (Function.code f)
    (depset_packages f) (Function.memory_mb f) (Function.timeout_seconds f)
    (Function.vcpu_count f) k = (Raise e, k1) ->
  let run := deploy_function_task retries (Function.uuid f) now ns db k in
  fst (fst run) = (if (retries <? 3)%nat then Retry e 60 else Done (failed (str e)))
  /\ snd run = k1
  /\ functions (snd (fst run)) !! Function.uuid f = Some (Function.set_status "error" f).
Proof.
  intros Hfound Hraised run. unfold run, deploy_function_task. rewrite Hfound.
  change (Kubernetes.deploy_function _ _ _ _ _ _ _ k)
    with (Kubernetes.deploy_function (Function.uuid f) (Function.runtime f)
            (Function.code f) (depset_packages f) (Function.memory_mb f)
            (Function.timeout_seconds f) (Function.vcpu_count f) k).
  rewrite Hraised.
  pose proof (mark_error_and_retry_outcome retries (Function.uuid f) e 60
                (save_function status_column (Function.set_status "deploying" f) db))
    as Hout.
  pose proof (marked_error "deploying" retries e 60 db f Hfound) as Hrow.
  destruct (mark_error_and_retry retries (Function.uuid f) e 60 _) as [out db2].
  simpl in Hout, Hrow. subst out. simpl. auto.
Qed.

(** An undeploy whose teardown raises leaves the row in error and is run
again thirty seconds later, until three retries have been used. *)
Theorem failed_undeploy_is_retried retries db (k k1 : Kubernetes.state) f name e :
  functions db !! Function.uuid f = Some f ->
  Function.deployment_name f = Some name ->
  name <> "" ->
  Kubernetes.delete_function name k = (Raise e, k1) ->
  let run := undeploy_function_task retries (Function.uuid f) db k in
  fst (fst run) = (if (retries <? 3)%nat then Retry e 30 else Done (failed (str e)))
  /\ snd run = k1
  /\ functions (snd (fst run)) !! Function.uuid f = Some (Function.set_status "error" f).
Proof.
  intros Hfound Hname Hnonempty Hraised run. unfold run, undeploy_function_task.
  rewrite Hfound.
  change (Function.deployment_name (Function.set_status "undeploying" f))
    with (Function.deployment_name f).
  rewrite Hname.
  assert (Htruthy : truthy (Some name) = true)
    by (destruct name; [congruence|reflexivity]).
  rewrite Htruthy. change (default "" (Some name)) with name. rewrite Hraised.
  pose proof (mark_error_and_retry_outcome retries (Function.uuid f) e 30
                (save_function status_column (Function.set_status "undeploying" f) db))
    as Hout.
  pose proof (marked_error "undeploying" retries e 30 db f Hfound) as Hrow.
  destruct (mark_error_and_retry retries (Function.uuid f) e 30 _) as [out db2].
  simpl in Hout, Hrow. subst out. simpl. auto.
Qed.

(** A function whose runtime has no image is never sent to the cluster:
the deploy task makes no call, marks the row as error and goes through its
retries all the same. *)
Theorem unsupported_runtime_makes_no_call retries now ns db (k : Kubernetes.state) f :
  functions db !! Function.uuid f = Some f ->
  assoc (Function.runtime f) Kubernetes.RUNTIME_IMAGES = None ->
  let run := deploy_function_task retries (Function.uuid f) now ns db k in
  let e := ValueError ("Unsupported runtime: " +:+ Function.runtime f) in
  fst (fst run) = (if (retries <? 3)%nat then Retry e 60 else Done (failed (str e)))
  /\ snd run = k
  /\ functions (snd (fst run)) !! Function.uuid f = Some (Function.set_status "error" f).
Proof.
  intros Hfound Himage run e. unfold run, deploy_function_task. rewrite Hfound.
  assert (Hraised :
            Kubernetes.deploy_function (Function.uuid f) (Function.runtime f)
              (Function.code f) (depset_packages f) (Function.memory_mb f)
              (Function.timeout_seconds f) (Function.vcpu_count f) k = (Raise e, k)).
  { unfold Kubernetes.deploy_function. rewrite Himage. reflexivity. }
  change (Kubernetes.deploy_function _ _ _ _ _ _ _ k)
    with (Kubernetes.deploy_function (Function.uuid f) (Function.runtime f)
            (Function.code f) (depset_packages f) (Function.memory_mb f)
            (Function.timeout_seconds f) (Function.vcpu_count f) k).
  rewrite Hraised.
  pose proof (mark_error_and_retry_outcome retries (Function.uuid f) e 60
                (save_function status_column (Function.set_status "deploying" f) db))
    as Hout.
  pose proof (marked_error "deploying" retries e 60 db f Hfound) as Hrow.
  destruct (mark_error_and_retry retries (Function.uuid f) e 60 _) as [out db2].
  simpl in Hout, Hrow. subst out. simpl. auto.
Qed.

End Jobs.

Lemma failed_deploy_is_retried_witness :
  let db := Samples.database [] in
  let e := Exception "Max retries exceeded with url" in
  let k1 : Kubernetes.state (world := unit) :=
    (tt, [ (Kubernetes.CreateConfigMap "func-0a1b2c3d" (Function.code Samples.hello),
            Kubernetes.Failure "Max retries exceeded with url") ]) in
  let run :=
    deploy_function_task (cluster := Samples.unreachable) 2
      (Function.uuid Samples.hello) (minutes 10) "fnbox-functions" db (tt, []) in
  functions db !! Function.uuid Samples.hello = Some Samples.hello
  /\ Kubernetes.deploy_function (cluster := Samples.unreachable)
       (Function.uuid Samples.hello) (Function.runtime Samples.hello)
       (Function.code Samples.hello) (depset_packages Samples.hello)
       (Function.memory_mb Samples.hello) (Function.timeout_seconds Samples.hello)
       (Function.vcpu_count Samples.hello) (tt, []) = (Raise e, k1)
  /\ fst (fst run) = (if (2 <? 3)%nat then Retry e 60 else Done (failed (str e)))
  /\ snd run = k1
  /\ functions (snd (fst run)) !! Function.uuid Samples.hello
     = Some (Function.set_status "error" Samples.hello).
Proof.
  intros db e k1 run.
  assert (H1 : functions db !! Function.uuid Samples.hello = Some Samples.hello)
    by (vm_compute; reflexivity).
  assert (H2 : Kubernetes.deploy_function (cluster := Samples.unreachable)
                 (Function.uuid Samples.hello) (Function.runtime Samples.hello)
                 (Function.code Samples.hello) (depset_packages Samples.hello)
                 (Function.memory_mb Samples.hello) (Function.timeout_seconds Samples.hello)
                 (Function.vcpu_count Samples.hello) (tt, []) = (Raise e, k1))
    by (vm_compute; reflexivity).
  split; [exact H1|]. split; [exact H2|].
  exact (failed_deploy_is_retried (cluster := Samples.unreachable) 2 (minutes 10)
           "fnbox-functions" db (tt, []) k1 Samples.hello e H1 H2).
Defined.

Lemma failed_undeploy_is_retried_witness :
  let db := Samples.database [] in
  let e := Exception "Max retries exceeded with url" in
  let k1 : Kubernetes.state (world := unit) :=
    (tt, [ (Kubernetes.DeleteHPA "func-0a1b2c3d-hpa",
            Kubernetes.Failure "Max retries exceeded with url") ]) in
  let run :=
    undeploy_function_task (cluster := Samples.unreachable) 3
      (Function.uuid Samples.hello) db (tt, []) in
  functions db !! Function.uuid Samples.hello = Some Samples.hello
  /\ Function.deployment_name Samples.hello = Some "func-0a1b2c3d"
  /\ "func-0a1b2c3d" <> ""
  /\ Kubernetes.delete_function (cluster := Samples.unreachable) "func-0a1b2c3d" (tt, [])
     = (Raise e, k1)
  /\ fst (fst run) = (if (3 <? 3)%nat then Retry e 30 else Done (failed (str e)))
  /\ snd run = k1
  /\ functions (snd (fst run)) !! Function.uuid Samples.hello
     = Some (Function.set_status "error" Samples.hello).
Proof.
  intros db e k1 run.
  assert (H1 : functions db !! Function.uuid Samples.hello = Some Samples.hello)
    by (vm_compute; reflexivity).
  assert (H2 : Function.deployment_name Samples.hello = Some "func-0a1b2c3d")
    by reflexivity.
  assert (H3 : "func-0a1b2c3d" <> "") by discriminate.
  assert (H4 : Kubernetes.delete_function (cluster := Samples.unreachable)
                 "func-0a1b2c3d" (tt, []) = (Raise e, k1))
    by (vm_compute; reflexivity).
  split; [exact H1|]. split; [exact H2|]. split; [exact H3|]. split; [exact H4|].
  exact (failed_undeploy_is_retried (cluster := Samples.unreachable) 3 db (tt, []) k1
           Samples.hello "func-0a1b2c3d" e H1 H2 H3 H4).
Defined.

Lemma unsupported_runtime_makes_no_call_witness :
  let db := Cases.ledger_database in
  let e := ValueError ("Unsupported runtime: " +:+ Function.runtime Cases.cobol) in
  let run :=
    deploy_function_task (cluster := Samples.healthy) 0
      (Function.uuid Cases.cobol) (minutes 10) "fnbox-functions" db (tt, []) in
  functions db !! Function.uuid Cases.cobol = Some Cases.cobol
  /\ assoc (Function.runtime Cases.cobol) Kubernetes.RUNTIME_IMAGES = None
  /\ fst (fst run) = (if (0 <? 3)%nat then Retry e 60 else Done (failed (str e)))
  /\ snd run = (tt, [])
  /\ functions (snd (fst run)) !! Function.uuid Cases.cobol
     = Some (Function.set_status "error" Cases.cobol).
Proof.
  intros db e run.
  assert (H1 : functions db !! Function.uuid Cases.cobol = Some Cases.cobol)
    by (vm_compute; reflexivity).
  assert (H2 : assoc (Function.runtime Cases.cobol) Kubernetes.RUNTIME_IMAGES = None)
    by (vm_compute; reflexivity).
  split; [exact H1|]. split; [exact H2|].
  exact (unsupported_runtime_makes_no_call (cluster := Samples.healthy) 0 (minutes 10)
           "fnbox-functions" db (tt, []) Cases.cobol H1 H2).
Defined.

End RetryFacts.

(** ** The status as a lock on the deploy and undeploy requests *)

Module RequestFacts.
Import Extra.

(** A deploy request that is accepted makes the same request fail with 400
until the task has moved the row on, and so does an undeploy request; a
request that is refused writes nothing. *)
Theorem accepted_request_locks_out_the_next f db :
  functions db !! Function.uuid f = Some f ->
  locks_out Api.deploy_function (Function.uuid f) db
  /\ locks_out Api.undeploy_function (Function.uuid f) db.
Proof.
  intros Hfound. split; unfold locks_out.
  - remember (Api.deploy_function (Function.uuid f) db) as first eqn:Hfirst.
    unfold Api.deploy_function in Hfirst. rewrite Hfound in Hfirst.
    destruct (String.eqb (Function.status f) "active"
              && truthy (Function.deployment_name f)); [subst first; reflexivity|].
    destruct (String.eqb (Function.status f) "deploying"); [subst first; reflexivity|].
    subst first. cbn [fst snd].
    destruct (LifecycleFacts.save_status_found "deploying" f db Hfound) as [Hrow _].
    unfold Api.deploy_function. rewrite Hrow, lookup_insert_eq.
    eexists. reflexivity.
  - remember (Api.undeploy_function (Function.uuid f) db) as first eqn:Hfirst.
    unfold Api.undeploy_function in Hfirst. rewrite Hfound in Hfirst.
    destruct (negb (truthy (Function.deployment_name f))
              && negb (String.eqb (Function.status f) "active"));
      [subst first; reflexivity|].
    destruct (String.eqb (Function.status f) "undeploying"); [subst first; reflexivity|].
    subst first. cbn [fst snd].
    destruct (LifecycleFacts.save_status_found "undeploying" f db Hfound) as [Hrow _].
    unfold Api.undeploy_function. rewrite Hrow, lookup_insert_eq.
    change (Function.deployment_name (Function.set_status "undeploying" f))
      with (Function.deployment_name f).
    change (Function.status (Function.set_status "undeploying" f)) with "undeploying".
    destruct (truthy (Function.deployment_name f)); eexists; reflexivity.
Qed.

Lemma accepted_request_locks_out_the_next_witness :
  functions Cases.ledger_database !! Function.uuid Cases.cobol = Some Cases.cobol
  /\ locks_out Api.deploy_function (Function.uuid Cases.cobol) Cases.ledger_database
  /\ locks_out Api.undeploy_function (Function.uuid Cases.cobol) Cases.ledger_database.
Proof.
  assert (H1 : functions Cases.ledger_database !! Function.uuid Cases.cobol
               = Some Cases.cobol) by (vm_compute; reflexivity).
  split; [exact H1|].
  exact (accepted_request_locks_out_the_next Cases.cobol Cases.ledger_database H1).
Defined.

End RequestFacts.

(** ** The readiness poll *)

Module ReadinessFacts.
Import Kubernetes Readiness Extra.

Section Poll.
Context {world : Type} {cluster : Cluster world} {clock : Clock world}.

(** One round of the loop, written out. *)
Lemma poll_S rounds name start timeout w log :
  poll (S rounds) name start timeout (w, log)
  = if time w - start <? timeout * 1000 then
      match respond (ReadDeployment name) w with
      | (Ok (PReady true), w') =>
          (Return (Some true), (w', log ++ [(ReadDeployment name, Ok (PReady true))]))
      | (Failure msg, w') =>
          (Raise (Exception msg), (w', log ++ [(ReadDeployment name, Failure msg)]))
      | (r, w') =>
          poll rounds name start timeout
            (snd (respond (Sleep 2) w'),
             (log ++ [(ReadDeployment name, r)]) ++ [(Sleep 2, Ok PNone)])
      end
    else (Return (Some false), (w, log)).
Proof.
  cbn [poll]. cbn [fst]. destruct (time w - start <? timeout * 1000); [|reflexivity].
  unfold bind at 1. unfold except_ApiException. unfold bind at 1. unfold api.
  destruct (respond (ReadDeployment name) w) as [[[| | |[]]|status|msg] w']; reflexivity.
Qed.

Lemma poll_run (Hclock : clock_runs cluster clock) name start timeout rounds :
  forall w log,
    timeout * 1000 <= time w - start + 2000 * Z.of_nat rounds ->
    poll_ended name start timeout rounds (w, log)
      (poll (S rounds) name start timeout (w, log)).
Proof.
  destruct Hclock as [Hmonotone Hsleeps].
  induction rounds as [|rounds IH]; intros w log Hbudget; rewrite poll_S.
  - destruct (Z.ltb_spec (time w - start) (timeout * 1000)) as [Hlt|Hge]; [lia|].
    split; [exists []; rewrite app_nil_r; repeat split; [constructor|simpl; lia]|].
    simpl. exact Hge.
  - destruct (Z.ltb_spec (time w - start) (timeout * 1000)) as [Hlt|Hge].
    2:{ split; [exists []; rewrite app_nil_r; repeat split; [constructor|simpl; lia]|].
        simpl. exact Hge. }
    pose proof (Hmonotone (ReadDeployment name) w) as Hread.
    destruct (respond (ReadDeployment name) w) as [r w'] eqn:Hrespond.
    simpl snd in Hread.
    pose proof (Hsleeps 2 w') as Hslept.
    assert (Hagain : forall r0,
               poll_ended name start timeout (S rounds) (w, log)
                 (poll (S rounds) name start timeout
                    (snd (respond (Sleep 2) w'),
                     (log ++ [(ReadDeployment name, r0)]) ++ [(Sleep 2, Ok PNone)]))).
    { intros r0.
      destruct (IH (snd (respond (Sleep 2) w'))
                  ((log ++ [(ReadDeployment name, r0)]) ++ [(Sleep 2, Ok PNone)]))
        as [(added & Hlog & Hentries & Hlength) Hend]; [lia|].
      split; [|exact Hend].
      exists ([(ReadDeployment name, r0); (Sleep 2, Ok PNone)] ++ added).
      split; [rewrite Hlog; simpl; rewrite <- !app_assoc; reflexivity|].
      split.
      - apply Forall_app. split; [|exact Hentries].
        constructor; [left; reflexivity|]. constructor; [right; reflexivity|constructor].
      - rewrite length_app. simpl. lia. }
    destruct r as [p|status|msg]; [destruct p as [| | |[]]| |];
      try apply Hagain.
    + split.
      * exists [(ReadDeployment name, Ok (PReady true))].
        split; [reflexivity|]. split; [|simpl; lia].
        constructor; [left; reflexivity|constructor].
      * simpl. apply last_snoc.
    + split.
      * exists [(ReadDeployment name, Failure msg)].
        split; [reflexivity|]. split; [|simpl; lia].
        constructor; [left; reflexivity|constructor].
      * simpl. exists msg. split; [reflexivity|apply last_snoc].
Qed.

(** On a cluster whose clock runs, the readiness poll ends within
[timeout / 2] rounds of a read and a two-second sleep: it returns true on
the first read that shows a ready replica, gives up with false only when the
budget has elapsed on the clock, and raises only what a read raised other
than an [ApiException]; it makes no call but these reads and sleeps. *)
Theorem wait_for_deployment_ends rounds name timeout (s : state) :
  clock_runs cluster clock ->
  timeout <= 2 * Z.of_nat rounds ->
  poll_ended name (time (fst s)) timeout rounds s
    (Readiness._wait_for_deployment (S rounds) name timeout s).
Proof.
  intros Hclock Hrounds. destruct s as [w log]. unfold Readiness._wait_for_deployment.
  cbn [fst]. apply (poll_run Hclock). lia.
Qed.

End Poll.

Lemma wait_for_deployment_ends_witness :
  clock_runs Cases.never_ready Cases.wall_clock
  /\ 60 <= 2 * Z.of_nat 30
  /\ poll_ended (clock := Cases.wall_clock) "func-0a1b2c3d" 0 60 30 (0, [])
       (Readiness._wait_for_deployment (cluster := Cases.never_ready)
          (clock := Cases.wall_clock) 31 "func-0a1b2c3d" 60 (0, [])).
Proof.
  assert (H1 : clock_runs Cases.never_ready Cases.wall_clock).
  { split; [intros c w; destruct c|intros seconds w];
      unfold Readiness.time, Kubernetes.respond, Cases.never_ready, Cases.wall_clock;
      simpl; lia. }
  assert (H2 : 60 <= 2 * Z.of_nat 30) by lia.
  split; [exact H1|]. split; [exact H2|].
  exact (wait_for_deployment_ends (cluster := Cases.never_ready)
           (clock := Cases.wall_clock) 30 "func-0a1b2c3d" 60 (0, []) H1 H2).
Defined.

(** On that cluster a budget of sixty seconds is used up by thirty reads
and sleeps, and the poll reports that the deployment is not ready. *)
Example poll_gives_up_after_the_budget :
  let run :=
    Readiness._wait_for_deployment (cluster := Cases.never_ready)
      (clock := Cases.wall_clock) 31 "func-0a1b2c3d" 60 (0, []) in
  fst run = Return (Some false)
  /\ fst (snd run) = 61200
  /\ length (snd (snd run)) = 60%nat.
Proof. vm_compute. repeat split. Qed.

End ReadinessFacts.

(** ** The invocation, deletion and trigger endpoints *)

Module EndpointFacts.
Import Endpoints Extra.

(** The public endpoint applies neither the circuit breaker nor the limit
on concurrent invocations: for a deployed function it writes what the tasks
write once past their guards.  Where the tasks end without an invocation id
(the generated request id is taken, or the row could not be saved after the
call), the exception leaves the view and the answer is 500; in particular a
request id that is taken is answered 500 with nothing written. *)
Theorem invoke_function_sync_is_not_guarded func event env db :
  functions db !! Function.uuid func = Some func ->
  Spec.deployed func = true ->
  let run := invoke_function_sync true (Function.uuid func) event env db in
  let task :=
    Tasks.create_and_invoke func event (Tasks.generated_request_id env) env db in
  snd run = snd task
  /\ ((exists error, fst task = Tasks.Done (Tasks.rejected error)) ->
      exists detail, fst run = Api.HttpError 500 detail)
  /\ (~ request_id_free env db ->
      exists detail, run = (Api.HttpError 500 detail, db)).
Proof.
  intros Hfound Hdeployed run task.
  unfold run, task, invoke_function_sync, Tasks.create_and_invoke.
  rewrite Hfound. cbn [negb].
  unfold Spec.deployed in Hdeployed. apply andb_true_iff in Hdeployed as [-> ->].
  cbn [negb orb]. unfold request_id_free.
  destruct (existsb _ (invocations db)) eqn:Hfree.
  { split; [reflexivity|]. split; intros _; eexists; reflexivity. }
  assert (Hexc : forall inv e db0 (answer : Api.response),
             let handled :=
               match Tasks.save_error (Tasks.errored inv e env) with
               | Some _ => (Api.HttpError 500 "Internal Server Error", db0)
               | None => (answer, Tasks.save_invocation (Tasks.errored inv e env) db0)
               end in
             snd handled = snd (Tasks.record_exception inv e env db0)
             /\ ((exists error,
                    fst (Tasks.record_exception inv e env db0)
                    = Tasks.Done (Tasks.rejected error)) ->
                 exists detail, fst handled = Api.HttpError 500 detail)
             /\ (~ false = false -> exists detail, handled = (Api.HttpError 500 detail, db))).
  { intros inv e db0 answer. cbv zeta. unfold Tasks.record_exception.
    destruct (Tasks.save_error (Tasks.errored inv e env)).
    - split; [reflexivity|]. split; [intros _; eexists; reflexivity|].
      intros H. exfalso. apply H. reflexivity.
    - split; [reflexivity|]. split; [|intros H; exfalso; apply H; reflexivity].
      intros [error Herror]. discriminate Herror. }
  destruct (Kubernetes.invoke_function _ _ _ _ _ _) as [result|e]; [|apply Hexc].
  destruct result as [| | | | |result]; try apply Hexc.
  destruct (Tasks.duration_of result (Tasks.execution_time env)) as [duration|e];
    [|apply Hexc].
  destruct (Tasks.save_error _) as [e|]; [apply Hexc|].
  split; [reflexivity|]. split; [|intros H; exfalso; apply H; reflexivity].
  intros [error Herror]. discriminate Herror.
Qed.

Lemma invoke_function_sync_is_not_guarded_witness :
  let env := Samples.surroundings Kubernetes.PostTimeout in
  let run :=
    invoke_function_sync true (Function.uuid Samples.hello) [] env Samples.failing in
  let task :=
    Tasks.create_and_invoke Samples.hello [] (Tasks.generated_request_id env) env
      Samples.failing in
  functions Samples.failing !! Function.uuid Samples.hello = Some Samples.hello
  /\ Spec.deployed Samples.hello = true
  /\ snd run = snd task
  /\ ((exists error, fst task = Tasks.Done (Tasks.rejected error)) ->
      exists detail, fst run = Api.HttpError 500 detail)
  /\ (~ request_id_free env Samples.failing ->
      exists detail, run = (Api.HttpError 500 detail, Samples.failing)).
Proof.
  intros env run task.
  assert (H1 : functions Samples.failing !! Function.uuid Samples.hello
               = Some Samples.hello) by (vm_compute; reflexivity).
  assert (H2 : Spec.deployed Samples.hello = true) by reflexivity.
  split; [exact H1|]. split; [exact H2|].
  exact (invoke_function_sync_is_not_guarded Samples.hello [] env Samples.failing H1 H2).
Defined.

(** An agent that answers with a null log: the row cannot be saved, neither
by the view nor by its exception handler, so the request is answered 500 and
the task returns no invocation id; both leave the row they added running. *)
Example null_logs_leave_the_row_running :
  let env := Samples.surroundings (Kubernetes.PostResponse Cases.null_logs) in
  let db := Samples.database [] in
  let run := invoke_function_sync true (Function.uuid Samples.hello) [] env db in
  let task := Tasks.invoke_function_task (Function.uuid Samples.hello) [] None env db in
  fst run = Api.HttpError 500 "Internal Server Error"
  /\ fst task
     = Tasks.Done (Tasks.rejected
                     "NOT NULL constraint failed: functions_functioninvocation.logs")
  /\ snd run = snd task
  /\ map FunctionInvocation.status (invocations (snd task)) = ["running"].
Proof. vm_compute. repeat split. Qed.

(** With the circuit breaker open and five invocations running, the task is
turned down and the endpoint goes through to the agent and adds a row. *)
Example endpoint_passes_where_the_task_is_rejected :
  let env := Samples.surroundings Kubernetes.PostTimeout in
  Tasks.circuit_breaker_open Samples.hello (Tasks.now env) Samples.failing = true
  /\ Tasks.invoke_function_task (Function.uuid Samples.hello) [] None env Samples.failing
     = (Tasks.Done (Tasks.rejected Tasks.high_failure_rate), Samples.failing)
  /\ length (invocations
               (snd (invoke_function_sync true (Function.uuid Samples.hello) [] env
                       Samples.failing))) = 11%nat
  /\ Tasks.running_invocations Samples.hello Samples.busy = 5%nat
  /\ length (invocations
               (snd (invoke_function_sync true (Function.uuid Samples.hello) [] env
                       Samples.busy))) = 7%nat.
Proof. vm_compute. repeat split. Qed.

(** The cascade of [post_delete] receivers touches periodic tasks only. *)
Lemma foldl_delete_scheduled_trigger owned db :
  let db' := foldl (fun db t => delete_scheduled_trigger t db) db owned in
  functions db' = functions db
  /\ invocations db' = invocations db
  /\ triggers db' = triggers db
  /\ (forall t, t ∈ owned -> periodic_tasks db' !! task_name_of t = None)
  /\ (forall task_name,
        (forall t, t ∈ owned -> task_name_of t <> task_name) ->
        periodic_tasks db' !! task_name = periodic_tasks db !! task_name).
Proof.
  revert db. induction owned as [|t owned IH]; intros db.
  - simpl. repeat split; try reflexivity. intros t Ht. inversion Ht.
  - cbn [foldl]. cbv zeta in IH.
    destruct (IH (delete_scheduled_trigger t db)) as (Hf & Hi & Ht & Hgone & Hkept).
    cbv zeta. rewrite Hf, Hi, Ht. repeat split; try reflexivity.
    + intros t' [->|Hin]%elem_of_cons; [|exact (Hgone t' Hin)].
      destruct (decide (Forall (fun o => task_name_of o <> task_name_of t) owned))
        as [Hfresh|Hdup].
      * rewrite Hkept; [apply lookup_delete_eq|].
        intros o Ho. rewrite Forall_forall in Hfresh. exact (Hfresh o Ho).
      * apply not_Forall_Exists in Hdup; [|intros o; apply _].
        apply Exists_exists in Hdup as (o & Ho & Hsame).
        apply dec_stable in Hsame. rewrite <- Hsame. exact (Hgone o Ho).
    + intros task_name Hother. rewrite Hkept.
      * unfold delete_scheduled_trigger. cbn [periodic_tasks with_periodic_tasks].
        apply lookup_delete_ne. apply Hother. apply elem_of_cons. left. reflexivity.
      * intros o Ho. apply Hother. apply elem_of_cons. right. exact Ho.
Qed.

(** A function is deleted only as a draft, inactive or in error; otherwise
the request is refused with 400 and nothing is written.  A deletion takes
the row, its invocations and its triggers, and the periodic task of each of
these triggers, and leaves everything else in place. *)
Theorem delete_function_leaves_nothing function db :
  functions db !! Function.uuid function = Some function ->
  let run := delete_function (Function.uuid function) db in
  if bool_decide (Function.status function ∈ ["draft"; "inactive"; "error"])
  then (exists body, fst run = Api.Accepted body) /\ gone function db (snd run)
  else run = (Api.HttpError 400 "Function must be undeployed before deletion", db).
Proof.
  intros Hfound run. unfold run, delete_function. rewrite Hfound.
  destruct (bool_decide _); cbn [negb]; [|reflexivity].
  split; [eexists; reflexivity|]. cbn [snd]. unfold gone, delete_function_row.
  match goal with
  | |- context [foldl _ ?d ?l] =>
      destruct (foldl_delete_scheduled_trigger l d) as (Hf & Hi & Ht & Hgone & Hkept)
  end.
  cbv zeta in Hf, Hi, Ht, Hgone, Hkept. rewrite Hf, Hi, Ht. cbn [functions invocations triggers].
  split; [apply lookup_delete_eq|].
  split; [intros other Hother; apply lookup_delete_ne; congruence|].
  split; [intros row; rewrite list_elem_of_filter; tauto|].
  split; [intros t; rewrite list_elem_of_filter; tauto|].
  split.
  - intros t Hin Howned. apply Hgone. apply list_elem_of_filter. split; assumption.
  - intros task_name Hother. rewrite Hkept; [reflexivity|].
    intros t [Howned Hin]%list_elem_of_filter. exact (Hother t Hin Howned).
Qed.

Lemma delete_function_leaves_nothing_witness :
  let function :=
    Function.set_status "draft" (Function.set_binding None None None Samples.hello) in
  let run := delete_function (Function.uuid function) Cases.retired in
  functions Cases.retired !! Function.uuid function = Some function
  /\ if bool_decide (Function.status function ∈ ["draft"; "inactive"; "error"])
     then (exists body, fst run = Api.Accepted body) /\ gone function Cases.retired (snd run)
     else run = (Api.HttpError 400 "Function must be undeployed before deletion",
                 Cases.retired).
Proof.
  intros function run.
  assert (H1 : functions Cases.retired !! Function.uuid function = Some function)
    by (vm_compute; reflexivity).
  split; [exact H1|].
  exact (delete_function_leaves_nothing function Cases.retired H1).
Defined.

(** The deletion of the retired sample empties every table. *)
Example delete_retired_sample :
  let db' := snd (delete_function (Function.uuid Samples.hello) Cases.retired) in
  functions db' = ∅ /\ invocations db' = [] /\ triggers db' = []
  /\ periodic_tasks db' = ∅.
Proof. vm_compute. repeat split. Qed.

(** A trigger that an undeployment switched off comes back by request:
when its function is active and no two crontabs on record have the same
fields, a scheduled trigger with a valid schedule that is updated to enabled
is stored as enabled and its periodic task is registered and enabled. *)
Theorem update_trigger_switches_on trigger_id db t schedule cron func :
  find (fun row => String.eqb (FunctionTrigger.uuid row) trigger_id) (triggers db) = Some t ->
  unique_names db ->
  FunctionTrigger.trigger_type t = "scheduled" ->
  FunctionTrigger.schedule t = Some schedule ->
  schedule <> "" ->
  parse_cron_expression schedule = Return cron ->
  functions db !! FunctionTrigger.function t = Some func ->
  Function.status func = "active" ->
  NoDup (crontabs db) ->
  let run := update_trigger trigger_id switch_on db in
  fst run = Api.Accepted (trigger_out (FunctionTrigger.set_enabled true t))
  /\ FunctionTrigger.set_enabled true t ∈ triggers (snd run)
  /\ exists job,
       periodic_tasks (snd run) !! task_name_of t = Some job
       /\ PeriodicTask.enabled job = true
       /\ PeriodicTask.crontab job = cron.
Proof.
  intros Hfind Hunique Hkind Hschedule Hnonempty Hcron Hfunc Hactive Hnodup run.
  unfold run. destruct (find_some _ _ Hfind) as [Hin Huuid].
  set (t' := FunctionTrigger.set_enabled true t).
  assert (Hrun :
            update_trigger trigger_id switch_on db
            = if existsb
                   (fun row =>
                      negb (Nat.eqb (FunctionTrigger.id row) (FunctionTrigger.id t'))
                      && String.eqb (FunctionTrigger.function row)
                           (FunctionTrigger.function t')
                      && String.eqb (FunctionTrigger.name row) (FunctionTrigger.name t'))
                   (triggers db)
              then (Api.HttpError 500 "Internal Server Error", db)
              else (Api.Accepted (trigger_out t'),
                    manage_scheduled_trigger t'
                      (with_triggers
                         (map (fun row =>
                                 if Nat.eqb (FunctionTrigger.id row) (FunctionTrigger.id t')
                                 then t' else row)
                              (triggers db))
                         db))).
  { unfold update_trigger. rewrite Hfind. reflexivity. }
  assert (Hfree : existsb
                    (fun row =>
                       negb (Nat.eqb (FunctionTrigger.id row) (FunctionTrigger.id t'))
                       && String.eqb (FunctionTrigger.function row)
                            (FunctionTrigger.function t')
                       && String.eqb (FunctionTrigger.name row) (FunctionTrigger.name t'))
                    (triggers db) = false).
  { apply not_true_is_false. intros (row & Hrow & Hclash)%existsb_exists.
    apply andb_true_iff in Hclash as [Hclash Hname].
    apply andb_true_iff in Hclash as [Hid Hfn].
    apply String.eqb_eq in Hname, Hfn. apply negb_true_iff, Nat.eqb_neq in Hid.
    apply Hid. apply (Hunique row t); [apply list_elem_of_In; exact Hrow
                                      |apply list_elem_of_In; exact Hin
                                      |exact Hfn|exact Hname]. }
  rewrite Hrun, Hfree. split; [reflexivity|]. cbn [snd].
  assert (Hstored : t' ∈ map (fun row =>
                                if Nat.eqb (FunctionTrigger.id row) (FunctionTrigger.id t')
                                then t' else row) (triggers db)).
  { apply list_elem_of_fmap. exists t. split; [|apply list_elem_of_In; exact Hin].
    change (FunctionTrigger.id t') with (FunctionTrigger.id t).
    rewrite Nat.eqb_refl. reflexivity. }
  assert (Htruthy : truthy (Some schedule) = true)
    by (destruct schedule; [congruence|reflexivity]).
  set (db0 := with_triggers _ db) in *.
  destruct (TriggerFacts.manage_scheduled_trigger_cases t' db0)
    as [[Hno _]|[(_ & [[e He]|(cron' & _ & Hmany)] & _)
                |(_ & cron' & Hparse & _ & Hcase)]].
  - unfold schedulable in Hno.
    change (FunctionTrigger.trigger_type t') with (FunctionTrigger.trigger_type t) in Hno.
    change (FunctionTrigger.schedule t') with (FunctionTrigger.schedule t) in Hno.
    change (FunctionTrigger.enabled t') with true in Hno.
    rewrite Hkind, Hschedule, Htruthy in Hno. discriminate Hno.
  - change (FunctionTrigger.schedule t') with (FunctionTrigger.schedule t) in He.
    rewrite Hschedule in He. change (default "" (Some schedule)) with schedule in He.
    congruence.
  - change (crontabs db0) with (crontabs db) in Hmany.
    pose proof (CrontabFacts.found_at_most_one cron' _ Hnodup). lia.
  - change (FunctionTrigger.schedule t') with (FunctionTrigger.schedule t) in Hparse.
    rewrite Hschedule in Hparse. change (default "" (Some schedule)) with schedule in Hparse.
    assert (cron' = cron) by congruence. subst cron'.
    cbv zeta in Hcase.
    change (functions db0) with (functions db) in Hcase.
    change (FunctionTrigger.function t') with (FunctionTrigger.function t) in Hcase.
    rewrite Hfunc in Hcase. destruct Hcase as (job & Hcrontab & _ & Henabled & Hsaved).
    rewrite Hsaved. split.
    + destruct (bool_decide (cron ∈ crontabs db0)); exact Hstored.
    + exists job. split; [apply lookup_insert_eq|].
      split; [rewrite Henabled, Hactive; reflexivity|exact Hcrontab].
Qed.

Lemma update_trigger_switches_on_witness :
  let db := Cases.switched_off in
  let t := Samples.trigger 1 "aaaa" "scheduled" false in
  let run := update_trigger "aaaa" switch_on db in
  find (fun row => String.eqb (FunctionTrigger.uuid row) "aaaa") (triggers db) = Some t
  /\ unique_names db
  /\ FunctionTrigger.trigger_type t = "scheduled"
  /\ FunctionTrigger.schedule t = Some "*/5 * * * *"
  /\ "*/5 * * * *" <> ""
  /\ parse_cron_expression "*/5 * * * *" = Return Samples.every_five_minutes
  /\ functions db !! FunctionTrigger.function t = Some Samples.hello
  /\ Function.status Samples.hello = "active"
  /\ NoDup (crontabs db)
  /\ fst run = Api.Accepted (trigger_out (FunctionTrigger.set_enabled true t))
  /\ FunctionTrigger.set_enabled true t ∈ triggers (snd run)
  /\ exists job,
       periodic_tasks (snd run) !! task_name_of t = Some job
       /\ PeriodicTask.enabled job = true
       /\ PeriodicTask.crontab job = Samples.every_five_minutes.
Proof.
  intros db t run.
  assert (H1 : find (fun row => String.eqb (FunctionTrigger.uuid row) "aaaa") (triggers db)
               = Some t) by (vm_compute; reflexivity).
  assert (H2 : unique_names db).
  { intros a b Ha Hb _ Hname.
    repeat (apply elem_of_cons in Ha as [->|Ha]);
      repeat (apply elem_of_cons in Hb as [->|Hb]);
      try (inversion Ha); try (inversion Hb);
      try reflexivity; vm_compute in Hname; discriminate Hname. }
  assert (H3 : FunctionTrigger.trigger_type t = "scheduled") by reflexivity.
  assert (H4 : FunctionTrigger.schedule t = Some "*/5 * * * *") by reflexivity.
  assert (H5 : "*/5 * * * *" <> "") by discriminate.
  assert (H6 : parse_cron_expression "*/5 * * * *" = Return Samples.every_five_minutes)
    by (vm_compute; reflexivity).
  assert (H7 : functions db !! FunctionTrigger.function t = Some Samples.hello)
    by (vm_compute; reflexivity).
  assert (H8 : Function.status Samples.hello = "active") by reflexivity.
  split; [exact H1|]. split; [exact H2|]. split; [exact H3|]. split; [exact H4|].
  assert (H9 : NoDup (crontabs db)) by (vm_compute; apply NoDup_singleton).
  split; [exact H5|]. split; [exact H6|]. split; [exact H7|]. split; [exact H8|].
  split; [exact H9|].
  exact (update_trigger_switches_on "aaaa" db t "*/5 * * * *" Samples.every_five_minutes
           Samples.hello H1 H2 H3 H4 H5 H6 H7 H8 H9).
Defined.

End EndpointFacts.

(** ** The circuit breaker and the rows the tasks write *)

Module BreakerFacts.
Import Tasks Spec Extra.


Lemma filter_all {A} (P : A -> Prop) `{forall x, Decision (P x)} l :
  Forall P l -> filter P l = l.
Proof.
  induction 1 as [|x l Hx _ IH]; [reflexivity|].
  rewrite filter_cons, decide_True by exact Hx. rewrite IH. reflexivity.
Qed.

Lemma filter_none {A} (P : A -> Prop) `{forall x, Decision (P x)} l :
  Forall (fun x => ~ P x) l -> filter P l = [].
Proof.
  induction 1 as [|x l Hx _ IH]; [reflexivity|].
  rewrite filter_cons, decide_False by exact Hx. exact IH.
Qed.








End BreakerFacts.

(** ** What a deployment asks of the cluster *)

Module DeployFacts.
Import Kubernetes Spec Extra.

(** Every call of [deploy_function] is the creation of one of the objects
of the function, named after the first eight characters of its id, the
readiness poll of its deployment or the list of its pods: nothing is ever
deleted, so a deployment that fails leaves what it created.  When it
returns, the names it reports are those names and the last call was the pod
list. *)
Theorem deploy_function_names_its_objects {world} {cluster : Cluster world}
    function_id runtime code dependencies memory_mb timeout_seconds vcpu_count
    (w : world) :
  let name := "func-" +:+ prefix_of_length 8 function_id in
  let run := deploy_function function_id runtime code dependencies
               memory_mb timeout_seconds vcpu_count (w, []) in
  Forall (deploy_object function_id name code (assoc runtime RUNTIME_IMAGES) dependencies)
    (calls_of run)
  /\ match result_of run with
     | Return info =>
         info_deployment_name info = name
         /\ info_service_name info = name +:+ "-svc"
         /\ info_status info = "running"
         /\ last (calls_of run) = Some (ListPods ("app=" +:+ name))
     | Raise _ => True
     end.
Proof.
  unfold deploy_function, calls_of, log_of, result_of.
  generalize (assoc runtime RUNTIME_IMAGES) as image.
  generalize ("func-" +:+ prefix_of_length 8 function_id) as deployment_name.
  intros deployment_name image. cbv zeta.
  destruct image as [image|]; [destruct image as [|c image]|];
    try (split; [constructor|exact I]).
  unfold bind, _create_function_configmap, _create_deployment, _create_service,
    _create_hpa, _wait_for_deployment, except_ApiException, bind, api, ret, raise.
  simpl.
  repeat KubernetesFacts.step_cluster;
    (split;
     [repeat (constructor; [repeat split; reflexivity|]); constructor
     |try exact I; repeat split; reflexivity]).
Qed.

(** When the cluster already holds the deployment, a deployment of the
function cannot succeed: the creation is answered with 409 and is not
retried as a patch, unlike that of the config map, so [deploy_function]
raises before it creates the service or the autoscaler. *)
Theorem deploy_function_is_not_repeatable {world} {cluster : Cluster world}
    function_id runtime code dependencies memory_mb timeout_seconds vcpu_count
    (w : world) :
  (forall body w0, fst (respond (CreateDeployment body) w0) = ApiError 409) ->
  let run := deploy_function function_id runtime code dependencies
               memory_mb timeout_seconds vcpu_count (w, []) in
  returns (result_of run) = false
  /\ Forall before_the_service (calls_of run).
Proof.
  intros Hexists. unfold deploy_function, calls_of, log_of, result_of.
  generalize (assoc runtime RUNTIME_IMAGES) as image.
  generalize ("func-" +:+ prefix_of_length 8 function_id) as deployment_name.
  intros deployment_name image. cbv zeta.
  destruct (negb (truthy image)); [split; [reflexivity|constructor]|].
  unfold bind, _create_function_configmap, _create_deployment, _create_service,
    _create_hpa, _wait_for_deployment, except_ApiException, bind, api, ret, raise.
  simpl.
  repeat
    match goal with
    | |- context [respond (CreateDeployment ?body) ?w0] =>
        let H := fresh "H" in
        pose proof (Hexists body w0) as H;
        destruct (respond (CreateDeployment body) w0); simpl in H; subst; simpl
    | _ => KubernetesFacts.step_cluster
    end;
    (split; [reflexivity|repeat (constructor; [exact I|]); constructor]).
Qed.

Lemma deploy_function_is_not_repeatable_witness :
  let run :=
    deploy_function (cluster := Cases.occupied) "0a1b2c3d-0000-4000-8000-000000000000"
      "python3.11" "def handler(event, context): return 1" [] 128 30 1 (tt, []) in
  (forall body w0,
      fst (respond (Cluster := Cases.occupied) (CreateDeployment body) w0) = ApiError 409)
  /\ returns (result_of run) = false
  /\ Forall before_the_service (calls_of run).
Proof.
  intros run.
  assert (H1 : forall body w0,
             fst (respond (Cluster := Cases.occupied) (CreateDeployment body) w0)
             = ApiError 409) by (intros; reflexivity).
  split; [exact H1|].
  exact (deploy_function_is_not_repeatable (cluster := Cases.occupied)
           "0a1b2c3d-0000-4000-8000-000000000000" "python3.11"
           "def handler(event, context): return 1" [] 128 30 1 tt H1).
Defined.

(** On that cluster the config map is patched and the deployment is
refused. *)
Example deploy_on_occupied_cluster :
  let run :=
    deploy_function (cluster := Cases.occupied) "0a1b2c3d-0000-4000-8000-000000000000"
      "python3.11" "def handler(event, context): return 1" [] 128 30 1 (tt, []) in
  result_of run = Raise (ApiException 409)
  /\ length (calls_of run) = 3%nat.
Proof. vm_compute. split; reflexivity. Qed.

Lemma prefix_append a b : String.prefix a (a +:+ b) = true.
Proof.
  induction a as [|c a IH]; [destruct b; reflexivity|].
  rewrite CronFacts.append_cons. cbn [String.prefix].
  destruct (ascii_dec c c); [exact IH|congruence].
Qed.

Lemma prefix_refl a : String.prefix a a = true.
Proof.
  induction a as [|c a IH]; [reflexivity|]. cbn [String.prefix].
  destruct (ascii_dec c c); [exact IH|congruence].
Qed.

Lemma format_package_entry runtime_type pkg :
  entry_of (Tasks.format_package runtime_type pkg) (runtime_type, pkg).
Proof.
  unfold entry_of. cbn [fst snd]. split; [reflexivity|]. unfold Tasks.format_package.
  destruct (Package.version_spec pkg) as [|c version] eqn:Hversion.
  - change (truthy (Some "")) with false. cbv iota.
    split; [apply prefix_refl|intros _; reflexivity].
  - change (truthy (Some (String c version))) with true. cbv iota.
    split; [|discriminate].
    destruct (existsb _ _); [apply prefix_append|].
    destruct (String.eqb runtime_type "python"); [apply prefix_append|].
    destruct (String.eqb runtime_type "nodejs"); [apply prefix_append|].
    destruct (String.eqb runtime_type "ruby"); apply prefix_append.
Qed.

(** The dependency list of the deploy task has one entry for each package
of each depset of the function, in order and with repetitions, each entry
starting with the name of its package; so the readiness budget of the
deployment is sixty seconds plus ten for every such package, three hundred
at most. *)
Theorem depset_packages_one_per_package func :
  Forall2 entry_of (Tasks.depset_packages func) (packages_of func)
  /\ deployment_timeout (Tasks.depset_packages func)
     = Z.min (60 + 10 * Z.of_nat (length (packages_of func))) 300.
Proof.
  assert (Hentries : Forall2 entry_of (Tasks.depset_packages func) (packages_of func)).
  { unfold Tasks.depset_packages, packages_of.
    induction (Function.depsets func) as [|depset rest IH]; [constructor|].
    cbn [flat_map]. apply Forall2_app; [|exact IH].
    induction (Depset.packages depset) as [|pkg pkgs IHp]; [constructor|].
    cbn [map]. constructor; [apply format_package_entry|exact IHp]. }
  split; [exact Hentries|].
  unfold deployment_timeout. rewrite (Forall2_length _ _ _ Hentries). f_equal. lia.
Qed.

End DeployFacts.

(** ** Creating and deleting a trigger *)

Module TriggerRoundTripFacts.
Import Endpoints Extra.

Lemma next_trigger_id_above db row :
  row ∈ triggers db -> (FunctionTrigger.id row < next_trigger_id db)%nat.
Proof.
  unfold next_trigger_id. induction (triggers db) as [|r l IH]; intros Hin; [inversion Hin|].
  simpl. apply elem_of_cons in Hin as [->|Hin]; [lia|]. specialize (IH Hin). lia.
Qed.

Lemma find_last {A} (f : A -> bool) l x :
  Forall (fun y => f y = false) l -> f x = true -> find f (l ++ [x]) = Some x.
Proof.
  intros Hl Hx. induction Hl as [|y l Hy _ IH]; simpl; [rewrite Hx; reflexivity|].
  rewrite Hy. exact IH.
Qed.

(** What the [post_save] receiver leaves of the tables, up to the periodic
task of the trigger. *)
Lemma manage_scheduled_trigger_frame t db :
  let db' := manage_scheduled_trigger t db in
  functions db' = functions db
  /\ invocations db' = invocations db
  /\ triggers db' = triggers db
  /\ function_saves db' = function_saves db
  /\ crontabs db ⊆ crontabs db'
  /\ delete (task_name_of t) (periodic_tasks db') = delete (task_name_of t) (periodic_tasks db).
Proof.
  cbv zeta.
  destruct (TriggerFacts.manage_scheduled_trigger_cases t db)
    as [[_ ->]|[(_ & _ & ->)|(_ & cron & _ & _ & H)]].
  - simpl. rewrite (delete_id (delete _ _)) by apply lookup_delete_eq.
    repeat split; try done.
  - repeat split; try done.
  - cbv zeta in H.
    assert (Hsub : crontabs db ⊆ crontabs db ++ [cron])
      by (intros x Hx; apply elem_of_app; left; exact Hx).
    destruct (functions db !! FunctionTrigger.function t) as [func|].
    + destruct H as (job & _ & _ & _ & ->). simpl. rewrite delete_insert_eq.
      destruct (bool_decide (cron ∈ crontabs db)); simpl; repeat split; try done.
    + rewrite H. destruct (bool_decide (cron ∈ crontabs db)); simpl; repeat split;
        try done.
Qed.

(** A trigger that is created and then deleted leaves the tables of
functions, invocations and triggers as they were and no periodic task under
its name; all that may stay behind is the crontab of its schedule.  A
request to create that is refused writes nothing. *)
Theorem create_then_delete_trigger function_id payload new_uuid db :
  let created := create_trigger function_id payload new_uuid db in
  match fst created with
  | Api.HttpError _ _ => snd created = db
  | Api.Accepted _ =>
      let deleted := delete_trigger new_uuid (snd created) in
      (exists body, fst deleted = Api.Accepted body)
      /\ functions (snd deleted) = functions db
      /\ invocations (snd deleted) = invocations db
      /\ triggers (snd deleted) = triggers db
      /\ crontabs db ⊆ crontabs (snd deleted)
      /\ periodic_tasks (snd deleted)
         = delete ("trigger-" +:+ new_uuid) (periodic_tasks db)
  end.
Proof.
  cbv zeta. unfold create_trigger.
  destruct (functions db !! function_id) as [func|]; [|reflexivity].
  destruct (negb (bool_decide _)); [reflexivity|].
  destruct (_ && negb _); [reflexivity|].
  destruct (existsb _ (triggers db)) eqn:Hclash; [reflexivity|].
  cbn [fst snd].
  set (t := {| FunctionTrigger.id := next_trigger_id db |}).
  set (db0 := with_triggers (triggers db ++ [t]) db).
  destruct (manage_scheduled_trigger_frame t db0) as (Hf & Hi & Ht & _ & Hc & Hp).
  cbv zeta in Hf, Hi, Ht, Hc, Hp.
  assert (Hfind : find (fun row => String.eqb (FunctionTrigger.uuid row) new_uuid)
                    (triggers (manage_scheduled_trigger t db0)) = Some t).
  { rewrite Ht. apply find_last; [|apply String.eqb_refl].
    apply Forall_forall. intros row Hrow.
    apply not_true_is_false. intros Huuid.
    assert (Hex : existsb
                    (fun row =>
                       String.eqb (FunctionTrigger.uuid row) new_uuid
                       || (String.eqb (FunctionTrigger.function row) (Function.uuid func)
                           && String.eqb (FunctionTrigger.name row)
                                (TriggerCreateIn.name payload)))
                    (triggers db) = true).
    { apply existsb_exists. exists row. split; [apply list_elem_of_In; exact Hrow|].
      rewrite Huuid. reflexivity. }
    congruence. }
  unfold delete_trigger. rewrite Hfind. cbn [fst snd].
  split; [eexists; reflexivity|].
  unfold delete_scheduled_trigger.
  cbn [functions invocations triggers crontabs periodic_tasks with_periodic_tasks
       with_triggers].
  split; [exact Hf|]. split; [exact Hi|]. split; [|split; [exact Hc|exact Hp]].
  rewrite Ht. cbn [triggers db0 with_triggers]. rewrite filter_app.
  rewrite BreakerFacts.filter_all, BreakerFacts.filter_none.
  - apply app_nil_r.
  - constructor; [|constructor]. intros Hne. apply Hne. reflexivity.
  - apply Forall_forall. intros row Hrow.
    pose proof (next_trigger_id_above db row Hrow). cbn [FunctionTrigger.id t]. lia.
Qed.

End TriggerRoundTripFacts.

(** ** The environment of the agent process *)

Module AgentProcessFacts.
Import AgentProcess.

Lemma inject_kept vars (environ : gmap string string) key :
  key ∉ map fst vars -> snd (inject vars environ) !! key = environ !! key.
Proof.
  revert environ. induction vars as [|[k v] vars IH]; intros environ Hkey; [reflexivity|].
  cbn [inject]. destruct (putenv_error k v); [reflexivity|]. rewrite IH.
  - apply lookup_insert_ne. intros ->. apply Hkey. cbn. apply elem_of_cons. left. reflexivity.
  - intros Hin. apply Hkey. cbn. apply elem_of_cons. right. exact Hin.
Qed.

Lemma inject_set vars (environ : gmap string string) key :
  is_Some (environ !! key) -> is_Some (snd (inject vars environ) !! key).
Proof.
  revert environ. induction vars as [|[k v] vars IH]; intros environ Hset; [exact Hset|].
  cbn [inject]. destruct (putenv_error k v); [exact Hset|]. apply IH.
  destruct (decide (k = key)) as [->|Hne].
  - rewrite lookup_insert_eq. eauto.
  - rewrite lookup_insert_ne by exact Hne. exact Hset.
Qed.

Lemma inject_given vars (environ : gmap string string) key value :
  fst (inject vars environ) = Return tt ->
  NoDup (map fst vars) ->
  (key, value) ∈ vars ->
  snd (inject vars environ) !! key = Some value.
Proof.
  revert environ. induction vars as [|[k v] vars IH]; intros environ Hdone Hnodup Hin;
    [inversion Hin|].
  cbn [inject] in *. destruct (putenv_error k v); [discriminate Hdone|].
  cbn [map fst] in Hnodup. apply NoDup_cons in Hnodup as [Hfresh Hnodup].
  apply elem_of_cons in Hin as [Heq|Hin].
  - injection Heq as -> ->. rewrite inject_kept by exact Hfresh. apply lookup_insert_eq.
  - apply IH; assumption.
Qed.

(** [load_function] only ever sets variables of the process: whether it
returns or raises on a name or value that the system does not take, a
variable that was set is still set, and every variable that is not among the
given ones is as it was, so that what an earlier call has put into the
environment stays there when a later call no longer brings it.  When it
returns, each of the given variables has the given value.  The executor has
the new code, handler and variables in either case. *)
Theorem load_function_only_sets code handler env_vars p :
  let run := load_function code handler env_vars p in
  let vars := default [] env_vars in
  (forall key, is_Some (environ p !! key) -> is_Some (environ (snd run) !! key))
  /\ (forall key, key ∉ map fst vars -> environ (snd run) !! key = environ p !! key)
  /\ (fst run = Return tt -> NoDup (map fst vars) ->
      forall key value, (key, value) ∈ vars -> environ (snd run) !! key = Some value)
  /\ executor (snd run)
     = {| Agent.function_code := Some code; Agent.handler_name := handler;
          Agent.env_vars := vars |}.
Proof.
  cbv zeta. unfold load_function. cbn [fst snd environ executor Agent.load_function
                                       Agent.env_vars].
  split; [intros key; apply inject_set|].
  split; [intros key; apply inject_kept|].
  split; [intros Hdone Hnodup key value; apply inject_given; assumption|reflexivity].
Qed.

(** A function is loaded with a secret and then, the secret having been
removed from it, without: the variable is still in the environment, though
the executor no longer lists it. *)
Example removed_secret_is_still_set :
  let p1 :=
    snd (load_function "def handler(event, context): return 1" "handler"
           (Some [ ("API_KEY", "s3cr3t") ]) (start ∅)) in
  let p2 :=
    snd (load_function "def handler(event, context): return 2" "handler" None p1) in
  environ p2 !! "API_KEY" = Some "s3cr3t"
  /\ Agent.env_vars (executor p2) = []
  /\ Agent.function_code (executor p2) = Some "def handler(event, context): return 2".
Proof. vm_compute. repeat split. Qed.

(** A name that the system refuses stops the loading; the variables before
it are set, those after it are not, and the executor has the new code. *)
Example refused_name_stops_the_loading :
  let run :=
    load_function "def handler(event, context): return 1" "handler"
      (Some [ ("A", "1"); ("B=C", "2"); ("D", "3") ]) (start ∅) in
  fst run = Raise (ValueError "illegal environment variable name")
  /\ environ (snd run) !! "A" = Some "1"
  /\ environ (snd run) !! "D" = None
  /\ Agent.function_code (executor (snd run))
     = Some "def handler(event, context): return 1".
Proof. vm_compute. repeat split. Qed.

End AgentProcessFacts.
